(** * camt_parser: a shallow embedding of the camt.052 parser and its tree serializer

    The development follows [camt_parser.py] top to bottom.  Python exceptions
    are made explicit in a small error monad, the local variables of each
    [parse_xml] loop are the fields of the record under construction, and the
    few functions of the Python standard library whose full behaviour is not
    the subject of this development ([datetime.fromisoformat], [float], [int])
    are taken as an interface, [PyLib]. *)

From Stdlib Require Import String Ascii List ZArith Bool Lia.
Import ListNotations.
Open Scope string_scope.
Set Warnings "-register-all".

(** ** Exceptions and the error monad *)

(** The exception classes the module can raise.  [ParseError] is the module's
    own class (it carries the message); the others are Python built-ins. *)
Inductive exn : Type :=
| ParseError (msg : string)
| ValueError
| TypeError
| AssertionError
| KeyError
| IndexError
| AttributeError
| UnboundLocalError.

Inductive result (A : Type) : Type :=
| Ok (a : A)
| Raise (e : exn).
Arguments Ok {A} a.
Arguments Raise {A} e.

Definition bind {A B : Type} (m : result A) (k : A -> result B) : result B :=
  match m with
  | Ok a => k a
  | Raise e => Raise e
  end.

Notation "x <- m ;; k" := (bind m (fun x => k))
  (at level 61, m at next level, right associativity).

Definition is_parse_error {A : Type} (r : result A) : bool :=
  match r with
  | Raise (ParseError _) => true
  | _ => false
  end.

Definition succeeds {A : Type} (r : result A) : bool :=
  match r with
  | Ok _ => true
  | Raise _ => false
  end.

(** [assert b] *)
Definition py_assert (b : bool) : result unit :=
  if b then Ok tt else Raise AssertionError.

(** ** ElementTree elements *)

Inductive Element : Type :=
  mkElement {
      tag : string;
      text : option string;
      attrib : list (string * string);
      children : list Element
    }.

(** [tree[0]] *)
Definition first_child (tree : Element) : result Element :=
  match children tree with
  | c :: _ => Ok c
  | [] => Raise IndexError
  end.

(** [len(tree)] *)
Definition len (tree : Element) : nat := List.length (children tree).

(** [tree.attrib[k]] *)
Fixpoint attrib_get (k : string) (a : list (string * string)) : result string :=
  match a with
  | [] => Raise KeyError
  | (k', v) :: rest => if k' =? k then Ok v else attrib_get k rest
  end.

(** [for child in tree: ...] with the loop's variables threaded as [s]. *)
Fixpoint for_each {S : Type} (body : S -> Element -> result S)
  (l : list Element) (s : S) : result S :=
  match l with
  | [] => Ok s
  | child :: rest => s' <- body s child ;; for_each body rest s'
  end.

(** ** strip_ns

    [re.match(r"^(?:{([^}]+?)})?(.+)$", tag)], then [m.group(2)]. *)

Definition newline : ascii := "010"%char.
Definition lbrace : ascii := "{"%char.
Definition rbrace : ascii := "}"%char.

(** The longest prefix matched by [.+] (any character but a newline) and
    what is left of the string. *)
Fixpoint span_line (s : string) : string * string :=
  match s with
  | EmptyString => (EmptyString, EmptyString)
  | String c s' =>
      if Ascii.eqb c newline then (EmptyString, s)
      else let (b, r) := span_line s' in (String c b, r)
  end.

(** [(.+)$]: at least one character, up to the end of the string or to the
    newline that ends it. *)
Definition match_local (s : string) : option string :=
  let (body, rest) := span_line s in
  match body with
  | EmptyString => None
  | _ => if (rest =? "") || (rest =? String newline EmptyString)
         then Some body else None
  end.

(** The characters up to the first closing brace, and what follows it. *)
Fixpoint span_brace (s : string) : option (string * string) :=
  match s with
  | EmptyString => None
  | String c s' =>
      if Ascii.eqb c rbrace then Some (EmptyString, s')
      else match span_brace s' with
           | Some (ns, r) => Some (String c ns, r)
           | None => None
           end
  end.

(** [{([^}]+?)}]: what follows the namespace, when there is one. *)
Definition match_namespace (s : string) : option string :=
  match s with
  | String c s' =>
      if Ascii.eqb c lbrace then
        match span_brace s' with
        | Some (String _ _, r) => Some r
        | _ => None
        end
      else None
  | EmptyString => None
  end.

Definition regex_group2 (tg : string) : option string :=
  match match_namespace tg with
  | Some r =>
      match match_local r with
      | Some g => Some g
      | None => match_local tg
      end
  | None => match_local tg
  end.

Definition strip_ns (tg : string) : result string :=
  match regex_group2 tg with
  | Some g => Ok g
  | None => Raise AssertionError
  end.

(** ** The Python library *)

(** [None] stands for the [ValueError] the library function raises on a
    string it does not accept. *)
Class PyLib : Type :=
  {
    datetime : Type;
    datetime_fromisoformat : string -> option datetime;
    datetime_isoformat : datetime -> string;
    pyfloat : Type;
    float_of_str : string -> option pyfloat;
    int_of_str : string -> option Z
  }.

(** [str.lower] on ASCII letters. *)
Definition ascii_lower (c : ascii) : ascii :=
  let n := nat_of_ascii c in
  if (65 <=? n)%nat && (n <=? 90)%nat then ascii_of_nat (n + 32) else c.

Fixpoint lower (s : string) : string :=
  match s with
  | EmptyString => EmptyString
  | String c s' => String (ascii_lower c) (lower s')
  end.

(** [needle in s] *)
Fixpoint contains (needle s : string) : bool :=
  String.prefix needle s ||
  match s with
  | EmptyString => false
  | String _ s' => contains needle s'
  end.

Section Primitives.
Context `{PyLib}.

(** [datetime.fromisoformat(t)] *)
Definition fromisoformat (t : option string) : result datetime :=
  match t with
  | None => Raise TypeError
  | Some s =>
      match datetime_fromisoformat s with
      | Some d => Ok d
      | None => Raise ValueError
      end
  end.

(** [int(t)], [int(t, base=10)] *)
Definition int (t : option string) : result Z :=
  match t with
  | None => Raise TypeError
  | Some s =>
      match int_of_str s with
      | Some z => Ok z
      | None => Raise ValueError
      end
  end.

(** [float(t)] *)
Definition float (t : option string) : result pyfloat :=
  match t with
  | None => Raise TypeError
  | Some s =>
      match float_of_str s with
      | Some f => Ok f
      | None => Raise ValueError
      end
  end.

(** ** The generic tree [to_dict_tree] builds: dicts, lists and scalars *)
Inductive pyval : Type :=
| PNone
| PBool (b : bool)
| PInt (z : Z)
| PFloat (f : pyfloat)
| PStr (s : string)
| PList (l : list pyval)
| PDict (d : list (string * pyval)).

Definition of_opt {A : Type} (f : A -> pyval) (o : option A) : pyval :=
  match o with
  | Some a => f a
  | None => PNone
  end.

(** [d[k]] on a dict of the tree *)
Fixpoint dict_get (k : string) (d : list (string * pyval)) : option pyval :=
  match d with
  | [] => None
  | (k', v) :: rest => if k' =? k then Some v else dict_get k rest
  end.

Definition keys (v : pyval) : list string :=
  match v with
  | PDict d => map fst d
  | _ => []
  end.

(** [x.m()] where [x] may be [None] *)
Definition attr {A B : Type} (o : option A) (m : A -> result B) : result B :=
  match o with
  | Some a => m a
  | None => Raise AttributeError
  end.

(** [x.m() if x else None] for [x] an object or [None] *)
Definition if_set {A : Type} (o : option A) (m : A -> result pyval)
  : result pyval :=
  match o with
  | Some a => m a
  | None => Ok PNone
  end.

(** [[x.m() for x in l]] *)
Fixpoint list_comp {A : Type} (m : A -> result pyval) (l : list A)
  : result (list pyval) :=
  match l with
  | [] => Ok []
  | x :: rest => v <- m x ;; vs <- list_comp m rest ;; Ok (v :: vs)
  end.

(** [s if s else None] for [s] a string or [None] *)
Definition str_or_none (o : option string) : pyval :=
  match o with
  | Some EmptyString => PNone
  | Some s => PStr s
  | None => PNone
  end.

(** [datetime.isoformat()] on a field that may hold [None] *)
Definition isoformat (o : option datetime) : result pyval :=
  attr o (fun d => Ok (PStr (datetime_isoformat d))).

(** [parse_date_or_datetime] *)
Definition parse_date_or_datetime (tree : Element) : result datetime :=
  if negb (len tree =? 1)%nat then
    Raise (ParseError "Maximum number of children in Dt is 1")
  else
    c <- first_child tree ;;
    t <- strip_ns (tag c) ;;
    if negb (t =? "Dt") && negb (t =? "DtTm") then
      Raise (ParseError "Child of 'Dt' must be 'Dt' or 'DtTm'")
    else fromisoformat (text c).
End Primitives.

(** ** parse_generic_kv_list

    A dict comprehension: a key met again keeps its place and takes the new
    value. *)
Definition kvdict : Type := list (string * option string).

Fixpoint dict_set (k : string) (v : option string) (d : kvdict) : kvdict :=
  match d with
  | [] => [(k, v)]
  | (k', v') :: rest =>
      if k' =? k then (k', v) :: rest else (k', v') :: dict_set k v rest
  end.

Definition parse_generic_kv_list (tree : Element) : result kvdict :=
  for_each (fun d child => k <- strip_ns (tag child) ;; Ok (dict_set k (text child) d))
    (children tree) [].

(** [d if d else None] for [d] a dict or [None] *)
Definition dict_or_none `{PyLib} (o : option kvdict) : pyval :=
  match o with
  | Some [] => PNone
  | Some d => PDict (map (fun kv => (fst kv, of_opt PStr (snd kv))) d)
  | None => PNone
  end.

(** [f"Unknown tag '{t}' in <entity>"] and the variant two classes use. *)
Definition unknown_tag (t entity : string) : string :=
  "Unknown tag '" ++ t ++ "' in " ++ entity.

Definition unknown_child (tg entity : string) : string :=
  "Unknown child '" ++ tg ++ " in " ++ entity.

Module MessagePagination.
Record t : Type :=
  mk { page_number : option Z;  (* PgNb *)
       last_page_indication : option bool  (* LastPgInd *) }.

Definition init : t := mk None None.

Definition body `{PyLib} (s : t) (child : Element) : result t :=
  tg <- strip_ns (tag child) ;;
  if tg =? "PgNb" then
    n <- int (text child) ;;
    Ok (mk (Some n) (last_page_indication s))
  else if tg =? "LastPgInd" then
    b <- attr (text child) (fun x => Ok (contains "true" (lower x))) ;;
    Ok (mk (page_number s) (Some b))
  else Raise (ParseError (unknown_child (tag child) "MessagePagination")).

Definition parse_xml `{PyLib} (tree : Element) : result t :=
  for_each body (children tree) init.

Definition to_dict_tree `{PyLib} (self : t) : result pyval :=
  Ok (PDict [("pageNumber", of_opt PInt (page_number self));
             ("last_page_indication", of_opt PBool (last_page_indication self))]).
End MessagePagination.

Module GroupHeader.
Record t `{PyLib} : Type :=
  mk { message_identification : option string;  (* MsgId *)
       creation_time : option datetime;  (* CreDtTm *)
       message_pagination : option MessagePagination.t  (* MsgPgntn *) }.

Definition init `{PyLib} : t := mk _ None None None.

Definition body `{PyLib} (s : t) (child : Element) : result t :=
  tg <- strip_ns (tag child) ;;
  if tg =? "MsgId" then
    Ok (mk _ (text child) (creation_time s) (message_pagination s))
  else if tg =? "CreDtTm" then
    d <- fromisoformat (text child) ;;
    Ok (mk _ (message_identification s) (Some d) (message_pagination s))
  else if tg =? "MsgPgntn" then
    p <- MessagePagination.parse_xml child ;;
    Ok (mk _ (message_identification s) (creation_time s) (Some p))
  else Raise (ParseError (unknown_child (tag child) "GroupHeader")).

Definition parse_xml `{PyLib} (tree : Element) : result t :=
  for_each body (children tree) init.

Definition to_dict_tree `{PyLib} (self : t) : result pyval :=
  ct <- isoformat (creation_time self) ;;
  mp <- if_set (message_pagination self) MessagePagination.to_dict_tree ;;
  Ok (PDict [("messageIdentification", of_opt PStr (message_identification self));
             ("creationTime", ct);
             ("messagePagination", mp)]).
End GroupHeader.

Module FinancialInstitutionIdentification.
Record t : Type :=
  mk { bicfi : option string;  (* BIC *)
       name : option string;  (* Nm *)
       other : option kvdict  (* Othr *) }.

Definition init : t := mk None None None.

Definition body (s : t) (child : Element) : result t :=
  tg <- strip_ns (tag child) ;;
  if tg =? "BIC" then Ok (mk (text child) (name s) (other s))
  else if tg =? "Nm" then Ok (mk (bicfi s) (text child) (other s))
  else if tg =? "Othr" then
    d <- parse_generic_kv_list child ;;
    Ok (mk (bicfi s) (name s) (Some d))
  else Raise (ParseError (unknown_tag tg "FinancialInstitutionIdentification")).

Definition parse_xml (tree : Element) : result t :=
  for_each body (children tree) init.

Definition to_dict_tree `{PyLib} (self : t) : result pyval :=
  Ok (PDict [("bicfi", str_or_none (bicfi self));
             ("name", str_or_none (name self));
             ("other", dict_or_none (other self))]).
End FinancialInstitutionIdentification.

Module Servicer.
Record t : Type :=
  mk { financial_institution_identification
       : option FinancialInstitutionIdentification.t  (* FinInstnId *) }.

Definition init : t := mk None.

Definition body (s : t) (child : Element) : result t :=
  tg <- strip_ns (tag child) ;;
  if tg =? "FinInstnId" then
    f <- FinancialInstitutionIdentification.parse_xml child ;;
    Ok (mk (Some f))
  else Raise (ParseError (unknown_tag tg "Servicer")).

Definition parse_xml (tree : Element) : result t :=
  for_each body (children tree) init.

Definition to_dict_tree `{PyLib} (self : t) : result pyval :=
  f <- if_set (financial_institution_identification self)
         FinancialInstitutionIdentification.to_dict_tree ;;
  Ok (PDict [("financialInstitutionIdentification", f)]).
End Servicer.

(** [assert strip_ns(child[0].tag) == "IBAN"], then [child[0].text] *)
Definition iban_of (child : Element) : result (option string) :=
  c0 <- first_child child ;;
  t0 <- strip_ns (tag c0) ;;
  _ <- py_assert (t0 =? "IBAN") ;;
  Ok (text c0).

Module Account.
Record t : Type :=
  mk { iban : option string;  (* Id/IBAN *)
       currency : option string;  (* Ccy *)
       servicer : option Servicer.t  (* Svcr *) }.

Definition init : t := mk None None None.

Definition body (s : t) (child : Element) : result t :=
  tg <- strip_ns (tag child) ;;
  if tg =? "Id" then
    i <- iban_of child ;;
    Ok (mk i (currency s) (servicer s))
  else if tg =? "Ccy" then Ok (mk (iban s) (text child) (servicer s))
  else if tg =? "Svcr" then
    v <- Servicer.parse_xml child ;;
    Ok (mk (iban s) (currency s) (Some v))
  else Raise (ParseError (unknown_tag tg "Account")).

Definition parse_xml (tree : Element) : result t :=
  for_each body (children tree) init.

Definition to_dict_tree `{PyLib} (self : t) : result pyval :=
  v <- if_set (servicer self) Servicer.to_dict_tree ;;
  Ok (PDict [("iban", of_opt PStr (iban self));
             ("currency", str_or_none (currency self));
             ("servicer", v)]).
End Account.

(** [a and b], where evaluating either side may raise *)
Definition and_then (a b : result bool) : result bool :=
  x <- a ;; if x then b else Ok false.

Infix "&&&" := and_then (at level 40, left associativity).

(** [Enum(v)]: the member whose value is [v], [ValueError] when there is
    none ([None] is the value of no member). *)
Definition enum_lookup {E : Type} (value : E -> string) (members : list E)
  (v : option string) : result E :=
  match v with
  | None => Raise ValueError
  | Some s =>
      match find (fun m => value m =? s) members with
      | Some m => Ok m
      | None => Raise ValueError
      end
  end.

(** [str(x)] for [x] a member of the plain [Enum] class [cls], or [None] *)
Definition enum_str {E : Type} (cls : string) (name : E -> string)
  (x : option E) : string :=
  match x with
  | Some m => cls ++ "." ++ name m
  | None => "None"
  end.

Module BalanceType.
Inductive t : Type :=
| ClosingAvailable
| ClosingBooked
| ForwardAvailable
| OpeningBooked
| PreviouslyClosed
| OpeningAvailable.

Definition value (m : t) : string :=
  match m with
  | ClosingAvailable => "CLAV"
  | ClosingBooked => "CLBD"
  | ForwardAvailable => "FWAV"
  | OpeningBooked => "OPBD"
  | PreviouslyClosed => "PRCD"
  | OpeningAvailable => "OPAV"
  end.

Definition name (m : t) : string :=
  match m with
  | ClosingAvailable => "ClosingAvailable"
  | ClosingBooked => "ClosingBooked"
  | ForwardAvailable => "ForwardAvailable"
  | OpeningBooked => "OpeningBooked"
  | PreviouslyClosed => "PreviouslyClosed"
  | OpeningAvailable => "OpeningAvailable"
  end.

Definition members : list t :=
  [ClosingAvailable; ClosingBooked; ForwardAvailable; OpeningBooked;
   PreviouslyClosed; OpeningAvailable].

Definition of_value : option string -> result t := enum_lookup value members.

Definition str : option t -> string := enum_str "BalanceType" name.

Definition parse_xml (tree : Element) : result t :=
  ok <- Ok (len tree =? 1)%nat
        &&& (c <- first_child tree ;; tg <- strip_ns (tag c) ;;
             Ok (tg =? "CdOrPrtry"))
        &&& (c <- first_child tree ;; Ok (len c =? 1)%nat)
        &&& (c <- first_child tree ;; cc <- first_child c ;;
             tg <- strip_ns (tag cc) ;; Ok (tg =? "Cd")) ;;
  _ <- py_assert ok ;;
  c <- first_child tree ;;
  cc <- first_child c ;;
  of_value (text cc).
End BalanceType.

Module CreditDebit.
Inductive t : Type :=
| Credit
| Debit.

Definition value (m : t) : string :=
  match m with
  | Credit => "CRDT"
  | Debit => "DBIT"
  end.

Definition name (m : t) : string :=
  match m with
  | Credit => "Credit"
  | Debit => "Debit"
  end.

Definition members : list t := [Credit; Debit].

Definition of_value : option string -> result t := enum_lookup value members.

Definition str : option t -> string := enum_str "CreditDebit" name.
End CreditDebit.

Module Amount.
Record t `{PyLib} : Type :=
  mk { value : pyfloat;
       currency : string }.

Definition parse_xml `{PyLib} (tree : Element) : result t :=
  v <- float (text tree) ;;
  c <- attrib_get "Ccy" (attrib tree) ;;
  Ok (mk _ v c).

Definition to_dict_tree `{PyLib} (self : t) : result pyval :=
  Ok (PDict [("value", PFloat (value self));
             ("currency", PStr (currency self))]).
End Amount.

Module Balance.
Record t `{PyLib} : Type :=
  mk { balance_type : option BalanceType.t;  (* Tp *)
       amount : option Amount.t;  (* Amt *)
       credit_debit : option CreditDebit.t;  (* CdtDbtInd *)
       date : option datetime  (* Dt *) }.

Definition init `{PyLib} : t := mk _ None None None None.

Definition body `{PyLib} (s : t) (child : Element) : result t :=
  tg <- strip_ns (tag child) ;;
  if tg =? "Tp" then
    b <- BalanceType.parse_xml child ;;
    Ok (mk _ (Some b) (amount s) (credit_debit s) (date s))
  else if tg =? "Amt" then
    a <- Amount.parse_xml child ;;
    Ok (mk _ (balance_type s) (Some a) (credit_debit s) (date s))
  else if tg =? "CdtDbtInd" then
    c <- CreditDebit.of_value (text child) ;;
    Ok (mk _ (balance_type s) (amount s) (Some c) (date s))
  else if tg =? "Dt" then
    d <- parse_date_or_datetime child ;;
    Ok (mk _ (balance_type s) (amount s) (credit_debit s) (Some d))
  else Raise (ParseError (unknown_tag tg "Balance")).

Definition parse_xml `{PyLib} (tree : Element) : result t :=
  for_each body (children tree) init.

Definition to_dict_tree `{PyLib} (self : t) : result pyval :=
  a <- attr (amount self) Amount.to_dict_tree ;;
  d <- isoformat (date self) ;;
  Ok (PDict [("balanceType", PStr (BalanceType.str (balance_type self)));
             ("amount", a);
             ("creditDebit", PStr (CreditDebit.str (credit_debit self)));
             ("date", d)]).
End Balance.

Module EntryStatus.
Inductive t : Type :=
| Booked
| Information
| Pending
| Future.

Definition value (m : t) : string :=
  match m with
  | Booked => "BOOK"
  | Information => "INFO"
  | Pending => "PDNG"
  | Future => "FUTR"
  end.

Definition name (m : t) : string :=
  match m with
  | Booked => "Booked"
  | Information => "Information"
  | Pending => "Pending"
  | Future => "Future"
  end.

Definition members : list t := [Booked; Information; Pending; Future].

Definition of_value : option string -> result t := enum_lookup value members.

Definition str : option t -> string := enum_str "EntryStatus" name.
End EntryStatus.

Module ProprietaryReference.
Record t : Type :=
  mk { reference_type : option string;  (* Tp *)
       reference : option string  (* Ref *) }.

Definition init : t := mk None None.

Definition body (s : t) (child : Element) : result t :=
  tg <- strip_ns (tag child) ;;
  if tg =? "Tp" then Ok (mk (text child) (reference s))
  else if tg =? "Ref" then Ok (mk (reference_type s) (text child))
  else Raise (ParseError (unknown_tag tg "ProprietaryReference")).

Definition parse_xml (tree : Element) : result t :=
  for_each body (children tree) init.

Definition to_dict_tree `{PyLib} (self : t) : result pyval :=
  Ok (PDict [("type", of_opt PStr (reference_type self));
             ("reference", of_opt PStr (reference self))]).
End ProprietaryReference.

Module References.
Record t : Type :=
  mk { end_to_end_identification : option string;  (* EndToEndId *)
       mandate_identification : option string;  (* MndtId *)
       proprietary_reference : list ProprietaryReference.t  (* Prtry *) }.

Definition init : t := mk None None [].

Definition body (s : t) (child : Element) : result t :=
  tg <- strip_ns (tag child) ;;
  if tg =? "EndToEndId" then
    Ok (mk (text child) (mandate_identification s) (proprietary_reference s))
  else if tg =? "MndtId" then
    Ok (mk (end_to_end_identification s) (text child) (proprietary_reference s))
  else if tg =? "Prtry" then
    p <- ProprietaryReference.parse_xml child ;;
    Ok (mk (end_to_end_identification s) (mandate_identification s)
          (proprietary_reference s ++ [p]))
  else Raise (ParseError (unknown_tag tg "References")).

Definition parse_xml (tree : Element) : result t :=
  for_each body (children tree) init.

Definition to_dict_tree `{PyLib} (self : t) : result pyval :=
  ps <- list_comp ProprietaryReference.to_dict_tree (proprietary_reference self) ;;
  Ok (PDict [("end_to_end_identification",
               str_or_none (end_to_end_identification self));
             ("mandate_identification",
               str_or_none (mandate_identification self));
             ("proprietaryReference", PList ps)]).
End References.

Module ProprietaryBankTransactionCode.
Record t : Type :=
  mk { code : option string;  (* Cd *)
       issuer : option string  (* Issr *) }.

Definition init : t := mk None None.

Definition body (s : t) (child : Element) : result t :=
  tg <- strip_ns (tag child) ;;
  if tg =? "Cd" then Ok (mk (text child) (issuer s))
  else if tg =? "Issr" then Ok (mk (code s) (text child))
  else Raise (ParseError (unknown_tag tg "ProprietaryBankTransactionCode")).

Definition parse_xml (tree : Element) : result t :=
  for_each body (children tree) init.

Definition to_dict_tree `{PyLib} (self : t) : result pyval :=
  Ok (PDict [("code", of_opt PStr (code self));
             ("issuer", of_opt PStr (issuer self))]).
End ProprietaryBankTransactionCode.

Definition parse_bank_transaction_code_from_xml (tree : Element)
  : result ProprietaryBankTransactionCode.t :=
  _ <- py_assert (len tree =? 1)%nat ;;
  c <- first_child tree ;;
  tg <- strip_ns (tag c) ;;
  if tg =? "Prtry" then ProprietaryBankTransactionCode.parse_xml c
  else
    own <- strip_ns (tag tree) ;;
    Raise (ParseError (unknown_tag own "BankTransactionCode")).

Module PrivateIdentification.
Record t : Type :=
  mk { other : option kvdict  (* Othr *) }.

Definition init : t := mk None.

Definition body (s : t) (child : Element) : result t :=
  tg <- strip_ns (tag child) ;;
  if tg =? "Othr" then
    d <- parse_generic_kv_list child ;;
    Ok (mk (Some d))
  else Raise (ParseError (unknown_tag tg "PrivateIdentification")).

Definition parse_xml (tree : Element) : result t :=
  for_each body (children tree) init.

Definition to_dict_tree `{PyLib} (self : t) : result pyval :=
  Ok (PDict [("other", dict_or_none (other self))]).
End PrivateIdentification.

Definition parse_identification_from_xml (tree : Element)
  : result PrivateIdentification.t :=
  _ <- py_assert (len tree =? 1)%nat ;;
  c <- first_child tree ;;
  tg <- strip_ns (tag c) ;;
  if tg =? "PrvtId" then PrivateIdentification.parse_xml c
  else
    own <- strip_ns (tag tree) ;;
    Raise (ParseError (unknown_tag own "Identification")).

Module PartyIdentification.
Record t : Type :=
  mk { name : option string;  (* Nm *)
       identification : option PrivateIdentification.t  (* Id *) }.

Definition init : t := mk None None.

Definition body (s : t) (child : Element) : result t :=
  tg <- strip_ns (tag child) ;;
  if tg =? "Nm" then Ok (mk (text child) (identification s))
  else if tg =? "Id" then
    i <- parse_identification_from_xml child ;;
    Ok (mk (name s) (Some i))
  else Raise (ParseError (unknown_tag tg "PartyIdentification")).

Definition parse_xml (tree : Element) : result t :=
  for_each body (children tree) init.

Definition to_dict_tree `{PyLib} (self : t) : result pyval :=
  i <- if_set (identification self) PrivateIdentification.to_dict_tree ;;
  Ok (PDict [("name", str_or_none (name self));
             ("identification", i)]).
End PartyIdentification.

(** [PartyChoice = PartyIdentification | FinancialInstitutionIdentification] *)
Module PartyChoice.
Inductive t : Type :=
| Party (p : PartyIdentification.t)
| Institution (f : FinancialInstitutionIdentification.t).

Definition to_dict_tree `{PyLib} (self : t) : result pyval :=
  match self with
  | Party p => PartyIdentification.to_dict_tree p
  | Institution f => FinancialInstitutionIdentification.to_dict_tree f
  end.
End PartyChoice.

Definition parse_partchoice_from_xml (tree : Element) : result PartyChoice.t :=
  is_institution <- Ok (len tree =? 1)%nat
                    &&& (c <- first_child tree ;; tg <- strip_ns (tag c) ;;
                         Ok (tg =? "FinInstnId")) ;;
  if is_institution then
    c <- first_child tree ;;
    f <- FinancialInstitutionIdentification.parse_xml c ;;
    Ok (PartyChoice.Institution f)
  else
    p <- PartyIdentification.parse_xml tree ;;
    Ok (PartyChoice.Party p).

Module CashAccount.
Record t : Type :=
  mk { iban : option string  (* Id/IBAN *) }.

Definition init : t := mk None.

Definition body (s : t) (child : Element) : result t :=
  tg <- strip_ns (tag child) ;;
  if tg =? "Id" then
    i <- iban_of child ;;
    Ok (mk i)
  else Raise (ParseError (unknown_tag tg "CashAccount")).

Definition parse_xml (tree : Element) : result t :=
  for_each body (children tree) init.

Definition to_dict_tree `{PyLib} (self : t) : result pyval :=
  Ok (PDict [("iban", of_opt PStr (iban self))]).
End CashAccount.

Module RelatedParties.
Record t : Type :=
  mk { debtor : option PartyChoice.t;  (* Dbtr *)
       debtor_account : option CashAccount.t;  (* DbtrAcct *)
       creditor : option PartyChoice.t;  (* Cdtr *)
       creditor_account : option CashAccount.t  (* CdtrAcct *) }.

Definition init : t := mk None None None None.

Definition body (s : t) (child : Element) : result t :=
  tg <- strip_ns (tag child) ;;
  if tg =? "Dbtr" then
    p <- parse_partchoice_from_xml child ;;
    Ok (mk (Some p) (debtor_account s) (creditor s) (creditor_account s))
  else if tg =? "DbtrAcct" then
    a <- CashAccount.parse_xml child ;;
    Ok (mk (debtor s) (Some a) (creditor s) (creditor_account s))
  else if tg =? "Cdtr" then
    p <- parse_partchoice_from_xml child ;;
    Ok (mk (debtor s) (debtor_account s) (Some p) (creditor_account s))
  else if tg =? "CdtrAcct" then
    a <- CashAccount.parse_xml child ;;
    Ok (mk (debtor s) (debtor_account s) (creditor s) (Some a))
  else Raise (ParseError (unknown_tag tg "RelatedParties")).

Definition parse_xml (tree : Element) : result t :=
  for_each body (children tree) init.

Definition to_dict_tree `{PyLib} (self : t) : result pyval :=
  d <- if_set (debtor self) PartyChoice.to_dict_tree ;;
  da <- if_set (debtor_account self) CashAccount.to_dict_tree ;;
  c <- if_set (creditor self) PartyChoice.to_dict_tree ;;
  ca <- if_set (creditor_account self) CashAccount.to_dict_tree ;;
  Ok (PDict [("debtor", d);
             ("debtorAccount", da);
             ("creditor", c);
             ("creditorAccount", ca)]).
End RelatedParties.

(** [assert len(child[0]) == 1 and strip_ns(child[0].tag) == "FinInstnId"],
    then [FinancialInstitutionIdentification.parse_xml(child[0])] *)
Definition parse_agent (child : Element)
  : result FinancialInstitutionIdentification.t :=
  ok <- (c0 <- first_child child ;; Ok (len c0 =? 1)%nat)
        &&& (c0 <- first_child child ;; tg <- strip_ns (tag c0) ;;
             Ok (tg =? "FinInstnId")) ;;
  _ <- py_assert ok ;;
  c0 <- first_child child ;;
  FinancialInstitutionIdentification.parse_xml c0.

Module RelatedAgents.
Record t : Type :=
  mk { debtor_agent : option FinancialInstitutionIdentification.t;  (* DbtrAgt *)
       creditor_agent : option FinancialInstitutionIdentification.t  (* CdtrAgt *) }.

Definition init : t := mk None None.

Definition body (s : t) (child : Element) : result t :=
  tg <- strip_ns (tag child) ;;
  if tg =? "DbtrAgt" then
    f <- parse_agent child ;;
    Ok (mk (Some f) (creditor_agent s))
  else if tg =? "CdtrAgt" then
    f <- parse_agent child ;;
    Ok (mk (debtor_agent s) (Some f))
  else Raise (ParseError (unknown_tag tg "RelatedAgents")).

Definition parse_xml (tree : Element) : result t :=
  for_each body (children tree) init.

Definition to_dict_tree `{PyLib} (self : t) : result pyval :=
  d <- attr (debtor_agent self) FinancialInstitutionIdentification.to_dict_tree ;;
  c <- attr (creditor_agent self) FinancialInstitutionIdentification.to_dict_tree ;;
  Ok (PDict [("debtorAgent", d);
             ("creditorAgent", c)]).
End RelatedAgents.

Module RelatedRemittanceInformation.
Record t : Type :=
  mk { unstructured : option string  (* Ustrd *) }.

Definition init : t := mk None.

Definition body (s : t) (child : Element) : result t :=
  tg <- strip_ns (tag child) ;;
  if tg =? "Ustrd" then Ok (mk (text child))
  else Raise (ParseError (unknown_tag tg "RelatedRemittanceInformation")).

Definition parse_xml (tree : Element) : result t :=
  for_each body (children tree) init.

Definition to_dict_tree `{PyLib} (self : t) : result pyval :=
  Ok (PDict [("unstructured", of_opt PStr (unstructured self))]).
End RelatedRemittanceInformation.

Module TransactionDetails.
Record t : Type :=
  mk { references : option References.t;  (* Refs *)
       bank_transaction_code : option ProprietaryBankTransactionCode.t;  (* BkTxCd *)
       related_parties : option RelatedParties.t;  (* RltdPties *)
       related_agents : option RelatedAgents.t;  (* RltdAgts *)
       related_remittance_information
       : list RelatedRemittanceInformation.t  (* RmtInf *) }.

(** The variables of [parse_xml].  [related_agent] is set to [None] before
    the loop and never read; [related_agents] is assigned in the loop only,
    so it is not bound ([None] here) until a [RltdAgts] child is met. *)
Record locals : Type :=
  mk_locals { v_references : option References.t;
              v_bank_transaction_code : option ProprietaryBankTransactionCode.t;
              v_related_parties : option RelatedParties.t;
              v_related_agent : option RelatedAgents.t;
              v_related_agents : option RelatedAgents.t;
              v_related_remittance_information
              : list RelatedRemittanceInformation.t }.

Definition init : locals := mk_locals None None None None None [].

Definition body (s : locals) (child : Element) : result locals :=
  tg <- strip_ns (tag child) ;;
  if tg =? "Refs" then
    r <- References.parse_xml child ;;
    Ok (mk_locals (Some r) (v_bank_transaction_code s) (v_related_parties s)
          (v_related_agent s) (v_related_agents s)
          (v_related_remittance_information s))
  else if tg =? "BkTxCd" then
    b <- parse_bank_transaction_code_from_xml child ;;
    Ok (mk_locals (v_references s) (Some b) (v_related_parties s)
          (v_related_agent s) (v_related_agents s)
          (v_related_remittance_information s))
  else if tg =? "RltdPties" then
    p <- RelatedParties.parse_xml child ;;
    Ok (mk_locals (v_references s) (v_bank_transaction_code s) (Some p)
          (v_related_agent s) (v_related_agents s)
          (v_related_remittance_information s))
  else if tg =? "RltdAgts" then
    a <- RelatedAgents.parse_xml child ;;
    Ok (mk_locals (v_references s) (v_bank_transaction_code s)
          (v_related_parties s) (v_related_agent s) (Some a)
          (v_related_remittance_information s))
  else if tg =? "RmtInf" then
    r <- RelatedRemittanceInformation.parse_xml child ;;
    Ok (mk_locals (v_references s) (v_bank_transaction_code s)
          (v_related_parties s) (v_related_agent s) (v_related_agents s)
          (v_related_remittance_information s ++ [r]))
  else Raise (ParseError (unknown_tag tg "TransactionDetails")).

(** Reading [related_agents] in the [return] while it is not bound raises
    [UnboundLocalError]. *)
Definition finish (s : locals) : result t :=
  match v_related_agents s with
  | Some a =>
      Ok (mk (v_references s) (v_bank_transaction_code s)
            (v_related_parties s) (Some a)
            (v_related_remittance_information s))
  | None => Raise UnboundLocalError
  end.

Definition parse_xml (tree : Element) : result t :=
  s <- for_each body (children tree) init ;;
  finish s.

Definition to_dict_tree `{PyLib} (self : t) : result pyval :=
  r <- if_set (references self) References.to_dict_tree ;;
  b <- if_set (bank_transaction_code self)
         ProprietaryBankTransactionCode.to_dict_tree ;;
  a <- if_set (related_agents self) RelatedAgents.to_dict_tree ;;
  p <- if_set (related_parties self) RelatedParties.to_dict_tree ;;
  i <- list_comp RelatedRemittanceInformation.to_dict_tree
         (related_remittance_information self) ;;
  Ok (PDict [("references", r);
             ("bankTransactionCode", b);
             ("relatedAgents", a);
             ("relatedParties", p);
             ("relatedRemittanceInformation", PList i)]).
End TransactionDetails.

Module EntryDetails.
Record t : Type :=
  mk { transaction_details : option TransactionDetails.t  (* TxDtls *) }.

Definition init : t := mk None.

Definition body (s : t) (child : Element) : result t :=
  tg <- strip_ns (tag child) ;;
  if tg =? "TxDtls" then
    d <- TransactionDetails.parse_xml child ;;
    Ok (mk (Some d))
  else Raise (ParseError (unknown_tag tg "EntryDetails")).

Definition parse_xml (tree : Element) : result t :=
  for_each body (children tree) init.

Definition to_dict_tree `{PyLib} (self : t) : result pyval :=
  d <- attr (transaction_details self) TransactionDetails.to_dict_tree ;;
  Ok (PDict [("transactionDetails", d)]).
End EntryDetails.

Module Entry.
Record t `{PyLib} : Type :=
  mk { amount : option Amount.t;  (* Amt *)
       credit_debit : option CreditDebit.t;  (* CdtDbtInd *)
       status : option EntryStatus.t;  (* Sts *)
       booking_date : option datetime;  (* BookgDt *)
       value_date : option datetime;  (* ValDt *)
       account_service_reference : option string;  (* AcctSvcrRef *)
       details : list EntryDetails.t;  (* NtryDtls *)
       additional_information : option string  (* AddtlNtryInf *) }.

Definition init `{PyLib} : t := mk _ None None None None None None [] None.

Definition body `{PyLib} (s : t) (child : Element) : result t :=
  tg <- strip_ns (tag child) ;;
  if tg =? "Amt" then
    a <- Amount.parse_xml child ;;
    Ok (mk _ (Some a) (credit_debit s) (status s) (booking_date s)
          (value_date s) (account_service_reference s) (details s)
          (additional_information s))
  else if tg =? "CdtDbtInd" then
    c <- CreditDebit.of_value (text child) ;;
    Ok (mk _ (amount s) (Some c) (status s) (booking_date s)
          (value_date s) (account_service_reference s) (details s)
          (additional_information s))
  else if tg =? "Sts" then
    e <- EntryStatus.of_value (text child) ;;
    Ok (mk _ (amount s) (credit_debit s) (Some e) (booking_date s)
          (value_date s) (account_service_reference s) (details s)
          (additional_information s))
  else if tg =? "BookgDt" then
    d <- parse_date_or_datetime child ;;
    Ok (mk _ (amount s) (credit_debit s) (status s) (Some d)
          (value_date s) (account_service_reference s) (details s)
          (additional_information s))
  else if tg =? "ValDt" then
    d <- parse_date_or_datetime child ;;
    Ok (mk _ (amount s) (credit_debit s) (status s) (booking_date s)
          (Some d) (account_service_reference s) (details s)
          (additional_information s))
  else if tg =? "AcctSvcrRef" then
    Ok (mk _ (amount s) (credit_debit s) (status s) (booking_date s)
          (value_date s) (text child) (details s)
          (additional_information s))
  else if tg =? "NtryDtls" then
    d <- EntryDetails.parse_xml child ;;
    Ok (mk _ (amount s) (credit_debit s) (status s) (booking_date s)
          (value_date s) (account_service_reference s) (details s ++ [d])
          (additional_information s))
  else if tg =? "AddtlNtryInf" then
    Ok (mk _ (amount s) (credit_debit s) (status s) (booking_date s)
          (value_date s) (account_service_reference s) (details s)
          (text child))
  else if tg =? "BkTxCd" then
    (* There is just a stray "<BkTxCd/>" in there: pass *)
    Ok s
  else Raise (ParseError (unknown_tag tg "Entry")).

Definition parse_xml `{PyLib} (tree : Element) : result t :=
  for_each body (children tree) init.

Definition to_dict_tree `{PyLib} (self : t) : result pyval :=
  a <- attr (amount self) Amount.to_dict_tree ;;
  b <- if_set (booking_date self) (fun d => Ok (PStr (datetime_isoformat d))) ;;
  v <- if_set (value_date self) (fun d => Ok (PStr (datetime_isoformat d))) ;;
  ds <- list_comp EntryDetails.to_dict_tree (details self) ;;
  Ok (PDict [("amount", a);
             ("creditDebit", PStr (CreditDebit.str (credit_debit self)));
             ("status", PStr (EntryStatus.str (status self)));
             ("bookingDate", b);
             ("valueDate", v);
             ("accountServiceReference",
               of_opt PStr (account_service_reference self));
             ("details", PList ds);
             ("additionalInformation",
               of_opt PStr (additional_information self))]).
End Entry.

Module Report.
Record t `{PyLib} : Type :=
  mk { identification : option string;  (* Id *)
       eletronic_sequence_number : option Z;  (* ElctrncSeqNb *)
       creation_time : option datetime;  (* CreDtTm *)
       account : option Account.t;  (* Acct *)
       balances : list Balance.t;  (* Bal *)
       entries : list Entry.t  (* Ntry *) }.

Definition init `{PyLib} : t := mk _ None None None None [] [].

Definition body `{PyLib} (s : t) (child : Element) : result t :=
  tg <- strip_ns (tag child) ;;
  if tg =? "Id" then
    Ok (mk _ (text child) (eletronic_sequence_number s) (creation_time s)
          (account s) (balances s) (entries s))
  else if tg =? "ElctrncSeqNb" then
    n <- int (text child) ;;
    Ok (mk _ (identification s) (Some n) (creation_time s)
          (account s) (balances s) (entries s))
  else if tg =? "CreDtTm" then
    d <- fromisoformat (text child) ;;
    Ok (mk _ (identification s) (eletronic_sequence_number s) (Some d)
          (account s) (balances s) (entries s))
  else if tg =? "Acct" then
    a <- Account.parse_xml child ;;
    Ok (mk _ (identification s) (eletronic_sequence_number s) (creation_time s)
          (Some a) (balances s) (entries s))
  else if tg =? "Bal" then
    b <- Balance.parse_xml child ;;
    Ok (mk _ (identification s) (eletronic_sequence_number s) (creation_time s)
          (account s) (balances s ++ [b]) (entries s))
  else if tg =? "Ntry" then
    e <- Entry.parse_xml child ;;
    Ok (mk _ (identification s) (eletronic_sequence_number s) (creation_time s)
          (account s) (balances s) (entries s ++ [e]))
  else Raise (ParseError (unknown_tag tg "Report")).

Definition parse_xml `{PyLib} (tree : Element) : result t :=
  for_each body (children tree) init.

Definition to_dict_tree `{PyLib} (self : t) : result pyval :=
  c <- if_set (creation_time self) (fun d => Ok (PStr (datetime_isoformat d))) ;;
  a <- attr (account self) Account.to_dict_tree ;;
  bs <- list_comp Balance.to_dict_tree (balances self) ;;
  es <- list_comp Entry.to_dict_tree (entries self) ;;
  Ok (PDict [("identification", of_opt PStr (identification self));
             ("eletronicSequenceNumber",
               of_opt PInt (eletronic_sequence_number self));
             ("creationTime", c);
             ("account", a);
             ("balances", PList bs);
             ("entries", PList es)]).
End Report.

Module BankToCustomerAccountReport.
Record t `{PyLib} : Type :=
  mk { group_header : option GroupHeader.t;  (* GrpHdr *)
       reports : list Report.t  (* Rpt *) }.

Definition init `{PyLib} : t := mk _ None [].

Definition body `{PyLib} (s : t) (child : Element) : result t :=
  tg <- strip_ns (tag child) ;;
  if tg =? "GrpHdr" then
    g <- GroupHeader.parse_xml child ;;
    Ok (mk _ (Some g) (reports s))
  else if tg =? "Rpt" then
    r <- Report.parse_xml child ;;
    Ok (mk _ (group_header s) (reports s ++ [r]))
  else Raise (ParseError (unknown_tag tg "BkToCstmrAcctRpt")).

Definition parse_xml `{PyLib} (tree : Element) : result t :=
  for_each body (children tree) init.

Definition to_dict_tree `{PyLib} (self : t) : result pyval :=
  g <- attr (group_header self) GroupHeader.to_dict_tree ;;
  rs <- list_comp Report.to_dict_tree (reports self) ;;
  Ok (PDict [("groupHeader", g);
             ("reports", PList rs)]).
End BankToCustomerAccountReport.

(** [a or b], where evaluating either side may raise *)
Definition or_else (a b : result bool) : result bool :=
  x <- a ;; if x then Ok true else b.

(** [parse_etree], on the root element of the tree *)
Definition parse_etree `{PyLib} (root : Element)
  : result BankToCustomerAccountReport.t :=
  tg <- strip_ns (tag root) ;;
  if negb (tg =? "Document") then Raise (ParseError "Root must be 'Document'")
  else
    bad <- or_else (Ok (negb (len root =? 1)%nat))
             (c <- first_child root ;; t0 <- strip_ns (tag c) ;;
              Ok (negb (t0 =? "BkToCstmrAcctRpt"))) ;;
    if bad then Raise (ParseError "Document must be BkToCstmrAcctRpt")
    else
      c <- first_child root ;;
      BankToCustomerAccountReport.parse_xml c.

(** What [main] does between reading the file and printing:
    [parse_etree], then [to_dict_tree]. *)
Definition parse_and_serialize `{PyLib} (root : Element) : result pyval :=
  doc <- parse_etree root ;;
  BankToCustomerAccountReport.to_dict_tree doc.

(** ** Reading and building trees *)

Definition with_children (tree : Element) (l : list Element) : Element :=
  mkElement (tag tree) (text tree) (attrib tree) l.

(** [strip_ns(child.tag) == T], false when [strip_ns] raises *)
Definition tag_is (T : string) (child : Element) : bool :=
  match strip_ns (tag child) with
  | Ok t => t =? T
  | Raise _ => false
  end.

(** The last of the elements of [l] whose stripped tag is [T]. *)
Fixpoint last_child (T : string) (l : list Element) : option Element :=
  match l with
  | [] => None
  | c :: rest =>
      match last_child T rest with
      | Some c' => Some c'
      | None => if tag_is T c then Some c else None
      end
  end.

Definition no_child (T : string) (tree : Element) : bool :=
  forallb (fun c => negb (tag_is T c)) (children tree).

Definition is_none {A : Type} (o : option A) : bool :=
  match o with
  | None => true
  | Some _ => false
  end.

Definition is_nil {A : Type} (l : list A) : bool :=
  match l with
  | [] => true
  | _ :: _ => false
  end.

(** A step into the generic tree: a dict key or a list index. *)
Inductive selector : Type :=
| Key (k : string)
| Index (i : nat).

Fixpoint get_path `{PyLib} (p : list selector) (v : pyval) : option pyval :=
  match p with
  | [] => Some v
  | Key k :: p' =>
      match v with
      | PDict d => match dict_get k d with
                   | Some v' => get_path p' v'
                   | None => None
                   end
      | _ => None
      end
  | Index i :: p' =>
      match v with
      | PList l => match nth_error l i with
                   | Some v' => get_path p' v'
                   | None => None
                   end
      | _ => None
      end
  end.

(** [v[k]] for [v] a dict of the tree *)
Definition field_of `{PyLib} (k : string) (v : pyval) : option pyval :=
  get_path [Key k] v.

(** ** camelCase keys *)

Definition is_lower_letter (c : ascii) : bool :=
  let n := nat_of_ascii c in (97 <=? n)%nat && (n <=? 122)%nat.

Definition is_upper_letter (c : ascii) : bool :=
  let n := nat_of_ascii c in (65 <=? n)%nat && (n <=? 90)%nat.

Definition is_digit (c : ascii) : bool :=
  let n := nat_of_ascii c in (48 <=? n)%nat && (n <=? 57)%nat.

Fixpoint all_chars (p : ascii -> bool) (s : string) : bool :=
  match s with
  | EmptyString => true
  | String c s' => p c && all_chars p s'
  end.

(** A lower-case letter first, then letters and digits only: words are
    joined by capitals, never by an underscore. *)
Definition is_camel_case (s : string) : bool :=
  match s with
  | EmptyString => false
  | String c s' =>
      is_lower_letter c
      && all_chars (fun x => is_lower_letter x || is_upper_letter x || is_digit x) s'
  end.

(** ** A reference instance of the library

    Enough of [datetime.fromisoformat], [float] and [int] to run the parser
    on the documents below: calendar dates [YYYY-MM-DD], date-times
    [YYYY-MM-DDTHH:MM:SS], unsigned decimal literals and signed integers.
    Python accepts more spellings than these; what the instance accepts it
    decodes as Python does. *)
Module Reference.
Definition digit_of (c : ascii) : option nat :=
  if is_digit c then Some (nat_of_ascii c - 48)%nat else None.

(** The number a non-empty string of digits denotes. *)
Fixpoint digits_from (acc : nat) (s : string) : option nat :=
  match s with
  | EmptyString => Some acc
  | String c s' =>
      match digit_of c with
      | Some d => digits_from (10 * acc + d) s'
      | None => None
      end
  end.

Definition number (s : string) : option nat :=
  match s with
  | EmptyString => None
  | _ => digits_from 0 s
  end.

Record date_time : Type :=
  mk_dt { year : nat; month : nat; day : nat;
          hour : nat; minute : nat; second : nat }.

Definition is_leap (y : nat) : bool :=
  ((y mod 4 =? 0) && negb (y mod 100 =? 0) || (y mod 400 =? 0))%nat.

Definition days_in_month (y m : nat) : nat :=
  match m with
  | 2 => if is_leap y then 29 else 28
  | 4 | 6 | 9 | 11 => 30
  | _ => 31
  end.

Definition parse_date (s : string) : option (nat * nat * nat) :=
  if negb (String.length s =? 10)%nat then None
  else if negb ((substring 4 1 s =? "-") && (substring 7 1 s =? "-")) then None
  else
    match number (substring 0 4 s), number (substring 5 2 s),
          number (substring 8 2 s) with
    | Some y, Some m, Some d =>
        if ((1 <=? y) && (1 <=? m) && (m <=? 12) && (1 <=? d)
            && (d <=? days_in_month y m))%nat
        then Some (y, m, d) else None
    | _, _, _ => None
    end.

Definition parse_time (s : string) : option (nat * nat * nat) :=
  if negb (String.length s =? 8)%nat then None
  else if negb ((substring 2 1 s =? ":") && (substring 5 1 s =? ":")) then None
  else
    match number (substring 0 2 s), number (substring 3 2 s),
          number (substring 6 2 s) with
    | Some h, Some m, Some x =>
        if ((h <=? 23) && (m <=? 59) && (x <=? 59))%nat
        then Some (h, m, x) else None
    | _, _, _ => None
    end.

Definition from_iso (s : string) : option date_time :=
  match parse_date (substring 0 10 s) with
  | Some (y, m, d) =>
      if (String.length s =? 10)%nat then Some (mk_dt y m d 0 0 0)
      else if substring 10 1 s =? "T" then
        match parse_time (substring 11 (String.length s - 11) s) with
        | Some (h, mi, x) => Some (mk_dt y m d h mi x)
        | None => None
        end
      else None
  | None => None
  end.

Definition digit_char (n : nat) : string :=
  String (ascii_of_nat (48 + n mod 10)) EmptyString.

Definition two (n : nat) : string := digit_char (n / 10) ++ digit_char n.

Definition four (n : nat) : string := two (n / 100) ++ two (n mod 100).

Definition to_iso (d : date_time) : string :=
  four (year d) ++ "-" ++ two (month d) ++ "-" ++ two (day d) ++ "T"
  ++ two (hour d) ++ ":" ++ two (minute d) ++ ":" ++ two (second d).

(** A decimal: [units * 10 ^ - places], with no trailing zero among the
    places.  It stands for the double nearest to that number. *)
Record decimal : Type := mk_decimal { units : nat; places : nat }.

Fixpoint normalize (p u : nat) : decimal :=
  match p with
  | O => mk_decimal u 0
  | S p' => if (u mod 10 =? 0)%nat then normalize p' (u / 10)
            else mk_decimal u p
  end.

(** The part of [s] before the first point, and the part after it. *)
Fixpoint split_point (s : string) : string * option string :=
  match s with
  | EmptyString => (EmptyString, None)
  | String c s' =>
      if Ascii.eqb c "."%char then (EmptyString, Some s')
      else let (a, b) := split_point s' in (String c a, b)
  end.

Definition decimal_of_str (s : string) : option decimal :=
  match split_point s with
  | (a, None) =>
      match number a with
      | Some n => Some (mk_decimal n 0)
      | None => None
      end
  | (a, Some b) =>
      match number a, number b with
      | Some n, Some _ =>
          match digits_from n b with
          | Some u => Some (normalize (String.length b) u)
          | None => None
          end
      | _, _ => None
      end
  end.

Definition integer_of_str (s : string) : option Z :=
  match s with
  | String "-" s' =>
      match number s' with
      | Some n => Some (- Z.of_nat n)%Z
      | None => None
      end
  | String "+" s' =>
      match number s' with
      | Some n => Some (Z.of_nat n)
      | None => None
      end
  | _ =>
      match number s with
      | Some n => Some (Z.of_nat n)
      | None => None
      end
  end.

Definition lib : PyLib :=
  {| datetime := date_time;
     datetime_fromisoformat := from_iso;
     datetime_isoformat := to_iso;
     pyfloat := decimal;
     float_of_str := decimal_of_str;
     int_of_str := integer_of_str |}.
End Reference.

(** ** Example documents *)

Definition leaf (tg txt : string) : Element := mkElement tg (Some txt) [] [].

Definition node (tg : string) (l : list Element) : Element :=
  mkElement tg None [] l.

Definition camt_ns : string := "{urn:iso:std:iso:20022:tech:xsd:camt.052.001.02}".

(** An entry of 12.34 EUR, credited, booked on 2 January 2024. *)
Definition example_entry : Element :=
  node (camt_ns ++ "Ntry")
    [mkElement (camt_ns ++ "Amt") (Some "12.34") [("Ccy", "EUR")] [];
     leaf (camt_ns ++ "CdtDbtInd") "CRDT";
     leaf (camt_ns ++ "Sts") "BOOK";
     node (camt_ns ++ "BookgDt") [leaf (camt_ns ++ "Dt") "2024-01-02"]].

(** A document with a group header and one report holding that entry. *)
Definition example_document : Element :=
  node (camt_ns ++ "Document")
    [node (camt_ns ++ "BkToCstmrAcctRpt")
       [node (camt_ns ++ "GrpHdr")
          [leaf (camt_ns ++ "MsgId") "MSG1";
           leaf (camt_ns ++ "CreDtTm") "2024-01-01T00:00:00"];
        node (camt_ns ++ "Rpt")
          [leaf (camt_ns ++ "Id") "RPT1";
           node (camt_ns ++ "Acct")
             [node (camt_ns ++ "Id") [leaf (camt_ns ++ "IBAN") "DE00"]];
           example_entry]]].

(** An [Amt] element with a child no parser knows. *)
Definition amount_with_child : Element :=
  mkElement "Amt" (Some "12.34") [("Ccy", "EUR")] [node "Foo" []].

(** A [Rpt] element without an [Acct] child. *)
Definition report_without_account : Element :=
  node "Rpt" [leaf "Id" "RPT1"].




(** A [RltdAgts] element whose debtor agent is identified by a BIC and a
    name, and one whose [DbtrAgt] has a second child. *)
Definition institution_with_bic_and_name : Element :=
  node "FinInstnId" [leaf "BIC" "MARKDEF1100"; leaf "Nm" "Bundesbank"].

Definition agents_with_bic_and_name : Element :=
  node "RltdAgts" [node "DbtrAgt" [institution_with_bic_and_name]].

Definition agents_with_second_child : Element :=
  node "RltdAgts"
    [node "DbtrAgt" [node "FinInstnId" [leaf "BIC" "MARKDEF1100"]; node "Foo" []]].

(** A [Tp] element that holds a proprietary balance type. *)
Definition proprietary_balance_type : Element :=
  node "Tp" [node "CdOrPrtry" [leaf "Prtry" "XYZ"]].

(** A [Dbtr] element with an institution next to a name. *)
Definition debtor_with_name_and_institution : Element :=
  node "Dbtr" [leaf "Nm" "ACME"; node "FinInstnId" [leaf "BIC" "MARKDEF1100"]].

(** A document whose one transaction names a debtor agent and no creditor
    agent. *)
Definition agents_with_debtor_only : Element :=
  node "RltdAgts" [node "DbtrAgt" [node "FinInstnId" [leaf "BIC" "MARKDEF1100"]]].

Definition document_with_debtor_agent_only : Element :=
  node "Document"
    [node "BkToCstmrAcctRpt"
       [node "GrpHdr" [leaf "MsgId" "MSG1"; leaf "CreDtTm" "2024-01-01T00:00:00"];
        node "Rpt"
          [leaf "Id" "RPT1";
           node "Acct" [node "Id" [leaf "IBAN" "DE00"]];
           node "Ntry"
             [mkElement "Amt" (Some "12.34") [("Ccy", "EUR")] [];
              leaf "CdtDbtInd" "CRDT";
              leaf "Sts" "BOOK";
              node "NtryDtls" [node "TxDtls" [agents_with_debtor_only]]]]]].

(** An institution identified by an [Othr] element without children. *)
Definition institution_with_empty_other : Element :=
  node "FinInstnId" [node "Othr" []].

(** ** Statements about the parsers *)

(** The closed-world policy of a parser whose loop runs [body] from [init]:
    when the loop reaches a child whose stripped tag is none of [known], the
    parse ends in a [ParseError] whose message holds that tag and the name
    of the entity. *)
Definition closed_world {S R : Type} (body : S -> Element -> result S)
  (init : S) (parse_xml : Element -> result R) (entity : string)
  (known : list string) : Prop :=
  forall tree pre child post s t,
    children tree = (pre ++ child :: post)%list ->
    for_each body pre init = Ok s ->
    strip_ns (tag child) = Ok t ->
    ~ In t known ->
    exists msg,
      parse_xml tree = Raise (ParseError msg)
      /\ contains t msg = true
      /\ contains entity msg = true.

(** What a parser does about the children its element lacks.  [fields] pairs
    a child tag with the test that the field this child fills is unset
    ([None], or the empty list). *)
Definition absent_unset {R : Type} (parse_xml : Element -> result R)
  (fields : list (string * (R -> bool))) : Prop :=
  forall tree r,
    parse_xml tree = Ok r ->
    Forall (fun f => no_child (fst f) tree = true -> snd f r = true) fields.

(** A parser that asks for no child at all: an element without children
    parses to the record [blank]. *)
Definition accepts_empty {R : Type} (parse_xml : Element -> result R)
  (blank : R) : Prop :=
  forall tree, children tree = [] -> parse_xml tree = Ok blank.

(** A place where a parser decodes a child tagged [T] with [decode]: when
    the loop reaches such a child and [decode] raises, the parse raises the
    same exception. *)
Definition surfaces_at {S R A : Type} (body : S -> Element -> result S)
  (init : S) (parse_xml : Element -> result R) (T : string)
  (decode : Element -> result A) : Prop :=
  forall tree pre child post s e,
    children tree = (pre ++ child :: post)%list ->
    for_each body pre init = Ok s ->
    strip_ns (tag child) = Ok T ->
    decode child = Raise e ->
    parse_xml tree = Raise e.

(** The keys of the dict a serializer returns. *)
Definition keys_of `{PyLib} (r : result pyval) : list string :=
  match r with
  | Ok v => keys v
  | Raise _ => []
  end.

(** The value a serializer returns under the key [k]. *)
Definition serialized `{PyLib} (k : string) (r : result pyval) : option pyval :=
  match r with
  | Ok v => field_of k v
  | Raise _ => None
  end.







(** ** Statements about the rest of the module *)

(** [c not in s] *)
Definition no_ascii (c : ascii) (s : string) : bool :=
  all_chars (fun x => negb (Ascii.eqb x c)) s.

Definition starts_with_brace (s : string) : bool :=
  match s with
  | String c _ => Ascii.eqb c lbrace
  | EmptyString => false
  end.

(** [d.get(k)] on the dict of [parse_generic_kv_list]: [None] when [k] is no
    key, [Some v] when it is, with [v] the text (possibly [None]). *)
Fixpoint kv_get (k : string) (d : kvdict) : option (option string) :=
  match d with
  | [] => None
  | (k', v) :: rest => if k' =? k then Some v else kv_get k rest
  end.

(** What [decode] makes of the children tagged [T], in document order. *)
Fixpoint collect {A : Type} (T : string) (decode : Element -> result A)
  (l : list Element) : result (list A) :=
  match l with
  | [] => Ok []
  | c :: rest =>
      if tag_is T c then
        a <- decode c ;; xs <- collect T decode rest ;; Ok (a :: xs)
      else collect T decode rest
  end.

(** A list field: it holds what [decode] made of every child tagged [T], in
    document order. *)
Definition gathers {R A : Type} (parse_xml : Element -> result R) (T : string)
  (decode : Element -> result A) (proj : R -> list A) : Prop :=
  forall tree r,
    parse_xml tree = Ok r ->
    collect T decode (children tree) = Ok (proj r).

(** A singular field: it holds what [decode] made of the last child tagged
    [T], and [None] when there is no such child. *)
Definition fills {R A : Type} (parse_xml : Element -> result R) (T : string)
  (decode : Element -> result A) (proj : R -> option A) : Prop :=
  forall tree r,
    parse_xml tree = Ok r ->
    match last_child T (children tree) with
    | Some c => exists a, decode c = Ok a /\ proj r = Some a
    | None => proj r = None
    end.

(** A serializer that raises nothing but [AttributeError]. *)
Definition raises_only_attribute_error `{PyLib} {R : Type}
  (to_dict_tree : R -> result pyval) : Prop :=
  forall r e, to_dict_tree r = Raise e -> e = AttributeError.

(** A serializer that returns a tree for every record. *)
Definition never_raises `{PyLib} {R : Type}
  (to_dict_tree : R -> result pyval) : Prop :=
  forall r, succeeds (to_dict_tree r) = true.

(** A list field in the tree: under [key] there is a list that holds, in
    order, the trees of the elements of the field. *)
Definition emits_list `{PyLib} {R A : Type} (to_dict_tree : R -> result pyval)
  (key : string) (proj : R -> list A) (item : A -> result pyval) : Prop :=
  forall r v,
    to_dict_tree r = Ok v ->
    exists vs,
      field_of key v = Some (PList vs)
      /\ Forall2 (fun x y => item x = Ok y) (proj r) vs.

(** A serializer whose dicts always have the keys [ks], in that order. *)
Definition has_keys `{PyLib} {R : Type} (to_dict_tree : R -> result pyval)
  (ks : list string) : Prop :=
  forall r v, to_dict_tree r = Ok v -> keys v = ks.

(** [tree] without its children tagged [T]. *)
Definition without (T : string) (tree : Element) : Element :=
  with_children tree (filter (fun c => negb (tag_is T c)) (children tree)).

(** * Properties *)

(** ** The error monad and the loop *)

Lemma bind_ok {A B : Type} (m : result A) (k : A -> result B) (b : B) :
  bind m k = Ok b -> exists a, m = Ok a /\ k a = Ok b.
Proof.
  destruct m as [a|e]; simpl; intros E; [exists a; auto | discriminate].
Qed.

Section Loop.
Context {S : Type} (body : S -> Element -> result S).

Lemma for_each_app (l1 l2 : list Element) (s : S) :
  for_each body (l1 ++ l2) s = (s' <- for_each body l1 s ;; for_each body l2 s').
Proof.
  revert s; induction l1 as [|c l1 IH]; intros s; simpl; [reflexivity|].
  destruct (body s c) as [s1|e]; simpl; [apply IH | reflexivity].
Qed.

(** An exception raised by the body at a child the loop reaches is the
    outcome of the loop: nothing catches it, and no later child is seen. *)
Lemma for_each_raises (pre post : list Element) (c : Element) (s s1 : S) (e : exn) :
  for_each body pre s = Ok s1 ->
  body s1 c = Raise e ->
  for_each body (pre ++ c :: post) s = Raise e.
Proof.
  intros Hpre Hc. rewrite for_each_app, Hpre. simpl. rewrite Hc. reflexivity.
Qed.

(** A child the body passes over may as well not be there. *)
Lemma for_each_skip (pre post : list Element) (c : Element) (s : S) :
  (forall s1, body s1 c = Ok s1) ->
  for_each body (pre ++ c :: post) s = for_each body (pre ++ post) s.
Proof.
  intros Hc. rewrite !for_each_app.
  destruct (for_each body pre s) as [s1|e]; simpl; [|reflexivity].
  rewrite Hc. reflexivity.
Qed.

(** A variable that only children tagged [T] assign keeps its value over
    children none of which is tagged [T]. *)
Lemma for_each_keeps {A : Type} (proj : S -> A) (T : string) :
  (forall s c s', body s c = Ok s' -> tag_is T c = false -> proj s' = proj s) ->
  forall l s s',
    for_each body l s = Ok s' ->
    forallb (fun c => negb (tag_is T c)) l = true ->
    proj s' = proj s.
Proof.
  intros Hstep; induction l as [|c l IH]; intros s s' Hrun Hl; simpl in *.
  - congruence.
  - apply bind_ok in Hrun as (s1 & H1 & H2).
    apply andb_prop in Hl as [Hc Hl].
    rewrite (IH _ _ H2 Hl). apply (Hstep _ _ _ H1).
    now destruct (tag_is T c).
Qed.

(** A variable that children tagged [T] assign, and no other child does,
    ends as the last such child left it. *)
Lemma for_each_last {A : Type} (proj : S -> A) (T : string)
  (R : Element -> A -> Prop) :
  (forall s c s', body s c = Ok s' ->
                  if tag_is T c then R c (proj s') else proj s' = proj s) ->
  forall l s s',
    for_each body l s = Ok s' ->
    match last_child T l with
    | Some c => R c (proj s')
    | None => proj s' = proj s
    end.
Proof.
  intros Hstep; induction l as [|c l IH]; intros s s' Hrun; simpl in *.
  - congruence.
  - apply bind_ok in Hrun as (s1 & H1 & H2).
    specialize (IH _ _ H2). specialize (Hstep _ _ _ H1).
    destruct (last_child T l) as [c'|]; [exact IH|].
    destruct (tag_is T c); congruence.
Qed.
End Loop.

(** ** Substrings *)

Lemma prefix_append (n b : string) : String.prefix n (n ++ b) = true.
Proof.
  induction n as [|c n IH]; simpl; [now destruct b|].
  rewrite IH. destruct (ascii_dec c c); congruence.
Qed.

Lemma prefix_elim (n s : string) :
  String.prefix n s = true -> exists b, s = n ++ b.
Proof.
  revert s; induction n as [|c n IH]; intros s.
  - intros _. now exists s.
  - destruct s as [|c' s]; simpl; [discriminate|].
    destruct (ascii_dec c c') as [->|]; [|discriminate].
    intros H. destruct (IH _ H) as [b ->]. now exists b.
Qed.

Lemma contains_unfold (n s : string) :
  contains n s = String.prefix n s
                 || match s with
                    | EmptyString => false
                    | String _ s' => contains n s'
                    end.
Proof. destruct s; reflexivity. Qed.

Lemma contains_intro (a n b : string) : contains n (a ++ n ++ b) = true.
Proof.
  induction a as [|c a IH].
  - simpl. rewrite contains_unfold, prefix_append. reflexivity.
  - rewrite contains_unfold. simpl. rewrite IH. apply orb_true_r.
Qed.

Lemma contains_elim (n s : string) :
  contains n s = true -> exists a b, s = a ++ n ++ b.
Proof.
  induction s as [|c s IH]; rewrite contains_unfold; intros H;
    apply orb_prop in H as [H|H].
  - apply prefix_elim in H as [b ->]. now exists "", b.
  - discriminate.
  - apply prefix_elim in H as [b ->]. now exists "", b.
  - destruct (IH H) as (a & b & ->). now exists (String c a), b.
Qed.

Lemma append_assoc (a b c : string) : (a ++ b) ++ c = a ++ b ++ c.
Proof. induction a as [|x a IH]; simpl; [reflexivity | now rewrite IH]. Qed.

Lemma append_empty (a : string) : a ++ "" = a.
Proof. induction a as [|x a IH]; simpl; [reflexivity | now rewrite IH]. Qed.

Lemma contains_trans (a b c : string) :
  contains a b = true -> contains b c = true -> contains a c = true.
Proof.
  intros H1 H2.
  apply contains_elim in H1 as (p & q & ->).
  apply contains_elim in H2 as (p' & q' & ->).
  replace (p' ++ (p ++ a ++ q) ++ q') with ((p' ++ p) ++ a ++ (q ++ q')).
  - apply contains_intro.
  - now rewrite !append_assoc.
Qed.

(** ** strip_ns returns a part of the tag *)

Lemma span_line_append (s b r : string) : span_line s = (b, r) -> s = b ++ r.
Proof.
  revert b r; induction s as [|c s IH]; intros b r; simpl.
  - now intros [= <- <-].
  - destruct (Ascii.eqb c newline).
    + now intros [= <- <-].
    + destruct (span_line s) as [b' r'] eqn:E. intros [= <- <-].
      simpl. now rewrite (IH _ _ eq_refl).
Qed.

Lemma match_local_contains (s g : string) :
  match_local s = Some g -> contains g s = true.
Proof.
  unfold match_local. destruct (span_line s) as [b r] eqn:E.
  apply span_line_append in E as ->.
  destruct b as [|c b]; [discriminate|].
  destruct (_ || _); [|discriminate]. intros [= <-].
  exact (contains_intro "" (String c b) r).
Qed.

Lemma span_brace_append (s ns r : string) :
  span_brace s = Some (ns, r) -> s = ns ++ String rbrace r.
Proof.
  revert ns r; induction s as [|c s IH]; intros ns r; simpl; [discriminate|].
  destruct (Ascii.eqb c rbrace) eqn:E.
  - apply Ascii.eqb_eq in E as ->. now intros [= <- <-].
  - destruct (span_brace s) as [[ns' r']|]; [|discriminate].
    intros [= <- <-]. simpl. now rewrite (IH _ _ eq_refl).
Qed.

Lemma match_namespace_suffix (s r : string) :
  match_namespace s = Some r -> exists p, s = p ++ r.
Proof.
  unfold match_namespace. destruct s as [|c s]; [discriminate|].
  destruct (Ascii.eqb c lbrace); [|discriminate].
  destruct (span_brace s) as [[ns r']|] eqn:E; [|discriminate].
  destruct ns as [|x ns]; [discriminate|]. intros [= <-].
  apply span_brace_append in E as ->.
  exists (String c (String x ns ++ String rbrace "")).
  simpl. f_equal. f_equal. now rewrite append_assoc.
Qed.

Lemma strip_ns_contains (tg t : string) :
  strip_ns tg = Ok t -> contains t tg = true.
Proof.
  unfold strip_ns. destruct (regex_group2 tg) as [g|] eqn:E; [|discriminate].
  intros [= <-]. unfold regex_group2 in E.
  destruct (match_namespace tg) as [r|] eqn:En;
    [|now apply match_local_contains].
  destruct (match_local r) as [g'|] eqn:El;
    [|now apply match_local_contains].
  injection E as <-.
  apply match_namespace_suffix in En as [p ->].
  apply match_local_contains in El.
  apply contains_trans with (b := r); [exact El|].
  rewrite <- (append_empty r) at 2. apply contains_intro.
Qed.

Lemma contains_end (a n : string) : contains n (a ++ n) = true.
Proof. rewrite <- (append_empty n) at 2. apply contains_intro. Qed.

Lemma unknown_tag_names (t entity : string) :
  contains t (unknown_tag t entity) = true
  /\ contains entity (unknown_tag t entity) = true.
Proof.
  unfold unknown_tag. split.
  - apply contains_intro.
  - assert (E : "Unknown tag '" ++ t ++ "' in " ++ entity
                = ("Unknown tag '" ++ t ++ "' in ") ++ entity)
      by now rewrite !append_assoc.
    rewrite E. apply contains_end.
Qed.

Lemma unknown_child_names (tg t entity : string) :
  strip_ns tg = Ok t ->
  contains t (unknown_child tg entity) = true
  /\ contains entity (unknown_child tg entity) = true.
Proof.
  intros Ht. unfold unknown_child. split.
  - apply contains_trans with (b := tg); [now apply strip_ns_contains|].
    apply contains_intro.
  - assert (E : "Unknown child '" ++ tg ++ " in " ++ entity
                = ("Unknown child '" ++ tg ++ " in ") ++ entity)
      by now rewrite !append_assoc.
    rewrite E. apply contains_end.
Qed.

(** ** The closed-world dispatch *)

Ltac not_known Hnot :=
  repeat match goal with
    | |- context [?t =? ?k] =>
        destruct (String.eqb_spec t k) as [->|_];
        [exfalso; apply Hnot; simpl; tauto|]
    end.

Ltac closed_world_by body parse_xml names :=
  intros tree pre child post s t Hch Hpre Ht Hnot;
  eexists; split;
  [ unfold parse_xml; rewrite Hch;
    erewrite (for_each_raises _ _ _ _ _ _ _ Hpre);
    [ reflexivity
    | unfold body; rewrite Ht; simpl; not_known Hnot; reflexivity ]
  | names ].

Section ClosedWorld.
Context `{PyLib}.

Lemma closed_world_MessagePagination :
  closed_world MessagePagination.body MessagePagination.init MessagePagination.parse_xml
    "MessagePagination"
    ["PgNb"; "LastPgInd"].
Proof.
  closed_world_by @MessagePagination.body @MessagePagination.parse_xml
    ltac:(now apply unknown_child_names).
Qed.

Lemma closed_world_GroupHeader :
  closed_world GroupHeader.body GroupHeader.init GroupHeader.parse_xml
    "GroupHeader"
    ["MsgId"; "CreDtTm"; "MsgPgntn"].
Proof.
  closed_world_by @GroupHeader.body @GroupHeader.parse_xml
    ltac:(now apply unknown_child_names).
Qed.

Lemma closed_world_FinancialInstitutionIdentification :
  closed_world FinancialInstitutionIdentification.body FinancialInstitutionIdentification.init FinancialInstitutionIdentification.parse_xml
    "FinancialInstitutionIdentification"
    ["BIC"; "Nm"; "Othr"].
Proof.
  closed_world_by @FinancialInstitutionIdentification.body @FinancialInstitutionIdentification.parse_xml
    ltac:(apply unknown_tag_names).
Qed.

Lemma closed_world_Servicer :
  closed_world Servicer.body Servicer.init Servicer.parse_xml
    "Servicer"
    ["FinInstnId"].
Proof.
  closed_world_by @Servicer.body @Servicer.parse_xml
    ltac:(apply unknown_tag_names).
Qed.

Lemma closed_world_Account :
  closed_world Account.body Account.init Account.parse_xml
    "Account"
    ["Id"; "Ccy"; "Svcr"].
Proof.
  closed_world_by @Account.body @Account.parse_xml
    ltac:(apply unknown_tag_names).
Qed.

Lemma closed_world_Balance :
  closed_world Balance.body Balance.init Balance.parse_xml
    "Balance"
    ["Tp"; "Amt"; "CdtDbtInd"; "Dt"].
Proof.
  closed_world_by @Balance.body @Balance.parse_xml
    ltac:(apply unknown_tag_names).
Qed.

Lemma closed_world_ProprietaryReference :
  closed_world ProprietaryReference.body ProprietaryReference.init ProprietaryReference.parse_xml
    "ProprietaryReference"
    ["Tp"; "Ref"].
Proof.
  closed_world_by @ProprietaryReference.body @ProprietaryReference.parse_xml
    ltac:(apply unknown_tag_names).
Qed.

Lemma closed_world_References :
  closed_world References.body References.init References.parse_xml
    "References"
    ["EndToEndId"; "MndtId"; "Prtry"].
Proof.
  closed_world_by @References.body @References.parse_xml
    ltac:(apply unknown_tag_names).
Qed.

Lemma closed_world_ProprietaryBankTransactionCode :
  closed_world ProprietaryBankTransactionCode.body ProprietaryBankTransactionCode.init ProprietaryBankTransactionCode.parse_xml
    "ProprietaryBankTransactionCode"
    ["Cd"; "Issr"].
Proof.
  closed_world_by @ProprietaryBankTransactionCode.body @ProprietaryBankTransactionCode.parse_xml
    ltac:(apply unknown_tag_names).
Qed.

Lemma closed_world_PrivateIdentification :
  closed_world PrivateIdentification.body PrivateIdentification.init PrivateIdentification.parse_xml
    "PrivateIdentification"
    ["Othr"].
Proof.
  closed_world_by @PrivateIdentification.body @PrivateIdentification.parse_xml
    ltac:(apply unknown_tag_names).
Qed.

Lemma closed_world_PartyIdentification :
  closed_world PartyIdentification.body PartyIdentification.init PartyIdentification.parse_xml
    "PartyIdentification"
    ["Nm"; "Id"].
Proof.
  closed_world_by @PartyIdentification.body @PartyIdentification.parse_xml
    ltac:(apply unknown_tag_names).
Qed.

Lemma closed_world_CashAccount :
  closed_world CashAccount.body CashAccount.init CashAccount.parse_xml
    "CashAccount"
    ["Id"].
Proof.
  closed_world_by @CashAccount.body @CashAccount.parse_xml
    ltac:(apply unknown_tag_names).
Qed.

Lemma closed_world_RelatedParties :
  closed_world RelatedParties.body RelatedParties.init RelatedParties.parse_xml
    "RelatedParties"
    ["Dbtr"; "DbtrAcct"; "Cdtr"; "CdtrAcct"].
Proof.
  closed_world_by @RelatedParties.body @RelatedParties.parse_xml
    ltac:(apply unknown_tag_names).
Qed.

Lemma closed_world_RelatedAgents :
  closed_world RelatedAgents.body RelatedAgents.init RelatedAgents.parse_xml
    "RelatedAgents"
    ["DbtrAgt"; "CdtrAgt"].
Proof.
  closed_world_by @RelatedAgents.body @RelatedAgents.parse_xml
    ltac:(apply unknown_tag_names).
Qed.

Lemma closed_world_RelatedRemittanceInformation :
  closed_world RelatedRemittanceInformation.body RelatedRemittanceInformation.init RelatedRemittanceInformation.parse_xml
    "RelatedRemittanceInformation"
    ["Ustrd"].
Proof.
  closed_world_by @RelatedRemittanceInformation.body @RelatedRemittanceInformation.parse_xml
    ltac:(apply unknown_tag_names).
Qed.

Lemma closed_world_TransactionDetails :
  closed_world TransactionDetails.body TransactionDetails.init TransactionDetails.parse_xml
    "TransactionDetails"
    ["Refs"; "BkTxCd"; "RltdPties"; "RltdAgts"; "RmtInf"].
Proof.
  closed_world_by @TransactionDetails.body @TransactionDetails.parse_xml
    ltac:(apply unknown_tag_names).
Qed.

Lemma closed_world_EntryDetails :
  closed_world EntryDetails.body EntryDetails.init EntryDetails.parse_xml
    "EntryDetails"
    ["TxDtls"].
Proof.
  closed_world_by @EntryDetails.body @EntryDetails.parse_xml
    ltac:(apply unknown_tag_names).
Qed.

Lemma closed_world_Entry :
  closed_world Entry.body Entry.init Entry.parse_xml
    "Entry"
    ["Amt"; "CdtDbtInd"; "Sts"; "BookgDt"; "ValDt"; "AcctSvcrRef"; "NtryDtls"; "AddtlNtryInf"; "BkTxCd"].
Proof.
  closed_world_by @Entry.body @Entry.parse_xml
    ltac:(apply unknown_tag_names).
Qed.

Lemma closed_world_Report :
  closed_world Report.body Report.init Report.parse_xml
    "Report"
    ["Id"; "ElctrncSeqNb"; "CreDtTm"; "Acct"; "Bal"; "Ntry"].
Proof.
  closed_world_by @Report.body @Report.parse_xml
    ltac:(apply unknown_tag_names).
Qed.

Lemma closed_world_BankToCustomerAccountReport :
  closed_world BankToCustomerAccountReport.body BankToCustomerAccountReport.init BankToCustomerAccountReport.parse_xml
    "BkToCstmrAcctRpt"
    ["GrpHdr"; "Rpt"].
Proof.
  closed_world_by @BankToCustomerAccountReport.body @BankToCustomerAccountReport.parse_xml
    ltac:(apply unknown_tag_names).
Qed.

(** The stray [BkTxCd] of an [Entry] is passed over. *)
Lemma Entry_body_BkTxCd (s : Entry.t) (child : Element) :
  strip_ns (tag child) = Ok "BkTxCd" -> Entry.body s child = Ok s.
Proof. intros Ht. unfold Entry.body. rewrite Ht. reflexivity. Qed.

Lemma Entry_ignores_BkTxCd (tree : Element) (pre post : list Element)
  (child : Element) :
  children tree = (pre ++ child :: post)%list ->
  strip_ns (tag child) = Ok "BkTxCd" ->
  Entry.parse_xml tree = Entry.parse_xml (with_children tree (pre ++ post)).
Proof.
  intros Hch Ht. unfold Entry.parse_xml. rewrite Hch. simpl.
  apply for_each_skip. intros s1. now apply Entry_body_BkTxCd.
Qed.

(** C1 (as amended): each of the twenty parsers that loop over the
    children of their element and dispatch on the stripped tag rejects a
    child it does not know as soon as the loop reaches it, with a
    [ParseError] whose message holds the tag of that child and the name of
    the entity.  The one tag a loop accepts without reading it is [BkTxCd]
    in [Entry]: the outcome is that of the same element without that
    child.  [Amount.parse_xml] has no loop: it reads the text and the [Ccy]
    attribute, and the children of its element have no effect. *)
Theorem C1_closed_world_dispatch :
  closed_world MessagePagination.body MessagePagination.init MessagePagination.parse_xml
       "MessagePagination"
       ["PgNb"; "LastPgInd"]
  /\ closed_world GroupHeader.body GroupHeader.init GroupHeader.parse_xml
       "GroupHeader"
       ["MsgId"; "CreDtTm"; "MsgPgntn"]
  /\ closed_world FinancialInstitutionIdentification.body FinancialInstitutionIdentification.init FinancialInstitutionIdentification.parse_xml
       "FinancialInstitutionIdentification"
       ["BIC"; "Nm"; "Othr"]
  /\ closed_world Servicer.body Servicer.init Servicer.parse_xml
       "Servicer"
       ["FinInstnId"]
  /\ closed_world Account.body Account.init Account.parse_xml
       "Account"
       ["Id"; "Ccy"; "Svcr"]
  /\ closed_world Balance.body Balance.init Balance.parse_xml
       "Balance"
       ["Tp"; "Amt"; "CdtDbtInd"; "Dt"]
  /\ closed_world ProprietaryReference.body ProprietaryReference.init ProprietaryReference.parse_xml
       "ProprietaryReference"
       ["Tp"; "Ref"]
  /\ closed_world References.body References.init References.parse_xml
       "References"
       ["EndToEndId"; "MndtId"; "Prtry"]
  /\ closed_world ProprietaryBankTransactionCode.body ProprietaryBankTransactionCode.init ProprietaryBankTransactionCode.parse_xml
       "ProprietaryBankTransactionCode"
       ["Cd"; "Issr"]
  /\ closed_world PrivateIdentification.body PrivateIdentification.init PrivateIdentification.parse_xml
       "PrivateIdentification"
       ["Othr"]
  /\ closed_world PartyIdentification.body PartyIdentification.init PartyIdentification.parse_xml
       "PartyIdentification"
       ["Nm"; "Id"]
  /\ closed_world CashAccount.body CashAccount.init CashAccount.parse_xml
       "CashAccount"
       ["Id"]
  /\ closed_world RelatedParties.body RelatedParties.init RelatedParties.parse_xml
       "RelatedParties"
       ["Dbtr"; "DbtrAcct"; "Cdtr"; "CdtrAcct"]
  /\ closed_world RelatedAgents.body RelatedAgents.init RelatedAgents.parse_xml
       "RelatedAgents"
       ["DbtrAgt"; "CdtrAgt"]
  /\ closed_world RelatedRemittanceInformation.body RelatedRemittanceInformation.init RelatedRemittanceInformation.parse_xml
       "RelatedRemittanceInformation"
       ["Ustrd"]
  /\ closed_world TransactionDetails.body TransactionDetails.init TransactionDetails.parse_xml
       "TransactionDetails"
       ["Refs"; "BkTxCd"; "RltdPties"; "RltdAgts"; "RmtInf"]
  /\ closed_world EntryDetails.body EntryDetails.init EntryDetails.parse_xml
       "EntryDetails"
       ["TxDtls"]
  /\ closed_world Entry.body Entry.init Entry.parse_xml
       "Entry"
       ["Amt"; "CdtDbtInd"; "Sts"; "BookgDt"; "ValDt"; "AcctSvcrRef"; "NtryDtls"; "AddtlNtryInf"; "BkTxCd"]
  /\ closed_world Report.body Report.init Report.parse_xml
       "Report"
       ["Id"; "ElctrncSeqNb"; "CreDtTm"; "Acct"; "Bal"; "Ntry"]
  /\ closed_world BankToCustomerAccountReport.body BankToCustomerAccountReport.init BankToCustomerAccountReport.parse_xml
       "BkToCstmrAcctRpt"
       ["GrpHdr"; "Rpt"]
  /\ (forall tree pre child post,
         children tree = (pre ++ child :: post)%list ->
         strip_ns (tag child) = Ok "BkTxCd" ->
         Entry.parse_xml tree
         = Entry.parse_xml (with_children tree (pre ++ post)))
  /\ (forall tree l,
         Amount.parse_xml (with_children tree l) = Amount.parse_xml tree).
Proof.
  repeat match goal with |- _ /\ _ => split end.
  - exact closed_world_MessagePagination.
  - exact closed_world_GroupHeader.
  - exact closed_world_FinancialInstitutionIdentification.
  - exact closed_world_Servicer.
  - exact closed_world_Account.
  - exact closed_world_Balance.
  - exact closed_world_ProprietaryReference.
  - exact closed_world_References.
  - exact closed_world_ProprietaryBankTransactionCode.
  - exact closed_world_PrivateIdentification.
  - exact closed_world_PartyIdentification.
  - exact closed_world_CashAccount.
  - exact closed_world_RelatedParties.
  - exact closed_world_RelatedAgents.
  - exact closed_world_RelatedRemittanceInformation.
  - exact closed_world_TransactionDetails.
  - exact closed_world_EntryDetails.
  - exact closed_world_Entry.
  - exact closed_world_Report.
  - exact closed_world_BankToCustomerAccountReport.
  - intros tree pre child post. apply Entry_ignores_BkTxCd.
  - reflexivity.
Qed.
End ClosedWorld.

(** C1, as stated, fails on [Amount]: the [Amt] element below has a child
    [Foo], which is no tag [Amount.parse_xml] knows, and the parse returns an
    amount all the same. *)
Lemma C1_counterexample :
  children amount_with_child = [node "Foo" []]
  /\ strip_ns (tag (node "Foo" [])) = Ok "Foo"
  /\ @Amount.parse_xml Reference.lib amount_with_child
     = Ok (Amount.mk Reference.lib (Reference.mk_decimal 1234 2) "EUR")
  /\ is_parse_error (@Amount.parse_xml Reference.lib amount_with_child) = false.
Proof. repeat split. Qed.

Lemma C1_witness :
  exists msg,
    @Entry.parse_xml Reference.lib
      (node "Ntry" [leaf "Sts" "BOOK"; node "Foo" []; leaf "Sts" "nonsense"])
    = Raise (ParseError msg)
    /\ contains "Foo" msg = true
    /\ contains "Entry" msg = true.
Proof.
  pose proof (@C1_closed_world_dispatch Reference.lib) as C.
  do 17 apply proj2 in C. apply proj1 in C.
  apply (C (node "Ntry" [leaf "Sts" "BOOK"; node "Foo" []; leaf "Sts" "nonsense"])
           [leaf "Sts" "BOOK"] (node "Foo" []) [leaf "Sts" "nonsense"]
           _ "Foo" eq_refl eq_refl eq_refl).
  simpl. intuition discriminate.
Defined.

(** ** Children the element lacks *)

(** A child that is not tagged [T] leaves the variable for [T] as it was. *)
Ltac keeps body :=
  let s := fresh "s" in
  let c := fresh "c" in
  let s' := fresh "s'" in
  let Hb := fresh "Hb" in
  let Ht := fresh "Ht" in
  intros s c s' Hb Ht;
  match body with
  | ?h _ => unfold h in Hb
  | _ => unfold body in Hb
  end;
  unfold tag_is in Ht;
  destruct (strip_ns (tag c)); simpl in Hb; [|discriminate];
  repeat match type of Hb with
    | context [?x =? ?k] => destruct (x =? k) eqn:?
    end;
  try discriminate;
  try (apply bind_ok in Hb as (? & ? & Hb));
  injection Hb as <-; reflexivity.

Ltac unset_field body r Hr Hno :=
  match goal with
  | |- ?lhs = true =>
      let f := eval pattern r in lhs in
      match f with
      | ?g _ =>
          match type of Hno with
          | no_child ?T _ = true =>
              let K := fresh "K" in
              assert (K : forall s c s',
                         body s c = Ok s' -> tag_is T c = false -> g s' = g s)
                by keeps body;
              rewrite (for_each_keeps body g T K _ _ _ Hr Hno)
          end
      end
  end; reflexivity.

Ltac unset_by body :=
  let tree := fresh "tree" in
  let r := fresh "r" in
  let Hr := fresh "Hr" in
  let Hno := fresh "Hno" in
  intros tree r Hr;
  repeat (apply Forall_cons; [|]); try apply Forall_nil;
  cbn [fst snd]; intros Hno; unset_field body r Hr Hno.

Section Absent.
Context `{PyLib}.

Lemma absent_unset_MessagePagination :
  absent_unset MessagePagination.parse_xml
    [("PgNb", fun r => is_none (MessagePagination.page_number r));
     ("LastPgInd", fun r => is_none (MessagePagination.last_page_indication r))].
Proof. unset_by MessagePagination.body. Qed.

Lemma absent_unset_GroupHeader :
  absent_unset GroupHeader.parse_xml
    [("MsgId", fun r => is_none (GroupHeader.message_identification r));
     ("CreDtTm", fun r => is_none (GroupHeader.creation_time r));
     ("MsgPgntn", fun r => is_none (GroupHeader.message_pagination r))].
Proof. unset_by GroupHeader.body. Qed.

Lemma absent_unset_FinancialInstitutionIdentification :
  absent_unset FinancialInstitutionIdentification.parse_xml
    [("BIC", fun r => is_none (FinancialInstitutionIdentification.bicfi r));
     ("Nm", fun r => is_none (FinancialInstitutionIdentification.name r));
     ("Othr", fun r => is_none (FinancialInstitutionIdentification.other r))].
Proof. unset_by FinancialInstitutionIdentification.body. Qed.

Lemma absent_unset_Servicer :
  absent_unset Servicer.parse_xml
    [("FinInstnId", fun r => is_none (Servicer.financial_institution_identification r))].
Proof. unset_by Servicer.body. Qed.

Lemma absent_unset_Account :
  absent_unset Account.parse_xml
    [("Id", fun r => is_none (Account.iban r));
     ("Ccy", fun r => is_none (Account.currency r));
     ("Svcr", fun r => is_none (Account.servicer r))].
Proof. unset_by Account.body. Qed.

Lemma absent_unset_Balance :
  absent_unset Balance.parse_xml
    [("Tp", fun r => is_none (Balance.balance_type r));
     ("Amt", fun r => is_none (Balance.amount r));
     ("CdtDbtInd", fun r => is_none (Balance.credit_debit r));
     ("Dt", fun r => is_none (Balance.date r))].
Proof. unset_by Balance.body. Qed.

Lemma absent_unset_ProprietaryReference :
  absent_unset ProprietaryReference.parse_xml
    [("Tp", fun r => is_none (ProprietaryReference.reference_type r));
     ("Ref", fun r => is_none (ProprietaryReference.reference r))].
Proof. unset_by ProprietaryReference.body. Qed.

Lemma absent_unset_References :
  absent_unset References.parse_xml
    [("EndToEndId", fun r => is_none (References.end_to_end_identification r));
     ("MndtId", fun r => is_none (References.mandate_identification r));
     ("Prtry", fun r => is_nil (References.proprietary_reference r))].
Proof. unset_by References.body. Qed.

Lemma absent_unset_ProprietaryBankTransactionCode :
  absent_unset ProprietaryBankTransactionCode.parse_xml
    [("Cd", fun r => is_none (ProprietaryBankTransactionCode.code r));
     ("Issr", fun r => is_none (ProprietaryBankTransactionCode.issuer r))].
Proof. unset_by ProprietaryBankTransactionCode.body. Qed.

Lemma absent_unset_PrivateIdentification :
  absent_unset PrivateIdentification.parse_xml
    [("Othr", fun r => is_none (PrivateIdentification.other r))].
Proof. unset_by PrivateIdentification.body. Qed.

Lemma absent_unset_PartyIdentification :
  absent_unset PartyIdentification.parse_xml
    [("Nm", fun r => is_none (PartyIdentification.name r));
     ("Id", fun r => is_none (PartyIdentification.identification r))].
Proof. unset_by PartyIdentification.body. Qed.

Lemma absent_unset_CashAccount :
  absent_unset CashAccount.parse_xml
    [("Id", fun r => is_none (CashAccount.iban r))].
Proof. unset_by CashAccount.body. Qed.

Lemma absent_unset_RelatedParties :
  absent_unset RelatedParties.parse_xml
    [("Dbtr", fun r => is_none (RelatedParties.debtor r));
     ("DbtrAcct", fun r => is_none (RelatedParties.debtor_account r));
     ("Cdtr", fun r => is_none (RelatedParties.creditor r));
     ("CdtrAcct", fun r => is_none (RelatedParties.creditor_account r))].
Proof. unset_by RelatedParties.body. Qed.

Lemma absent_unset_RelatedAgents :
  absent_unset RelatedAgents.parse_xml
    [("DbtrAgt", fun r => is_none (RelatedAgents.debtor_agent r));
     ("CdtrAgt", fun r => is_none (RelatedAgents.creditor_agent r))].
Proof. unset_by RelatedAgents.body. Qed.

Lemma absent_unset_RelatedRemittanceInformation :
  absent_unset RelatedRemittanceInformation.parse_xml
    [("Ustrd", fun r => is_none (RelatedRemittanceInformation.unstructured r))].
Proof. unset_by RelatedRemittanceInformation.body. Qed.

Lemma TransactionDetails_finish (s : TransactionDetails.locals)
  (r : TransactionDetails.t) :
  TransactionDetails.finish s = Ok r ->
  TransactionDetails.references r = TransactionDetails.v_references s
  /\ TransactionDetails.bank_transaction_code r
     = TransactionDetails.v_bank_transaction_code s
  /\ TransactionDetails.related_parties r
     = TransactionDetails.v_related_parties s
  /\ TransactionDetails.related_agents r
     = TransactionDetails.v_related_agents s
  /\ TransactionDetails.related_remittance_information r
     = TransactionDetails.v_related_remittance_information s.
Proof.
  unfold TransactionDetails.finish.
  destruct (TransactionDetails.v_related_agents s) eqn:E; [|discriminate].
  intros [= <-]. simpl. repeat split; congruence.
Qed.

Lemma absent_unset_TransactionDetails :
  absent_unset TransactionDetails.parse_xml
    [("Refs", fun r => is_none (TransactionDetails.references r));
     ("BkTxCd", fun r => is_none (TransactionDetails.bank_transaction_code r));
     ("RltdPties", fun r => is_none (TransactionDetails.related_parties r));
     ("RmtInf", fun r => is_nil (TransactionDetails.related_remittance_information r))].
Proof.
  intros tree r Hr. unfold TransactionDetails.parse_xml in Hr.
  apply bind_ok in Hr as (s & Hs & Hf).
  apply TransactionDetails_finish in Hf as (E1 & E2 & E3 & _ & E5).
  repeat (apply Forall_cons; [|]); try apply Forall_nil;
    cbn [fst snd]; intros Hno; rewrite ?E1, ?E2, ?E3, ?E5;
    unset_field TransactionDetails.body s Hs Hno.
Qed.

Lemma absent_unset_EntryDetails :
  absent_unset EntryDetails.parse_xml
    [("TxDtls", fun r => is_none (EntryDetails.transaction_details r))].
Proof. unset_by EntryDetails.body. Qed.

Lemma absent_unset_Entry :
  absent_unset Entry.parse_xml
    [("Amt", fun r => is_none (Entry.amount r));
     ("CdtDbtInd", fun r => is_none (Entry.credit_debit r));
     ("Sts", fun r => is_none (Entry.status r));
     ("BookgDt", fun r => is_none (Entry.booking_date r));
     ("ValDt", fun r => is_none (Entry.value_date r));
     ("AcctSvcrRef", fun r => is_none (Entry.account_service_reference r));
     ("NtryDtls", fun r => is_nil (Entry.details r));
     ("AddtlNtryInf", fun r => is_none (Entry.additional_information r))].
Proof. unset_by Entry.body. Qed.

Lemma absent_unset_Report :
  absent_unset Report.parse_xml
    [("Id", fun r => is_none (Report.identification r));
     ("ElctrncSeqNb", fun r => is_none (Report.eletronic_sequence_number r));
     ("CreDtTm", fun r => is_none (Report.creation_time r));
     ("Acct", fun r => is_none (Report.account r));
     ("Bal", fun r => is_nil (Report.balances r));
     ("Ntry", fun r => is_nil (Report.entries r))].
Proof. unset_by Report.body. Qed.

Lemma absent_unset_BankToCustomerAccountReport :
  absent_unset BankToCustomerAccountReport.parse_xml
    [("GrpHdr", fun r => is_none (BankToCustomerAccountReport.group_header r));
     ("Rpt", fun r => is_nil (BankToCustomerAccountReport.reports r))].
Proof. unset_by BankToCustomerAccountReport.body. Qed.

(** C2 (as amended): a field whose child tag the element lacks is left
    unset ([None], or the empty list) in the record the parser returns,
    whether the schema makes it optional or required: no parser checks that
    a child the schema requires was there, so that a [Rpt] without [Acct]
    parses to a report whose account is [None], and an element without any
    child parses to the record with every field unset.  ([TransactionDetails]
    is stated for its other fields only: what it does about [related_agents]
    is not part of the statement.) *)
Theorem C2_absent_fields_unset :
  absent_unset MessagePagination.parse_xml
       [("PgNb", fun r => is_none (MessagePagination.page_number r));
        ("LastPgInd", fun r => is_none (MessagePagination.last_page_indication r))]
  /\ accepts_empty MessagePagination.parse_xml MessagePagination.init
  /\ absent_unset GroupHeader.parse_xml
       [("MsgId", fun r => is_none (GroupHeader.message_identification r));
        ("CreDtTm", fun r => is_none (GroupHeader.creation_time r));
        ("MsgPgntn", fun r => is_none (GroupHeader.message_pagination r))]
  /\ accepts_empty GroupHeader.parse_xml GroupHeader.init
  /\ absent_unset FinancialInstitutionIdentification.parse_xml
       [("BIC", fun r => is_none (FinancialInstitutionIdentification.bicfi r));
        ("Nm", fun r => is_none (FinancialInstitutionIdentification.name r));
        ("Othr", fun r => is_none (FinancialInstitutionIdentification.other r))]
  /\ accepts_empty FinancialInstitutionIdentification.parse_xml FinancialInstitutionIdentification.init
  /\ absent_unset Servicer.parse_xml
       [("FinInstnId", fun r => is_none (Servicer.financial_institution_identification r))]
  /\ accepts_empty Servicer.parse_xml Servicer.init
  /\ absent_unset Account.parse_xml
       [("Id", fun r => is_none (Account.iban r));
        ("Ccy", fun r => is_none (Account.currency r));
        ("Svcr", fun r => is_none (Account.servicer r))]
  /\ accepts_empty Account.parse_xml Account.init
  /\ absent_unset Balance.parse_xml
       [("Tp", fun r => is_none (Balance.balance_type r));
        ("Amt", fun r => is_none (Balance.amount r));
        ("CdtDbtInd", fun r => is_none (Balance.credit_debit r));
        ("Dt", fun r => is_none (Balance.date r))]
  /\ accepts_empty Balance.parse_xml Balance.init
  /\ absent_unset ProprietaryReference.parse_xml
       [("Tp", fun r => is_none (ProprietaryReference.reference_type r));
        ("Ref", fun r => is_none (ProprietaryReference.reference r))]
  /\ accepts_empty ProprietaryReference.parse_xml ProprietaryReference.init
  /\ absent_unset References.parse_xml
       [("EndToEndId", fun r => is_none (References.end_to_end_identification r));
        ("MndtId", fun r => is_none (References.mandate_identification r));
        ("Prtry", fun r => is_nil (References.proprietary_reference r))]
  /\ accepts_empty References.parse_xml References.init
  /\ absent_unset ProprietaryBankTransactionCode.parse_xml
       [("Cd", fun r => is_none (ProprietaryBankTransactionCode.code r));
        ("Issr", fun r => is_none (ProprietaryBankTransactionCode.issuer r))]
  /\ accepts_empty ProprietaryBankTransactionCode.parse_xml ProprietaryBankTransactionCode.init
  /\ absent_unset PrivateIdentification.parse_xml
       [("Othr", fun r => is_none (PrivateIdentification.other r))]
  /\ accepts_empty PrivateIdentification.parse_xml PrivateIdentification.init
  /\ absent_unset PartyIdentification.parse_xml
       [("Nm", fun r => is_none (PartyIdentification.name r));
        ("Id", fun r => is_none (PartyIdentification.identification r))]
  /\ accepts_empty PartyIdentification.parse_xml PartyIdentification.init
  /\ absent_unset CashAccount.parse_xml
       [("Id", fun r => is_none (CashAccount.iban r))]
  /\ accepts_empty CashAccount.parse_xml CashAccount.init
  /\ absent_unset RelatedParties.parse_xml
       [("Dbtr", fun r => is_none (RelatedParties.debtor r));
        ("DbtrAcct", fun r => is_none (RelatedParties.debtor_account r));
        ("Cdtr", fun r => is_none (RelatedParties.creditor r));
        ("CdtrAcct", fun r => is_none (RelatedParties.creditor_account r))]
  /\ accepts_empty RelatedParties.parse_xml RelatedParties.init
  /\ absent_unset RelatedAgents.parse_xml
       [("DbtrAgt", fun r => is_none (RelatedAgents.debtor_agent r));
        ("CdtrAgt", fun r => is_none (RelatedAgents.creditor_agent r))]
  /\ accepts_empty RelatedAgents.parse_xml RelatedAgents.init
  /\ absent_unset RelatedRemittanceInformation.parse_xml
       [("Ustrd", fun r => is_none (RelatedRemittanceInformation.unstructured r))]
  /\ accepts_empty RelatedRemittanceInformation.parse_xml RelatedRemittanceInformation.init
  /\ absent_unset TransactionDetails.parse_xml
       [("Refs", fun r => is_none (TransactionDetails.references r));
        ("BkTxCd", fun r => is_none (TransactionDetails.bank_transaction_code r));
        ("RltdPties", fun r => is_none (TransactionDetails.related_parties r));
        ("RmtInf", fun r => is_nil (TransactionDetails.related_remittance_information r))]
  /\ absent_unset EntryDetails.parse_xml
       [("TxDtls", fun r => is_none (EntryDetails.transaction_details r))]
  /\ accepts_empty EntryDetails.parse_xml EntryDetails.init
  /\ absent_unset Entry.parse_xml
       [("Amt", fun r => is_none (Entry.amount r));
        ("CdtDbtInd", fun r => is_none (Entry.credit_debit r));
        ("Sts", fun r => is_none (Entry.status r));
        ("BookgDt", fun r => is_none (Entry.booking_date r));
        ("ValDt", fun r => is_none (Entry.value_date r));
        ("AcctSvcrRef", fun r => is_none (Entry.account_service_reference r));
        ("NtryDtls", fun r => is_nil (Entry.details r));
        ("AddtlNtryInf", fun r => is_none (Entry.additional_information r))]
  /\ accepts_empty Entry.parse_xml Entry.init
  /\ absent_unset Report.parse_xml
       [("Id", fun r => is_none (Report.identification r));
        ("ElctrncSeqNb", fun r => is_none (Report.eletronic_sequence_number r));
        ("CreDtTm", fun r => is_none (Report.creation_time r));
        ("Acct", fun r => is_none (Report.account r));
        ("Bal", fun r => is_nil (Report.balances r));
        ("Ntry", fun r => is_nil (Report.entries r))]
  /\ accepts_empty Report.parse_xml Report.init
  /\ absent_unset BankToCustomerAccountReport.parse_xml
       [("GrpHdr", fun r => is_none (BankToCustomerAccountReport.group_header r));
        ("Rpt", fun r => is_nil (BankToCustomerAccountReport.reports r))]
  /\ accepts_empty BankToCustomerAccountReport.parse_xml BankToCustomerAccountReport.init.
Proof.
  repeat match goal with |- _ /\ _ => split end;
    try (intros tree Hch; unfold
           MessagePagination.parse_xml,
           GroupHeader.parse_xml,
           FinancialInstitutionIdentification.parse_xml,
           Servicer.parse_xml,
           Account.parse_xml,
           Balance.parse_xml,
           ProprietaryReference.parse_xml,
           References.parse_xml,
           ProprietaryBankTransactionCode.parse_xml,
           PrivateIdentification.parse_xml,
           PartyIdentification.parse_xml,
           CashAccount.parse_xml,
           RelatedParties.parse_xml,
           RelatedAgents.parse_xml,
           RelatedRemittanceInformation.parse_xml,
           EntryDetails.parse_xml,
           Entry.parse_xml,
           Report.parse_xml,
           BankToCustomerAccountReport.parse_xml;
         rewrite Hch; reflexivity).
  - exact absent_unset_MessagePagination.
  - exact absent_unset_GroupHeader.
  - exact absent_unset_FinancialInstitutionIdentification.
  - exact absent_unset_Servicer.
  - exact absent_unset_Account.
  - exact absent_unset_Balance.
  - exact absent_unset_ProprietaryReference.
  - exact absent_unset_References.
  - exact absent_unset_ProprietaryBankTransactionCode.
  - exact absent_unset_PrivateIdentification.
  - exact absent_unset_PartyIdentification.
  - exact absent_unset_CashAccount.
  - exact absent_unset_RelatedParties.
  - exact absent_unset_RelatedAgents.
  - exact absent_unset_RelatedRemittanceInformation.
  - exact absent_unset_TransactionDetails.
  - exact absent_unset_EntryDetails.
  - exact absent_unset_Entry.
  - exact absent_unset_Report.
  - exact absent_unset_BankToCustomerAccountReport.
Qed.
End Absent.

(** [TransactionDetails.parse_xml] does ask for one child: without a
    [RltdAgts] child the variable [related_agents] is never bound, and the
    [return] raises. *)
Lemma TransactionDetails_without_agents (tree : Element) :
  no_child "RltdAgts" tree = true ->
  succeeds (TransactionDetails.parse_xml tree) = false.
Proof.
  intros Hno. unfold TransactionDetails.parse_xml.
  destruct (for_each TransactionDetails.body (children tree)
              TransactionDetails.init) as [s|e] eqn:Hs; [|reflexivity].
  assert (K : forall s c s',
             TransactionDetails.body s c = Ok s' ->
             tag_is "RltdAgts" c = false ->
             TransactionDetails.v_related_agents s'
             = TransactionDetails.v_related_agents s)
    by keeps TransactionDetails.body.
  pose proof (for_each_keeps _ _ _ K _ _ _ Hs Hno) as E.
  simpl. unfold TransactionDetails.finish. rewrite E. reflexivity.
Qed.

Lemma TransactionDetails_empty :
  TransactionDetails.parse_xml (node "TxDtls" []) = Raise UnboundLocalError.
Proof. reflexivity. Qed.

(** C2, as stated, fails on a required field: a [Rpt] element without an
    [Acct] child parses, to a report whose account is [None]. *)
Lemma C2_counterexample :
  no_child "Acct" report_without_account = true
  /\ @Report.parse_xml Reference.lib report_without_account
     = Ok (Report.mk Reference.lib (Some "RPT1") None None None [] []).
Proof. split; reflexivity. Qed.

Lemma C2_witness :
  is_none (@Report.account Reference.lib
             (Report.mk Reference.lib (Some "RPT1") None None None [] [])) = true.
Proof.
  pose proof (@C2_absent_fields_unset Reference.lib) as C.
  do 35 apply proj2 in C. apply proj1 in C.
  specialize (C report_without_account _ eq_refl).
  apply Forall_inv_tail, Forall_inv_tail, Forall_inv_tail, Forall_inv in C.
  exact (C eq_refl).
Defined.

(** ** Failures of the primitive decoders *)

Lemma enum_lookup_unknown {E : Type} (value : E -> string) (members : list E)
  (v : option string) :
  (forall m, In m members -> v <> Some (value m)) ->
  enum_lookup value members v = Raise ValueError.
Proof.
  intros Hv. unfold enum_lookup. destruct v as [s|]; [|reflexivity].
  destruct (find _ members) as [m|] eqn:Hf; [|reflexivity].
  apply find_some in Hf as [Hin Heq]. apply String.eqb_eq in Heq.
  exfalso. apply (Hv m Hin). now rewrite Heq.
Qed.


Ltac surfaces_by body parse_xml :=
  let Hd := fresh "Hd" in
  intros tree pre child post s e Hch Hpre Ht Hd;
  unfold parse_xml; rewrite Hch;
  erewrite (for_each_raises _ _ _ _ _ _ _ Hpre);
  [ reflexivity
  | unfold body; rewrite Ht; simpl; cbv beta in Hd; rewrite Hd; reflexivity ].

Section Decoders.
Context `{PyLib}.




End Decoders.



(** ** The party choice *)

(** C4: an element with exactly one child, tagged [FinInstnId], resolves to
    the institution parsed from that child, whatever the party parser would
    make of the element; an element of any other shape (no child, several
    children, or one child with another tag) is parsed as a whole as a
    [PartyIdentification], and so never yields an institution. *)
Theorem C4_party_choice_resolution (tree : Element) :
  (forall c,
      children tree = [c] ->
      strip_ns (tag c) = Ok "FinInstnId" ->
      parse_partchoice_from_xml tree
      = (f <- FinancialInstitutionIdentification.parse_xml c ;;
         Ok (PartyChoice.Institution f)))
  /\ (children tree = []
      \/ (2 <= len tree)%nat
      \/ (exists c t, children tree = [c] /\ strip_ns (tag c) = Ok t
                      /\ t <> "FinInstnId") ->
      parse_partchoice_from_xml tree
      = (p <- PartyIdentification.parse_xml tree ;; Ok (PartyChoice.Party p))).
Proof.
  unfold parse_partchoice_from_xml, and_then, len, first_child. split.
  - intros c Hch Ht. rewrite Hch. simpl. rewrite Ht. reflexivity.
  - intros [Hch | [Hlen | (c & t & Hch & Ht & Hne)]].
    + rewrite Hch. reflexivity.
    + destruct (children tree) as [|c [|c' l]] eqn:Hch; simpl in *;
        try lia; reflexivity.
    + rewrite Hch. simpl. rewrite Ht. simpl.
      destruct (String.eqb_spec t "FinInstnId"); [contradiction | reflexivity].
Qed.

Lemma C4_witness :
  parse_partchoice_from_xml
    (node "Cdtr" [node "FinInstnId" [leaf "BIC" "MARKDEF1100"]])
  = Ok (PartyChoice.Institution
          (FinancialInstitutionIdentification.mk (Some "MARKDEF1100") None None))
  /\ parse_partchoice_from_xml debtor_with_name_and_institution
     = Raise (ParseError "Unknown tag 'FinInstnId' in PartyIdentification").
Proof.
  split.
  - exact (proj1 (C4_party_choice_resolution
                    (node "Cdtr" [node "FinInstnId" [leaf "BIC" "MARKDEF1100"]]))
             _ eq_refl eq_refl).
  - refine (proj2 (C4_party_choice_resolution debtor_with_name_and_institution) _).
    right; left. unfold len. simpl. lia.
Defined.

(** ** The agents *)

(** C5 fails on the code: the assertion of [RelatedAgents.parse_xml] counts
    the children of the first child of [DbtrAgt] (the [FinInstnId] element),
    not those of [DbtrAgt].  A [DbtrAgt] with exactly one child [FinInstnId]
    is refused when that institution has a BIC and a name, although the
    institution parses on its own; and a [DbtrAgt] with a second child is
    accepted. *)
Theorem C5_agent_assertion_counts_wrong_element :
  children agents_with_bic_and_name
  = [node "DbtrAgt" [institution_with_bic_and_name]]
  /\ FinancialInstitutionIdentification.parse_xml institution_with_bic_and_name
     = Ok (FinancialInstitutionIdentification.mk
             (Some "MARKDEF1100") (Some "Bundesbank") None)
  /\ RelatedAgents.parse_xml agents_with_bic_and_name = Raise AssertionError
  /\ RelatedAgents.parse_xml agents_with_second_child
     = Ok (RelatedAgents.mk
             (Some (FinancialInstitutionIdentification.mk
                      (Some "MARKDEF1100") None None))
             None).
Proof. repeat split. Qed.

(** ** Balance types *)

Lemma BalanceType_of_value_ok (v : option string) :
  succeeds (BalanceType.of_value v) = true <->
  exists code, v = Some code
               /\ In code ["CLAV"; "CLBD"; "FWAV"; "OPBD"; "PRCD"; "OPAV"].
Proof.
  unfold BalanceType.of_value, enum_lookup. split.
  - destruct v as [s|]; [|discriminate].
    unfold BalanceType.members. cbn [find BalanceType.value].
    repeat match goal with
      | |- context [?k =? s] =>
          destruct (String.eqb_spec k s) as [<-|_];
          [intros _; eexists; split; [reflexivity | simpl; tauto]|]
      end.
    discriminate.
  - intros (code & -> & Hin). simpl in Hin.
    repeat destruct Hin as [<- | Hin]; try reflexivity. contradiction.
Qed.

(** C6 (as amended): decoding the balance type of a [Tp] element succeeds
    exactly when the element has one child [CdOrPrtry], which has one child
    [Cd], whose text is one of the six codes; any other text in [Cd] is
    refused (with a [ValueError]); and a [CdOrPrtry] that holds another
    child than [Cd], such as [Prtry], makes the assertion of the decoder
    fail: the exception is an [AssertionError], not a [ParseError]. *)
Theorem C6_balance_type_decoding (tree : Element) :
  (succeeds (BalanceType.parse_xml tree) = true <->
   exists c cc code,
     children tree = [c] /\ strip_ns (tag c) = Ok "CdOrPrtry"
     /\ children c = [cc] /\ strip_ns (tag cc) = Ok "Cd"
     /\ text cc = Some code
     /\ In code ["CLAV"; "CLBD"; "FWAV"; "OPBD"; "PRCD"; "OPAV"])
  /\ (forall c cc,
         children tree = [c] -> strip_ns (tag c) = Ok "CdOrPrtry" ->
         children c = [cc] -> strip_ns (tag cc) = Ok "Cd" ->
         (forall m, text cc <> Some (BalanceType.value m)) ->
         BalanceType.parse_xml tree = Raise ValueError)
  /\ (forall c cc t,
         children tree = [c] -> strip_ns (tag c) = Ok "CdOrPrtry" ->
         children c = [cc] -> strip_ns (tag cc) = Ok t -> t <> "Cd" ->
         BalanceType.parse_xml tree = Raise AssertionError).
Proof.
  unfold BalanceType.parse_xml, and_then, len, first_child, py_assert.
  split; [split|split].
  - destruct (children tree) as [|c [|c' l]]; simpl; try discriminate.
    destruct (strip_ns (tag c)) as [t|] eqn:Ht; simpl; [|discriminate].
    destruct (String.eqb_spec t "CdOrPrtry") as [->|]; simpl; [|discriminate].
    destruct (children c) as [|cc [|cc' l']] eqn:Hc; simpl; try discriminate.
    destruct (strip_ns (tag cc)) as [t'|] eqn:Ht'; simpl; [|discriminate].
    destruct (String.eqb_spec t' "Cd") as [->|]; simpl; [|discriminate].
    intros Hs. apply BalanceType_of_value_ok in Hs as (code & Hcode & Hin).
    exists c, cc, code. repeat split; assumption.
  - intros (c & cc & code & Hch & Ht & Hc & Ht' & Hcode & Hin).
    rewrite Hch. simpl. rewrite Ht. simpl. rewrite Hc. simpl.
    rewrite Ht'. simpl. apply BalanceType_of_value_ok. now exists code.
  - intros c cc Hch Ht Hc Ht' Hcode.
    rewrite Hch. simpl. rewrite Ht. simpl. rewrite Hc. simpl.
    rewrite Ht'. simpl. apply enum_lookup_unknown. intros m _. apply Hcode.
  - intros c cc t Hch Ht Hc Ht' Hne.
    rewrite Hch. simpl. rewrite Ht. simpl. rewrite Hc. simpl.
    rewrite Ht'. simpl.
    destruct (String.eqb_spec t "Cd"); [contradiction | reflexivity].
Qed.

(** C6, as stated, fails in its last part: a [CdOrPrtry] with a [Prtry]
    child ends the decoding in an [AssertionError]. *)
Lemma C6_counterexample :
  BalanceType.parse_xml proprietary_balance_type = Raise AssertionError
  /\ is_parse_error (BalanceType.parse_xml proprietary_balance_type) = false.
Proof. split; reflexivity. Qed.

Lemma C6_witness :
  BalanceType.parse_xml proprietary_balance_type = Raise AssertionError.
Proof.
  refine (proj2 (proj2 (C6_balance_type_decoding proprietary_balance_type))
            (node "CdOrPrtry" [leaf "Prtry" "XYZ"]) (leaf "Prtry" "XYZ") "Prtry"
            eq_refl eq_refl eq_refl eq_refl _).
  discriminate.
Defined.

(** ** Serializing absent agents *)

(** C8 fails on the code: [RelatedAgents.to_dict_tree] calls [to_dict_tree]
    on both agents without the test for [None] that every other optional
    field gets (as those of [RelatedParties] do).  The document below names
    a debtor agent only; it parses, and serializing it raises
    [AttributeError] instead of emitting a null for the creditor agent. *)
Theorem C8_absent_agent_raises :
  succeeds (@parse_etree Reference.lib document_with_debtor_agent_only) = true
  /\ RelatedAgents.parse_xml agents_with_debtor_only
     = Ok (RelatedAgents.mk
             (Some (FinancialInstitutionIdentification.mk
                      (Some "MARKDEF1100") None None))
             None)
  /\ @parse_and_serialize Reference.lib document_with_debtor_agent_only
     = Raise AttributeError
  /\ (forall (L : PyLib) (a : option FinancialInstitutionIdentification.t),
         RelatedAgents.to_dict_tree (RelatedAgents.mk a None)
         = Raise AttributeError
         /\ RelatedAgents.to_dict_tree (RelatedAgents.mk None a)
            = Raise AttributeError)
  /\ (forall L : PyLib,
         RelatedParties.to_dict_tree (RelatedParties.mk None None None None)
         = Ok (PDict [("debtor", PNone); ("debtorAccount", PNone);
                      ("creditor", PNone); ("creditorAccount", PNone)])).
Proof.
  repeat split.
  destruct a; reflexivity.
Qed.

(** ** Keys *)

(** C9 fails on the code: three keys are spelt with underscores, the
    last-page flag of the pagination record and the end-to-end and mandate
    identifications of the references record, next to camelCase keys in the
    same dicts. *)
Theorem C9_keys_with_underscores (L : PyLib) :
  (forall r : MessagePagination.t,
      keys_of (MessagePagination.to_dict_tree r)
      = ["pageNumber"; "last_page_indication"])
  /\ keys_of (References.to_dict_tree (References.mk None None []))
     = ["end_to_end_identification"; "mandate_identification";
        "proprietaryReference"]
  /\ map is_camel_case ["pageNumber"; "last_page_indication"] = [true; false]
  /\ map is_camel_case ["end_to_end_identification"; "mandate_identification";
                        "proprietaryReference"] = [false; false; true].
Proof. repeat split. Qed.

(** The keys of every other dict the serializer builds are camelCase. *)
Ltac keys_by to_dict_tree :=
  let Hv := fresh "Hv" in
  intros r v Hv; unfold to_dict_tree in Hv;
  repeat (apply bind_ok in Hv as (? & ? & Hv));
  injection Hv as <-; reflexivity.

Lemma other_keys_camel_case (L : PyLib) :
  (forall r v, GroupHeader.to_dict_tree r = Ok v ->
               forallb is_camel_case (keys v) = true)
  /\ (forall r v, FinancialInstitutionIdentification.to_dict_tree r = Ok v ->
                  forallb is_camel_case (keys v) = true)
  /\ (forall r v, Servicer.to_dict_tree r = Ok v ->
                  forallb is_camel_case (keys v) = true)
  /\ (forall r v, Account.to_dict_tree r = Ok v ->
                  forallb is_camel_case (keys v) = true)
  /\ (forall r v, Amount.to_dict_tree r = Ok v ->
                  forallb is_camel_case (keys v) = true)
  /\ (forall r v, Balance.to_dict_tree r = Ok v ->
                  forallb is_camel_case (keys v) = true)
  /\ (forall r v, ProprietaryReference.to_dict_tree r = Ok v ->
                  forallb is_camel_case (keys v) = true)
  /\ (forall r v, ProprietaryBankTransactionCode.to_dict_tree r = Ok v ->
                  forallb is_camel_case (keys v) = true)
  /\ (forall r v, PrivateIdentification.to_dict_tree r = Ok v ->
                  forallb is_camel_case (keys v) = true)
  /\ (forall r v, PartyIdentification.to_dict_tree r = Ok v ->
                  forallb is_camel_case (keys v) = true)
  /\ (forall r v, CashAccount.to_dict_tree r = Ok v ->
                  forallb is_camel_case (keys v) = true)
  /\ (forall r v, RelatedParties.to_dict_tree r = Ok v ->
                  forallb is_camel_case (keys v) = true)
  /\ (forall r v, RelatedAgents.to_dict_tree r = Ok v ->
                  forallb is_camel_case (keys v) = true)
  /\ (forall r v, RelatedRemittanceInformation.to_dict_tree r = Ok v ->
                  forallb is_camel_case (keys v) = true)
  /\ (forall r v, TransactionDetails.to_dict_tree r = Ok v ->
                  forallb is_camel_case (keys v) = true)
  /\ (forall r v, EntryDetails.to_dict_tree r = Ok v ->
                  forallb is_camel_case (keys v) = true)
  /\ (forall r v, Entry.to_dict_tree r = Ok v ->
                  forallb is_camel_case (keys v) = true)
  /\ (forall r v, Report.to_dict_tree r = Ok v ->
                  forallb is_camel_case (keys v) = true)
  /\ (forall r v, BankToCustomerAccountReport.to_dict_tree r = Ok v ->
                  forallb is_camel_case (keys v) = true).
Proof.
  repeat match goal with |- _ /\ _ => split end.
  - keys_by @GroupHeader.to_dict_tree.
  - keys_by @FinancialInstitutionIdentification.to_dict_tree.
  - keys_by @Servicer.to_dict_tree.
  - keys_by @Account.to_dict_tree.
  - keys_by @Amount.to_dict_tree.
  - keys_by @Balance.to_dict_tree.
  - keys_by @ProprietaryReference.to_dict_tree.
  - keys_by @ProprietaryBankTransactionCode.to_dict_tree.
  - keys_by @PrivateIdentification.to_dict_tree.
  - keys_by @PartyIdentification.to_dict_tree.
  - keys_by @CashAccount.to_dict_tree.
  - keys_by @RelatedParties.to_dict_tree.
  - keys_by @RelatedAgents.to_dict_tree.
  - keys_by @RelatedRemittanceInformation.to_dict_tree.
  - keys_by @TransactionDetails.to_dict_tree.
  - keys_by @EntryDetails.to_dict_tree.
  - keys_by @Entry.to_dict_tree.
  - keys_by @Report.to_dict_tree.
  - keys_by @BankToCustomerAccountReport.to_dict_tree.
Qed.

(** ** Empty strings and empty maps *)

(** C10: where the serializer tests a string or a map for truth, a field
    that holds the empty string (or the empty map) is emitted as null, and
    the dict is the one emitted for the same record with the field at
    [None]: the BIC, the name and the map of an institution, the end-to-end
    and mandate identifications of the references, the currency of an
    account, the map of a private identification and the name of a party.
    An empty map does come out of a parse: an [Othr] element without
    children. *)
Theorem C10_empty_is_serialized_as_absent (L : PyLib) :
  (forall n o,
      FinancialInstitutionIdentification.to_dict_tree
        (FinancialInstitutionIdentification.mk (Some "") n o)
      = FinancialInstitutionIdentification.to_dict_tree
          (FinancialInstitutionIdentification.mk None n o)
      /\ serialized "bicfi"
           (FinancialInstitutionIdentification.to_dict_tree
              (FinancialInstitutionIdentification.mk (Some "") n o))
         = Some PNone)
  /\ (forall b o,
         FinancialInstitutionIdentification.to_dict_tree
           (FinancialInstitutionIdentification.mk b (Some "") o)
         = FinancialInstitutionIdentification.to_dict_tree
             (FinancialInstitutionIdentification.mk b None o)
         /\ serialized "name"
              (FinancialInstitutionIdentification.to_dict_tree
                 (FinancialInstitutionIdentification.mk b (Some "") o))
            = Some PNone)
  /\ (forall b n,
         FinancialInstitutionIdentification.to_dict_tree
           (FinancialInstitutionIdentification.mk b n (Some []))
         = FinancialInstitutionIdentification.to_dict_tree
             (FinancialInstitutionIdentification.mk b n None)
         /\ serialized "other"
              (FinancialInstitutionIdentification.to_dict_tree
                 (FinancialInstitutionIdentification.mk b n (Some [])))
            = Some PNone)
  /\ (forall m p,
         References.to_dict_tree (References.mk (Some "") m p)
         = References.to_dict_tree (References.mk None m p))
  /\ (forall e p,
         References.to_dict_tree (References.mk e (Some "") p)
         = References.to_dict_tree (References.mk e None p))
  /\ (forall i s,
         Account.to_dict_tree (Account.mk i (Some "") s)
         = Account.to_dict_tree (Account.mk i None s))
  /\ PrivateIdentification.to_dict_tree (PrivateIdentification.mk (Some []))
     = PrivateIdentification.to_dict_tree (PrivateIdentification.mk None)
  /\ (forall i,
         PartyIdentification.to_dict_tree (PartyIdentification.mk (Some "") i)
         = PartyIdentification.to_dict_tree (PartyIdentification.mk None i))
  /\ FinancialInstitutionIdentification.parse_xml institution_with_empty_other
     = Ok (FinancialInstitutionIdentification.mk None None (Some []))
  /\ (forall s, s <> "" -> str_or_none (Some s) = PStr s).
Proof.
  repeat match goal with
    | |- _ /\ _ => split
    | |- forall _, _ => intro
    end; try reflexivity.
  match goal with
  | Hs : ?s <> "" |- _ => destruct s; [contradiction | reflexivity]
  end.
Qed.

Lemma C10_witness :
  @str_or_none Reference.lib (Some "MARKDEF1100") = PStr "MARKDEF1100".
Proof.
  pose proof (C10_empty_is_serialized_as_absent Reference.lib) as C.
  do 9 apply proj2 in C. apply C. discriminate.
Defined.

(** ** From the source to the leaves *)

Ltac dispatch_in Hb body c :=
  match body with
  | ?h _ => unfold h in Hb
  | _ => unfold body in Hb
  end;
  unfold tag_is;
  destruct (strip_ns (tag c)); simpl in Hb; [|discriminate];
  repeat match type of Hb with
    | context [?x =? ?k] =>
        destruct (String.eqb_spec x k) as [?E|?E]; [subst|];
        cbv beta iota in Hb
    end;
  try discriminate;
  try (apply bind_ok in Hb as (? & ? & Hb));
  injection Hb as <-; simpl.


(** What the loop makes of a child tagged [T] that it decodes. *)
Ltac decodes_step body :=
  let s := fresh "s" in
  let c := fresh "c" in
  let s' := fresh "s'" in
  let Hb := fresh "Hb" in
  intros s c s' Hb; dispatch_in Hb body c;
  first [ reflexivity | eexists; split; [eassumption | reflexivity] ].

Ltac open_serializer to_dict_tree Hv :=
  unfold to_dict_tree in Hv;
  repeat (apply bind_ok in Hv as (? & ? & Hv));
  injection Hv as <-.





Section Leaves.
Context `{PyLib}.






























End Leaves.



(** * More of the module *)

(** ** strip_ns *)

Lemma span_line_plain (s : string) :
  no_ascii newline s = true -> span_line s = (s, "").
Proof.
  unfold no_ascii. induction s as [|c s IH]; simpl; [reflexivity|].
  intros Hs. apply andb_prop in Hs as [Hc Hs].
  destruct (Ascii.eqb c newline); [discriminate|].
  now rewrite (IH Hs).
Qed.

Lemma match_local_plain (s : string) :
  s <> "" -> no_ascii newline s = true -> match_local s = Some s.
Proof.
  intros Hne Hs. unfold match_local. rewrite (span_line_plain _ Hs).
  destruct s; [contradiction | reflexivity].
Qed.

Lemma span_brace_namespace (ns r : string) :
  no_ascii rbrace ns = true -> span_brace (ns ++ String rbrace r) = Some (ns, r).
Proof.
  unfold no_ascii. induction ns as [|c ns IH]; simpl; [reflexivity|].
  intros Hs. apply andb_prop in Hs as [Hc Hs].
  destruct (Ascii.eqb c rbrace); [discriminate|].
  now rewrite (IH Hs).
Qed.

Lemma span_line_body (s b r : string) :
  span_line s = (b, r) -> no_ascii newline b = true.
Proof.
  unfold no_ascii. revert b r; induction s as [|c s IH]; intros b r; simpl.
  - now intros [= <- <-].
  - destruct (Ascii.eqb c newline) eqn:Hc.
    + now intros [= <- <-].
    + destruct (span_line s) as [b' r'] eqn:Hs. intros [= <- <-].
      simpl. rewrite Hc. simpl. now apply (IH _ _ eq_refl).
Qed.

Lemma match_local_result (s g : string) :
  match_local s = Some g -> g <> "" /\ no_ascii newline g = true.
Proof.
  unfold match_local. destruct (span_line s) as [b r] eqn:Hs.
  apply span_line_body in Hs. destruct b as [|c b]; [discriminate|].
  destruct (_ || _); [|discriminate]. intros [= <-]. split; [discriminate | exact Hs].
Qed.

(** X1: on a qualified name [{ns}local] (a namespace that is not empty and
    holds no closing brace, a local name that is not empty and holds no
    newline) [strip_ns] returns [local]; on a name that does not start with
    a brace (not empty, no newline) it returns the name itself. *)
Theorem X1_strip_ns_names (ns name : string) :
  name <> "" ->
  no_ascii newline name = true ->
  (ns <> "" -> no_ascii rbrace ns = true ->
   strip_ns ("{" ++ ns ++ "}" ++ name) = Ok name)
  /\ (starts_with_brace name = false -> strip_ns name = Ok name).
Proof.
  intros Hne Hnl. split.
  - intros Hns Hbr. unfold strip_ns, regex_group2, match_namespace. simpl.
    change (String "}" name) with (String rbrace name).
    rewrite (span_brace_namespace _ _ Hbr).
    destruct ns as [|c ns]; [contradiction|].
    now rewrite (match_local_plain _ Hne Hnl).
  - intros Hb. unfold strip_ns, regex_group2, match_namespace.
    destruct name as [|c name]; [contradiction|].
    simpl in Hb. rewrite Hb. now rewrite (match_local_plain _ Hne Hnl).
Qed.

Lemma X1_witness :
  strip_ns "{urn:iso:std:iso:20022:tech:xsd:camt.052.001.02}Ntry" = Ok "Ntry"
  /\ strip_ns "Ntry" = Ok "Ntry".
Proof.
  assert (Hne : "Ntry" <> "") by discriminate.
  pose proof (X1_strip_ns_names "urn:iso:std:iso:20022:tech:xsd:camt.052.001.02"
                "Ntry" Hne eq_refl) as [H1 H2].
  split.
  - apply H1; [discriminate | reflexivity].
  - apply H2. reflexivity.
Defined.

(** X2: the name [strip_ns] returns is never empty, holds no newline and is
    a part of the tag; the empty tag makes its assertion fail. *)
Theorem X2_strip_ns_result (tg t : string) :
  strip_ns tg = Ok t ->
  t <> "" /\ no_ascii newline t = true /\ contains t tg = true
  /\ strip_ns "" = Raise AssertionError.
Proof.
  intros Ht. pose proof (strip_ns_contains _ _ Ht) as Hc.
  unfold strip_ns in Ht. destruct (regex_group2 tg) as [g|] eqn:Hg; [|discriminate].
  injection Ht as <-. unfold regex_group2 in Hg.
  assert (Hr : g <> "" /\ no_ascii newline g = true).
  { destruct (match_namespace tg) as [r|];
      [destruct (match_local r) as [g'|] eqn:Hl|].
    - injection Hg as <-. now apply match_local_result in Hl.
    - now apply match_local_result in Hg.
    - now apply match_local_result in Hg. }
  destruct Hr as [Hne Hnl]. repeat split; assumption.
Qed.

Lemma X2_witness :
  "IBAN" <> "" /\ no_ascii newline "IBAN" = true
  /\ contains "IBAN" (camt_ns ++ "IBAN") = true
  /\ strip_ns "" = Raise AssertionError.
Proof. exact (X2_strip_ns_result (camt_ns ++ "IBAN") "IBAN" eq_refl). Defined.

(** ** parse_generic_kv_list *)

Lemma kv_get_set (k j : string) (v : option string) (d : kvdict) :
  kv_get k (dict_set j v d) = if j =? k then Some v else kv_get k d.
Proof.
  induction d as [|[k0 v0] d IH]; simpl; [reflexivity|].
  destruct (String.eqb_spec k0 j) as [->|Hj]; simpl.
  - destruct (j =? k); reflexivity.
  - rewrite IH. destruct (String.eqb_spec k0 k) as [->|Hk]; [|reflexivity].
    destruct (String.eqb_spec j k) as [->|_]; [contradiction | reflexivity].
Qed.

Lemma dict_set_keys (j : string) (v : option string) (d : kvdict) :
  map fst (dict_set j v d)
  = if existsb (fun k => k =? j) (map fst d) then map fst d
    else (map fst d ++ [j])%list.
Proof.
  induction d as [|[k0 v0] d IH]; simpl; [reflexivity|].
  destruct (k0 =? j) eqn:E; simpl; [reflexivity|].
  rewrite IH. destruct (existsb _ (map fst d)); reflexivity.
Qed.

Lemma dict_set_NoDup (j : string) (v : option string) (d : kvdict) :
  NoDup (map fst d) -> NoDup (map fst (dict_set j v d)).
Proof.
  intros Hd. rewrite dict_set_keys.
  destruct (existsb _ (map fst d)) eqn:E; [exact Hd|].
  apply NoDup_app; [exact Hd | repeat constructor; intros [] | ].
  intros k Hk [Hj|[]]. rewrite <- Hj in Hk.
  assert (existsb (fun k0 => k0 =? j) (map fst d) = true); [|congruence].
  apply existsb_exists. exists j. split; [exact Hk | apply String.eqb_refl].
Qed.

Lemma kv_loop (l : list Element) (d0 d : kvdict) :
  for_each (fun d child => k <- strip_ns (tag child) ;;
                           Ok (dict_set k (text child) d)) l d0 = Ok d ->
  (NoDup (map fst d0) -> NoDup (map fst d))
  /\ forall k, kv_get k d = match last_child k l with
                            | Some c => Some (text c)
                            | None => kv_get k d0
                            end.
Proof.
  revert d0; induction l as [|c l IH]; intros d0; simpl.
  - intros [= <-]. split; [tauto | reflexivity].
  - intros Hrun. apply bind_ok in Hrun as (d1 & H1 & H2).
    apply bind_ok in H1 as (t & Ht & H1). injection H1 as <-.
    destruct (IH _ H2) as [Hnd Hget]. split.
    + intros Hd0. apply Hnd. now apply dict_set_NoDup.
    + intros k. rewrite Hget. destruct (last_child k l); [reflexivity|].
      rewrite kv_get_set. unfold tag_is. rewrite Ht.
      now destruct (t =? k).
Qed.

(** X3: the dict of [parse_generic_kv_list] has one entry for each tag among
    the children: no key twice, and under the (stripped) tag [k] the text of
    the last child tagged [k]; a tag no child has is no key.  Any tag is
    taken: the function returns a dict whenever [strip_ns] accepts the tag
    of every child, and raises nothing but the [AssertionError] of
    [strip_ns]. *)
Theorem X3_generic_kv_list (tree : Element) :
  (forall d,
      parse_generic_kv_list tree = Ok d ->
      NoDup (map fst d)
      /\ forall k, kv_get k d = option_map text (last_child k (children tree)))
  /\ (Forall (fun c => succeeds (strip_ns (tag c)) = true) (children tree) ->
      succeeds (parse_generic_kv_list tree) = true)
  /\ (forall e, parse_generic_kv_list tree = Raise e -> e = AssertionError).
Proof.
  unfold parse_generic_kv_list. split; [|split].
  - intros d Hd. apply kv_loop in Hd as [Hnd Hget]. split.
    + apply Hnd. constructor.
    + intros k. rewrite Hget. now destruct (last_child k (children tree)).
  - generalize (@nil (string * option string)).
    induction (children tree) as [|c l IH]; intros d0 Hall; [reflexivity|].
    inversion Hall as [|? ? Hc Hl]; subst. simpl.
    destruct (strip_ns (tag c)); [|discriminate]. simpl. now apply IH.
  - generalize (@nil (string * option string)).
    induction (children tree) as [|c l IH]; intros d0 e; simpl; [discriminate|].
    unfold strip_ns at 1. destruct (regex_group2 (tag c)); simpl.
    + apply IH.
    + now intros [= <-].
Qed.

Lemma X3_witness :
  kv_get "Id" [("Id", Some "2"); ("Issr", Some "X")] = Some (Some "2")
  /\ kv_get "Nm" [("Id", Some "2"); ("Issr", Some "X")] = None
  /\ succeeds (parse_generic_kv_list
                 (node "Othr" [leaf "Id" "1"; leaf "Issr" "X"; leaf "Id" "2"]))
     = true.
Proof.
  pose proof (X3_generic_kv_list
                (node "Othr" [leaf "Id" "1"; leaf "Issr" "X"; leaf "Id" "2"]))
    as (H1 & H2 & _).
  destruct (H1 _ eq_refl) as [_ Hget].
  split; [|split].
  - exact (Hget "Id").
  - exact (Hget "Nm").
  - apply H2. repeat constructor.
Defined.

(** ** parse_date_or_datetime *)

(** X4: the date decoder reads an element with exactly one child, tagged
    [Dt] or [DtTm]: with no child or with several it raises the
    [ParseError] on the number of children, with one child of another tag
    the [ParseError] on the child; a date it returns is
    [datetime.fromisoformat] of the text of that one child, and [Dt] and
    [DtTm] are decoded alike. *)
Theorem X4_date_or_datetime `{PyLib} (tree : Element) :
  (len tree <> 1%nat ->
   parse_date_or_datetime tree
   = Raise (ParseError "Maximum number of children in Dt is 1"))
  /\ (forall c t,
         children tree = [c] -> strip_ns (tag c) = Ok t ->
         t <> "Dt" -> t <> "DtTm" ->
         parse_date_or_datetime tree
         = Raise (ParseError "Child of 'Dt' must be 'Dt' or 'DtTm'"))
  /\ (forall d,
         parse_date_or_datetime tree = Ok d ->
         exists c t,
           children tree = [c] /\ strip_ns (tag c) = Ok t
           /\ (t = "Dt" \/ t = "DtTm")
           /\ fromisoformat (text c) = Ok d)
  /\ (forall txt,
         parse_date_or_datetime (node "BookgDt" [mkElement "Dt" txt [] []])
         = parse_date_or_datetime (node "BookgDt" [mkElement "DtTm" txt [] []])).
Proof.
  unfold parse_date_or_datetime, len, first_child.
  split; [|split; [|split]].
  - intros Hlen. destruct (children tree) as [|c [|c' l]]; simpl in *;
      try reflexivity. contradiction.
  - intros c t Hch Ht H1 H2. rewrite Hch. simpl. rewrite Ht. simpl.
    destruct (String.eqb_spec t "Dt"); [contradiction|].
    destruct (String.eqb_spec t "DtTm"); [contradiction | reflexivity].
  - intros d. destruct (children tree) as [|c [|c' l]]; simpl; try discriminate.
    destruct (strip_ns (tag c)) as [t|] eqn:Ht; simpl; [|discriminate].
    destruct (String.eqb_spec t "Dt") as [->|]; simpl.
    + intros Hd. exists c, "Dt". repeat split; auto.
    + destruct (String.eqb_spec t "DtTm") as [->|]; simpl; [|discriminate].
      intros Hd. exists c, "DtTm". repeat split; auto.
  - reflexivity.
Qed.

Lemma X4_witness :
  @parse_date_or_datetime Reference.lib (node "ValDt" [])
  = Raise (ParseError "Maximum number of children in Dt is 1")
  /\ @parse_date_or_datetime Reference.lib (node "ValDt" [leaf "Date" "2024-01-02"])
     = Raise (ParseError "Child of 'Dt' must be 'Dt' or 'DtTm'").
Proof.
  split.
  - apply (@X4_date_or_datetime Reference.lib (node "ValDt" [])). discriminate.
  - apply (proj1 (proj2 (@X4_date_or_datetime Reference.lib
                           (node "ValDt" [leaf "Date" "2024-01-02"])))
             (leaf "Date" "2024-01-02") "Date" eq_refl eq_refl);
      discriminate.
Defined.

(** ** parse_etree *)

(** X5: [parse_etree] checks the root before it parses anything: a root
    that is not [Document] raises the [ParseError] on the root whatever is
    below it, and a [Document] that does not hold exactly one child, tagged
    [BkToCstmrAcctRpt], raises the [ParseError] on the document; a document
    it returns is the parse of that one child. *)
Theorem X5_parse_etree_root `{PyLib} (root : Element) :
  (forall t,
      strip_ns (tag root) = Ok t -> t <> "Document" ->
      parse_etree root = Raise (ParseError "Root must be 'Document'"))
  /\ (strip_ns (tag root) = Ok "Document" -> len root <> 1%nat ->
      parse_etree root = Raise (ParseError "Document must be BkToCstmrAcctRpt"))
  /\ (forall c t,
         strip_ns (tag root) = Ok "Document" -> children root = [c] ->
         strip_ns (tag c) = Ok t -> t <> "BkToCstmrAcctRpt" ->
         parse_etree root = Raise (ParseError "Document must be BkToCstmrAcctRpt"))
  /\ (forall doc,
         parse_etree root = Ok doc ->
         strip_ns (tag root) = Ok "Document"
         /\ exists c,
             children root = [c] /\ strip_ns (tag c) = Ok "BkToCstmrAcctRpt"
             /\ BankToCustomerAccountReport.parse_xml c = Ok doc).
Proof.
  unfold parse_etree, or_else, len, first_child.
  split; [|split; [|split]].
  - intros t Ht Hne. rewrite Ht. simpl.
    destruct (String.eqb_spec t "Document"); [contradiction | reflexivity].
  - intros Ht Hlen. rewrite Ht. simpl.
    destruct (children root) as [|c [|c' l]]; simpl in *; try reflexivity.
    contradiction.
  - intros c t Ht Hch Hc Hne. rewrite Ht, Hch. simpl. rewrite Hc. simpl.
    destruct (String.eqb_spec t "BkToCstmrAcctRpt"); [contradiction | reflexivity].
  - intros doc. destruct (strip_ns (tag root)) as [t|]; simpl; [|discriminate].
    destruct (String.eqb_spec t "Document") as [->|]; simpl; [|discriminate].
    destruct (children root) as [|c [|c' l]]; simpl; try discriminate.
    destruct (strip_ns (tag c)) as [t'|] eqn:Ht'; simpl; [|discriminate].
    destruct (String.eqb_spec t' "BkToCstmrAcctRpt") as [->|]; simpl;
      [|discriminate].
    intros Hd. split; [reflexivity|]. exists c. repeat split; auto.
Qed.

Lemma X5_witness :
  @parse_etree Reference.lib (node "Statement" [example_document])
  = Raise (ParseError "Root must be 'Document'")
  /\ @parse_etree Reference.lib (node "Document" [])
     = Raise (ParseError "Document must be BkToCstmrAcctRpt").
Proof.
  split.
  - apply (proj1 (@X5_parse_etree_root Reference.lib
                    (node "Statement" [example_document])) "Statement" eq_refl).
    discriminate.
  - apply (proj1 (proj2 (@X5_parse_etree_root Reference.lib (node "Document" [])))
             eq_refl).
    discriminate.
Defined.

(** ** The choice resolvers *)

(** X6: [parse_bank_transaction_code_from_xml] and
    [parse_identification_from_xml] read an element with exactly one child:
    any other number of children makes their assertion fail; a child tagged
    [Prtry] (resp. [PrvtId]) is parsed as the proprietary code (resp. the
    private identification); for a child with another tag the [ParseError]
    names the tag of the element itself, not the tag of that child. *)
Theorem X6_choice_resolvers (tree : Element) :
  (len tree <> 1%nat ->
   parse_bank_transaction_code_from_xml tree = Raise AssertionError
   /\ parse_identification_from_xml tree = Raise AssertionError)
  /\ (forall c,
         children tree = [c] -> strip_ns (tag c) = Ok "Prtry" ->
         parse_bank_transaction_code_from_xml tree
         = ProprietaryBankTransactionCode.parse_xml c)
  /\ (forall c,
         children tree = [c] -> strip_ns (tag c) = Ok "PrvtId" ->
         parse_identification_from_xml tree = PrivateIdentification.parse_xml c)
  /\ (forall c t own,
         children tree = [c] -> strip_ns (tag c) = Ok t ->
         strip_ns (tag tree) = Ok own ->
         (t <> "Prtry" ->
          parse_bank_transaction_code_from_xml tree
          = Raise (ParseError (unknown_tag own "BankTransactionCode")))
         /\ (t <> "PrvtId" ->
             parse_identification_from_xml tree
             = Raise (ParseError (unknown_tag own "Identification")))).
Proof.
  unfold parse_bank_transaction_code_from_xml, parse_identification_from_xml,
    py_assert, len, first_child.
  split; [|split; [|split]].
  - intros Hlen. destruct (children tree) as [|c [|c' l]]; simpl in *;
      try (split; reflexivity). contradiction.
  - intros c Hch Ht. rewrite Hch. simpl. rewrite Ht. reflexivity.
  - intros c Hch Ht. rewrite Hch. simpl. rewrite Ht. reflexivity.
  - intros c t own Hch Ht Hown. rewrite Hch. simpl. rewrite Ht, Hown. simpl.
    split; intros Hne.
    + destruct (String.eqb_spec t "Prtry"); [contradiction | reflexivity].
    + destruct (String.eqb_spec t "PrvtId"); [contradiction | reflexivity].
Qed.

Lemma X6_witness :
  parse_bank_transaction_code_from_xml
    (node "BkTxCd" [node "Domn" [leaf "Cd" "PMNT"]])
  = Raise (ParseError "Unknown tag 'BkTxCd' in BankTransactionCode")
  /\ parse_identification_from_xml (node "Id" []) = Raise AssertionError.
Proof.
  split.
  - apply (proj2 (proj2 (proj2 (X6_choice_resolvers
                                  (node "BkTxCd" [node "Domn" [leaf "Cd" "PMNT"]]))))
             (node "Domn" [leaf "Cd" "PMNT"]) "Domn" "BkTxCd"
             eq_refl eq_refl eq_refl).
    discriminate.
  - apply (proj1 (X6_choice_resolvers (node "Id" []))). discriminate.
Defined.

(** ** The IBAN of an account *)

(** X7: the [Id] child of an [Acct], [DbtrAcct] or [CdtrAcct] element is
    read through its first child only: the IBAN is the text of that child
    when it is tagged [IBAN]; an [Id] without children raises [IndexError],
    a first child with another tag makes the assertion fail, and whatever
    follows the first child is not looked at.  These exceptions are the
    outcome of the account parsers. *)
Theorem X7_iban_of_first_child (id : Element) :
  (children id = [] -> iban_of id = Raise IndexError)
  /\ (forall c0 rest,
         children id = c0 :: rest ->
         strip_ns (tag c0) = Ok "IBAN" ->
         iban_of id = Ok (text c0))
  /\ (forall c0 rest t,
         children id = c0 :: rest ->
         strip_ns (tag c0) = Ok t -> t <> "IBAN" ->
         iban_of id = Raise AssertionError)
  /\ surfaces_at Account.body Account.init Account.parse_xml "Id" iban_of
  /\ surfaces_at CashAccount.body CashAccount.init CashAccount.parse_xml "Id"
       iban_of.
Proof.
  split; [|split; [|split; [|split]]].
  - intros Hch. unfold iban_of, first_child. now rewrite Hch.
  - intros c0 rest Hch Ht. unfold iban_of, first_child.
    rewrite Hch. simpl. rewrite Ht. reflexivity.
  - intros c0 rest t Hch Ht Hne. unfold iban_of, first_child, py_assert.
    rewrite Hch. simpl. rewrite Ht. simpl.
    destruct (String.eqb_spec t "IBAN"); [contradiction | reflexivity].
  - surfaces_by Account.body Account.parse_xml.
  - surfaces_by CashAccount.body CashAccount.parse_xml.
Qed.

Lemma X7_witness :
  iban_of (node "Id" []) = Raise IndexError
  /\ iban_of (node "Id" [leaf "IBAN" "DE00"; leaf "Othr" "x"]) = Ok (Some "DE00")
  /\ CashAccount.parse_xml (node "DbtrAcct" [node "Id" [leaf "Othr" "x"]])
     = Raise AssertionError.
Proof.
  split; [|split].
  - apply (proj1 (X7_iban_of_first_child (node "Id" []))). reflexivity.
  - apply (proj1 (proj2 (X7_iban_of_first_child
                           (node "Id" [leaf "IBAN" "DE00"; leaf "Othr" "x"])))
             (leaf "IBAN" "DE00") [leaf "Othr" "x"] eq_refl eq_refl).
  - apply (proj2 (proj2 (proj2 (proj2 (X7_iban_of_first_child (node "Id" [])))))
             (node "DbtrAcct" [node "Id" [leaf "Othr" "x"]])
             [] (node "Id" [leaf "Othr" "x"]) [] CashAccount.init AssertionError
             eq_refl eq_refl eq_refl eq_refl).
Defined.

(** ** Amounts *)

Lemma attrib_get_missing (k : string) (a : list (string * string)) :
  ~ In k (map fst a) -> attrib_get k a = Raise KeyError.
Proof.
  induction a as [|[k' v] a IH]; simpl; [reflexivity|].
  intros Hn. destruct (String.eqb_spec k' k) as [->|_]; [tauto|].
  apply IH. tauto.
Qed.

Lemma attrib_get_found (k v : string) (a : list (string * string)) :
  attrib_get k a = Ok v -> In (k, v) a.
Proof.
  induction a as [|[k' v'] a IH]; simpl; [discriminate|].
  destruct (String.eqb_spec k' k) as [->|_].
  - intros [= ->]. now left.
  - intros Hg. right. now apply IH.
Qed.

(** X8: [Amount.parse_xml] decodes the text before it reads the attribute:
    an element without text raises [TypeError] and a text that is no number
    [ValueError], whatever the attributes; with a number and no [Ccy]
    attribute it raises [KeyError]; an amount it returns holds the decoded
    text and the value of the [Ccy] attribute. *)
Theorem X8_amount_text_and_currency `{PyLib} (tree : Element) :
  (text tree = None -> Amount.parse_xml tree = Raise TypeError)
  /\ (forall s,
         text tree = Some s -> float_of_str s = None ->
         Amount.parse_xml tree = Raise ValueError)
  /\ (forall s f,
         text tree = Some s -> float_of_str s = Some f ->
         ~ In "Ccy" (map fst (attrib tree)) ->
         Amount.parse_xml tree = Raise KeyError)
  /\ (forall a,
         Amount.parse_xml tree = Ok a ->
         exists s,
           text tree = Some s /\ float_of_str s = Some (Amount.value a)
           /\ In ("Ccy", Amount.currency a) (attrib tree)).
Proof.
  unfold Amount.parse_xml, float. split; [|split; [|split]].
  - intros Ht. now rewrite Ht.
  - intros s Ht Hf. now rewrite Ht, Hf.
  - intros s f Ht Hf Hn. rewrite Ht, Hf. simpl.
    now rewrite (attrib_get_missing _ _ Hn).
  - intros a. destruct (text tree) as [s|]; [|discriminate].
    destruct (float_of_str s) as [f|] eqn:Hf; [|discriminate]. simpl.
    destruct (attrib_get "Ccy" (attrib tree)) as [c|] eqn:Hc; [|discriminate].
    simpl. intros [= <-]. exists s. simpl. repeat split; auto.
    now apply attrib_get_found.
Qed.

Lemma X8_witness :
  @Amount.parse_xml Reference.lib (mkElement "Amt" (Some "12.34") [] [])
  = Raise KeyError
  /\ @Amount.parse_xml Reference.lib (mkElement "Amt" (Some "EUR") [("Ccy", "EUR")] [])
     = Raise ValueError.
Proof.
  split.
  - apply (proj1 (proj2 (proj2 (@X8_amount_text_and_currency Reference.lib
                                  (mkElement "Amt" (Some "12.34") [] []))))
             "12.34" (Reference.mk_decimal 1234 2) eq_refl eq_refl).
    simpl. tauto.
  - apply (proj1 (proj2 (@X8_amount_text_and_currency Reference.lib
                           (mkElement "Amt" (Some "EUR") [("Ccy", "EUR")] [])))
             "EUR" eq_refl eq_refl).
Defined.

(** ** The last-page flag *)





(** ** Enumerations *)

Lemma enum_lookup_value {E : Type} (value : E -> string) (members : list E)
  (v : option string) (m : E) :
  enum_lookup value members v = Ok m -> v = Some (value m).
Proof.
  unfold enum_lookup. destruct v as [s|]; [|discriminate].
  destruct (find _ members) as [m'|] eqn:Hf; [|discriminate].
  intros [= <-]. apply find_some in Hf as [_ Hs].
  apply String.eqb_eq in Hs. now rewrite Hs.
Qed.

(** X10: the three enumerations are decoded by value and nothing else: the
    code of a member decodes to that member, and a member is only ever
    decoded from its own code, so that codes and members correspond one to
    one. *)
Theorem X10_enum_codes :
  (forall m, CreditDebit.of_value (Some (CreditDebit.value m)) = Ok m)
  /\ (forall v m, CreditDebit.of_value v = Ok m -> v = Some (CreditDebit.value m))
  /\ (forall m, EntryStatus.of_value (Some (EntryStatus.value m)) = Ok m)
  /\ (forall v m, EntryStatus.of_value v = Ok m -> v = Some (EntryStatus.value m))
  /\ (forall m, BalanceType.of_value (Some (BalanceType.value m)) = Ok m)
  /\ (forall v m, BalanceType.of_value v = Ok m -> v = Some (BalanceType.value m)).
Proof.
  repeat match goal with |- _ /\ _ => split end;
    try (intros []; reflexivity); intros v m; apply enum_lookup_value.
Qed.

Lemma X10_witness : Some "PDNG" = Some (EntryStatus.value EntryStatus.Pending).
Proof.
  exact (proj1 (proj2 (proj2 (proj2 X10_enum_codes)))
           (Some "PDNG") EntryStatus.Pending eq_refl).
Defined.

(** ** Transaction details and agents *)

(** X11: a [TransactionDetails] is only ever returned for an element that
    has a [RltdAgts] child, and its [related_agents] is then never [None]:
    when no child is tagged [RltdAgts] and the loop gets through the
    children, the [return] raises [UnboundLocalError]. *)
Theorem X11_transaction_details_agents (tree : Element) :
  (forall r,
      TransactionDetails.parse_xml tree = Ok r ->
      no_child "RltdAgts" tree = false
      /\ TransactionDetails.related_agents r <> None)
  /\ (forall s,
         no_child "RltdAgts" tree = true ->
         for_each TransactionDetails.body (children tree) TransactionDetails.init
         = Ok s ->
         TransactionDetails.parse_xml tree = Raise UnboundLocalError).
Proof.
  assert (K : forall s c s',
             TransactionDetails.body s c = Ok s' ->
             tag_is "RltdAgts" c = false ->
             TransactionDetails.v_related_agents s'
             = TransactionDetails.v_related_agents s)
    by keeps TransactionDetails.body.
  split.
  - intros r Hr. unfold TransactionDetails.parse_xml in Hr.
    apply bind_ok in Hr as (s & Hs & Hf).
    unfold TransactionDetails.finish in Hf.
    destruct (TransactionDetails.v_related_agents s) as [a|] eqn:Hv;
      [|discriminate].
    injection Hf as <-. split; [|discriminate].
    destruct (no_child "RltdAgts" tree) eqn:Hno; [|reflexivity].
    rewrite (for_each_keeps _ _ _ K _ _ _ Hs Hno) in Hv. discriminate.
  - intros s Hno Hs. unfold TransactionDetails.parse_xml. rewrite Hs. simpl.
    unfold TransactionDetails.finish.
    now rewrite (for_each_keeps _ _ _ K _ _ _ Hs Hno).
Qed.

Lemma X11_witness :
  TransactionDetails.parse_xml
    (node "TxDtls" [node "Refs" [leaf "EndToEndId" "E2E"]])
  = Raise UnboundLocalError.
Proof.
  exact (proj2 (X11_transaction_details_agents
                  (node "TxDtls" [node "Refs" [leaf "EndToEndId" "E2E"]]))
           _ eq_refl eq_refl).
Defined.

(** X12: the agent of a [DbtrAgt] or [CdtrAgt] element is read from its
    first child alone: the element parses exactly when it has a first
    child, that child has exactly one child of its own and is tagged
    [FinInstnId], and it parses as an institution; a [DbtrAgt] or [CdtrAgt]
    without children raises [IndexError]. *)
Theorem X12_agent_first_child (child : Element) :
  (forall f,
      parse_agent child = Ok f <->
      exists c0 rest g,
        children child = c0 :: rest /\ children c0 = [g]
        /\ strip_ns (tag c0) = Ok "FinInstnId"
        /\ FinancialInstitutionIdentification.parse_xml c0 = Ok f)
  /\ (children child = [] -> parse_agent child = Raise IndexError).
Proof.
  unfold parse_agent, and_then, py_assert, first_child, len. split.
  - intros f. split.
    + destruct (children child) as [|c0 rest]; simpl; [discriminate|].
      destruct (children c0) as [|g [|g' l]] eqn:Hc0; simpl; try discriminate.
      destruct (strip_ns (tag c0)) as [t|] eqn:Ht; simpl; [|discriminate].
      destruct (String.eqb_spec t "FinInstnId") as [->|]; simpl; [|discriminate].
      intros Hf. exists c0, rest, g. repeat split; auto.
    + intros (c0 & rest & g & -> & Hc0 & Ht & Hf). simpl.
      rewrite Hc0. simpl. rewrite Ht. simpl. exact Hf.
  - intros Hch. now rewrite Hch.
Qed.

Lemma X12_witness :
  parse_agent (node "CdtrAgt" []) = Raise IndexError
  /\ parse_agent
       (node "CdtrAgt" [node "FinInstnId" [leaf "BIC" "MARKDEF1100"]; node "Foo" []])
     = Ok (FinancialInstitutionIdentification.mk (Some "MARKDEF1100") None None).
Proof.
  split.
  - apply (proj2 (X12_agent_first_child (node "CdtrAgt" []))). reflexivity.
  - apply (proj1 (X12_agent_first_child
                    (node "CdtrAgt"
                       [node "FinInstnId" [leaf "BIC" "MARKDEF1100"]; node "Foo" []]))).
    exists (node "FinInstnId" [leaf "BIC" "MARKDEF1100"]), [node "Foo" []],
      (leaf "BIC" "MARKDEF1100").
    repeat split.
Defined.

(** ** List fields and singular fields *)

Lemma for_each_gathers {S A : Type} (body : S -> Element -> result S)
  (proj : S -> list A) (T : string) (decode : Element -> result A) :
  (forall s c s',
      body s c = Ok s' ->
      if tag_is T c
      then exists a, decode c = Ok a /\ proj s' = (proj s ++ [a])%list
      else proj s' = proj s) ->
  forall l s s',
    for_each body l s = Ok s' ->
    exists xs, collect T decode l = Ok xs /\ proj s' = (proj s ++ xs)%list.
Proof.
  intros Hstep; induction l as [|c l IH]; intros s s' Hrun; simpl in *.
  - injection Hrun as <-. exists []. now rewrite app_nil_r.
  - apply bind_ok in Hrun as (s1 & H1 & H2).
    destruct (IH _ _ H2) as (xs & Hxs & Hp). specialize (Hstep _ _ _ H1).
    destruct (tag_is T c).
    + destruct Hstep as (a & Ha & Hs1). exists (a :: xs).
      rewrite Ha, Hxs. simpl. split; [reflexivity|].
      now rewrite Hp, Hs1, <- app_assoc.
    + exists xs. split; [exact Hxs | congruence].
Qed.

Lemma collect_length {A : Type} (T : string) (decode : Element -> result A)
  (l : list Element) (xs : list A) :
  collect T decode l = Ok xs ->
  List.length xs = List.length (filter (tag_is T) l).
Proof.
  revert xs; induction l as [|c l IH]; intros xs; simpl.
  - now intros [= <-].
  - destruct (tag_is T c); [|apply IH].
    intros Hc. apply bind_ok in Hc as (a & _ & Hc).
    apply bind_ok in Hc as (ys & Hys & Hc). injection Hc as <-.
    simpl. now rewrite (IH _ Hys).
Qed.

Ltac gathers_from body proj T decode Hr :=
  let K := fresh "K" in
  let xs := fresh "xs" in
  let Hxs := fresh "Hxs" in
  let Hp := fresh "Hp" in
  assert (K : forall s c s',
             body s c = Ok s' ->
             if tag_is T c
             then exists a, decode c = Ok a /\ proj s' = (proj s ++ [a])%list
             else proj s' = proj s)
    by decodes_step body;
  destruct (for_each_gathers body proj T decode K _ _ _ Hr) as (xs & Hxs & Hp);
  simpl in Hp; rewrite Hp; exact Hxs.

Ltac gathers_by body proj T decode :=
  let tree := fresh "tree" in
  let r := fresh "r" in
  let Hr := fresh "Hr" in
  intros tree r Hr; gathers_from body proj T decode Hr.

Ltac fills_from body proj T decode Hr :=
  let K := fresh "K" in
  assert (K : forall s c s',
             body s c = Ok s' ->
             if tag_is T c then exists a, decode c = Ok a /\ proj s' = Some a
             else proj s' = proj s)
    by decodes_step body;
  exact (for_each_last body proj T
           (fun c x => exists a, decode c = Ok a /\ x = Some a) K _ _ _ Hr).

Ltac fills_by body proj T decode :=
  let tree := fresh "tree" in
  let r := fresh "r" in
  let Hr := fresh "Hr" in
  intros tree r Hr; fills_from body proj T decode Hr.

Section Fields.
Context `{PyLib}.

Lemma gathers_References_Prtry :
  gathers References.parse_xml "Prtry"
    ProprietaryReference.parse_xml References.proprietary_reference.
Proof.
  gathers_by References.body References.proprietary_reference "Prtry"
    ProprietaryReference.parse_xml.
Qed.

Lemma gathers_TransactionDetails_RmtInf :
  gathers TransactionDetails.parse_xml "RmtInf"
    RelatedRemittanceInformation.parse_xml TransactionDetails.related_remittance_information.
Proof.
  intros tree r Hr. unfold TransactionDetails.parse_xml in Hr.
  apply bind_ok in Hr as (s & Hs & Hf).
  apply TransactionDetails_finish in Hf as (_ & _ & _ & _ & E). rewrite E.
  gathers_from TransactionDetails.body
    TransactionDetails.v_related_remittance_information "RmtInf"
    RelatedRemittanceInformation.parse_xml Hs.
Qed.

Lemma gathers_Entry_NtryDtls :
  gathers Entry.parse_xml "NtryDtls"
    EntryDetails.parse_xml Entry.details.
Proof.
  gathers_by Entry.body Entry.details "NtryDtls"
    EntryDetails.parse_xml.
Qed.

Lemma gathers_Report_Bal :
  gathers Report.parse_xml "Bal"
    Balance.parse_xml Report.balances.
Proof.
  gathers_by Report.body Report.balances "Bal"
    Balance.parse_xml.
Qed.

Lemma gathers_Report_Ntry :
  gathers Report.parse_xml "Ntry"
    Entry.parse_xml Report.entries.
Proof.
  gathers_by Report.body Report.entries "Ntry"
    Entry.parse_xml.
Qed.

Lemma gathers_BankToCustomerAccountReport_Rpt :
  gathers BankToCustomerAccountReport.parse_xml "Rpt"
    Report.parse_xml BankToCustomerAccountReport.reports.
Proof.
  gathers_by BankToCustomerAccountReport.body BankToCustomerAccountReport.reports "Rpt"
    Report.parse_xml.
Qed.

Lemma fills_GroupHeader_MsgPgntn :
  fills GroupHeader.parse_xml "MsgPgntn"
    MessagePagination.parse_xml GroupHeader.message_pagination.
Proof.
  fills_by GroupHeader.body GroupHeader.message_pagination "MsgPgntn"
    MessagePagination.parse_xml.
Qed.

Lemma fills_Servicer_FinInstnId :
  fills Servicer.parse_xml "FinInstnId"
    FinancialInstitutionIdentification.parse_xml Servicer.financial_institution_identification.
Proof.
  fills_by Servicer.body Servicer.financial_institution_identification "FinInstnId"
    FinancialInstitutionIdentification.parse_xml.
Qed.

Lemma fills_Account_Svcr :
  fills Account.parse_xml "Svcr"
    Servicer.parse_xml Account.servicer.
Proof.
  fills_by Account.body Account.servicer "Svcr"
    Servicer.parse_xml.
Qed.

Lemma fills_PartyIdentification_Id :
  fills PartyIdentification.parse_xml "Id"
    parse_identification_from_xml PartyIdentification.identification.
Proof.
  fills_by PartyIdentification.body PartyIdentification.identification "Id"
    parse_identification_from_xml.
Qed.

Lemma fills_RelatedParties_Dbtr :
  fills RelatedParties.parse_xml "Dbtr"
    parse_partchoice_from_xml RelatedParties.debtor.
Proof.
  fills_by RelatedParties.body RelatedParties.debtor "Dbtr"
    parse_partchoice_from_xml.
Qed.

Lemma fills_RelatedParties_DbtrAcct :
  fills RelatedParties.parse_xml "DbtrAcct"
    CashAccount.parse_xml RelatedParties.debtor_account.
Proof.
  fills_by RelatedParties.body RelatedParties.debtor_account "DbtrAcct"
    CashAccount.parse_xml.
Qed.

Lemma fills_RelatedParties_Cdtr :
  fills RelatedParties.parse_xml "Cdtr"
    parse_partchoice_from_xml RelatedParties.creditor.
Proof.
  fills_by RelatedParties.body RelatedParties.creditor "Cdtr"
    parse_partchoice_from_xml.
Qed.

Lemma fills_RelatedParties_CdtrAcct :
  fills RelatedParties.parse_xml "CdtrAcct"
    CashAccount.parse_xml RelatedParties.creditor_account.
Proof.
  fills_by RelatedParties.body RelatedParties.creditor_account "CdtrAcct"
    CashAccount.parse_xml.
Qed.

Lemma fills_RelatedAgents_DbtrAgt :
  fills RelatedAgents.parse_xml "DbtrAgt"
    parse_agent RelatedAgents.debtor_agent.
Proof.
  fills_by RelatedAgents.body RelatedAgents.debtor_agent "DbtrAgt"
    parse_agent.
Qed.

Lemma fills_RelatedAgents_CdtrAgt :
  fills RelatedAgents.parse_xml "CdtrAgt"
    parse_agent RelatedAgents.creditor_agent.
Proof.
  fills_by RelatedAgents.body RelatedAgents.creditor_agent "CdtrAgt"
    parse_agent.
Qed.

Lemma fills_TransactionDetails_Refs :
  fills TransactionDetails.parse_xml "Refs"
    References.parse_xml TransactionDetails.references.
Proof.
  intros tree r Hr. unfold TransactionDetails.parse_xml in Hr.
  apply bind_ok in Hr as (s & Hs & Hf).
  apply TransactionDetails_finish in Hf as (E1 & E2 & E3 & E4 & _). rewrite E1.
  fills_from TransactionDetails.body TransactionDetails.v_references "Refs"
    References.parse_xml Hs.
Qed.

Lemma fills_TransactionDetails_BkTxCd :
  fills TransactionDetails.parse_xml "BkTxCd"
    parse_bank_transaction_code_from_xml TransactionDetails.bank_transaction_code.
Proof.
  intros tree r Hr. unfold TransactionDetails.parse_xml in Hr.
  apply bind_ok in Hr as (s & Hs & Hf).
  apply TransactionDetails_finish in Hf as (E1 & E2 & E3 & E4 & _). rewrite E2.
  fills_from TransactionDetails.body TransactionDetails.v_bank_transaction_code "BkTxCd"
    parse_bank_transaction_code_from_xml Hs.
Qed.

Lemma fills_TransactionDetails_RltdPties :
  fills TransactionDetails.parse_xml "RltdPties"
    RelatedParties.parse_xml TransactionDetails.related_parties.
Proof.
  intros tree r Hr. unfold TransactionDetails.parse_xml in Hr.
  apply bind_ok in Hr as (s & Hs & Hf).
  apply TransactionDetails_finish in Hf as (E1 & E2 & E3 & E4 & _). rewrite E3.
  fills_from TransactionDetails.body TransactionDetails.v_related_parties "RltdPties"
    RelatedParties.parse_xml Hs.
Qed.

Lemma fills_TransactionDetails_RltdAgts :
  fills TransactionDetails.parse_xml "RltdAgts"
    RelatedAgents.parse_xml TransactionDetails.related_agents.
Proof.
  intros tree r Hr. unfold TransactionDetails.parse_xml in Hr.
  apply bind_ok in Hr as (s & Hs & Hf).
  apply TransactionDetails_finish in Hf as (E1 & E2 & E3 & E4 & _). rewrite E4.
  fills_from TransactionDetails.body TransactionDetails.v_related_agents "RltdAgts"
    RelatedAgents.parse_xml Hs.
Qed.

Lemma fills_EntryDetails_TxDtls :
  fills EntryDetails.parse_xml "TxDtls"
    TransactionDetails.parse_xml EntryDetails.transaction_details.
Proof.
  fills_by EntryDetails.body EntryDetails.transaction_details "TxDtls"
    TransactionDetails.parse_xml.
Qed.

Lemma fills_Report_Acct :
  fills Report.parse_xml "Acct"
    Account.parse_xml Report.account.
Proof.
  fills_by Report.body Report.account "Acct"
    Account.parse_xml.
Qed.

Lemma fills_BankToCustomerAccountReport_GrpHdr :
  fills BankToCustomerAccountReport.parse_xml "GrpHdr"
    GroupHeader.parse_xml BankToCustomerAccountReport.group_header.
Proof.
  fills_by BankToCustomerAccountReport.body BankToCustomerAccountReport.group_header "GrpHdr"
    GroupHeader.parse_xml.
Qed.

(** X13: a list field holds what the parser of its items made of every
    child with the tag of the field, in document order, and nothing else:
    the proprietary references, the remittance informations of a
    transaction, the details of an entry, the balances and entries of a
    report and the reports of a document.  The list has as many items as
    the element has children with that tag. *)
Theorem X13_list_fields_in_document_order :
  gathers References.parse_xml "Prtry"
       ProprietaryReference.parse_xml References.proprietary_reference
  /\ gathers TransactionDetails.parse_xml "RmtInf"
       RelatedRemittanceInformation.parse_xml TransactionDetails.related_remittance_information
  /\ gathers Entry.parse_xml "NtryDtls"
       EntryDetails.parse_xml Entry.details
  /\ gathers Report.parse_xml "Bal"
       Balance.parse_xml Report.balances
  /\ gathers Report.parse_xml "Ntry"
       Entry.parse_xml Report.entries
  /\ gathers BankToCustomerAccountReport.parse_xml "Rpt"
       Report.parse_xml BankToCustomerAccountReport.reports
  /\ (forall (A : Type) T (decode : Element -> result A) l xs,
         collect T decode l = Ok xs ->
         List.length xs = List.length (filter (tag_is T) l)).
Proof.
  repeat match goal with |- _ /\ _ => split end.
  - exact gathers_References_Prtry.
  - exact gathers_TransactionDetails_RmtInf.
  - exact gathers_Entry_NtryDtls.
  - exact gathers_Report_Bal.
  - exact gathers_Report_Ntry.
  - exact gathers_BankToCustomerAccountReport_Rpt.
  - intros A. apply collect_length.
Qed.

(** X14: a singular field that holds a record is filled from the last child
    with its tag: it holds what the parser of that record made of that
    child, and [None] when no child has the tag.  Earlier children with the
    same tag are parsed and then overwritten. *)
Theorem X14_singular_fields_last_wins :
  fills GroupHeader.parse_xml "MsgPgntn"
       MessagePagination.parse_xml GroupHeader.message_pagination
  /\ fills Servicer.parse_xml "FinInstnId"
       FinancialInstitutionIdentification.parse_xml Servicer.financial_institution_identification
  /\ fills Account.parse_xml "Svcr"
       Servicer.parse_xml Account.servicer
  /\ fills PartyIdentification.parse_xml "Id"
       parse_identification_from_xml PartyIdentification.identification
  /\ fills RelatedParties.parse_xml "Dbtr"
       parse_partchoice_from_xml RelatedParties.debtor
  /\ fills RelatedParties.parse_xml "DbtrAcct"
       CashAccount.parse_xml RelatedParties.debtor_account
  /\ fills RelatedParties.parse_xml "Cdtr"
       parse_partchoice_from_xml RelatedParties.creditor
  /\ fills RelatedParties.parse_xml "CdtrAcct"
       CashAccount.parse_xml RelatedParties.creditor_account
  /\ fills RelatedAgents.parse_xml "DbtrAgt"
       parse_agent RelatedAgents.debtor_agent
  /\ fills RelatedAgents.parse_xml "CdtrAgt"
       parse_agent RelatedAgents.creditor_agent
  /\ fills TransactionDetails.parse_xml "Refs"
       References.parse_xml TransactionDetails.references
  /\ fills TransactionDetails.parse_xml "BkTxCd"
       parse_bank_transaction_code_from_xml TransactionDetails.bank_transaction_code
  /\ fills TransactionDetails.parse_xml "RltdPties"
       RelatedParties.parse_xml TransactionDetails.related_parties
  /\ fills TransactionDetails.parse_xml "RltdAgts"
       RelatedAgents.parse_xml TransactionDetails.related_agents
  /\ fills EntryDetails.parse_xml "TxDtls"
       TransactionDetails.parse_xml EntryDetails.transaction_details
  /\ fills Report.parse_xml "Acct"
       Account.parse_xml Report.account
  /\ fills BankToCustomerAccountReport.parse_xml "GrpHdr"
       GroupHeader.parse_xml BankToCustomerAccountReport.group_header.
Proof.
  repeat match goal with |- _ /\ _ => split end.
  - exact fills_GroupHeader_MsgPgntn.
  - exact fills_Servicer_FinInstnId.
  - exact fills_Account_Svcr.
  - exact fills_PartyIdentification_Id.
  - exact fills_RelatedParties_Dbtr.
  - exact fills_RelatedParties_DbtrAcct.
  - exact fills_RelatedParties_Cdtr.
  - exact fills_RelatedParties_CdtrAcct.
  - exact fills_RelatedAgents_DbtrAgt.
  - exact fills_RelatedAgents_CdtrAgt.
  - exact fills_TransactionDetails_Refs.
  - exact fills_TransactionDetails_BkTxCd.
  - exact fills_TransactionDetails_RltdPties.
  - exact fills_TransactionDetails_RltdAgts.
  - exact fills_EntryDetails_TxDtls.
  - exact fills_Report_Acct.
  - exact fills_BankToCustomerAccountReport_GrpHdr.
Qed.
End Fields.

Lemma X13_witness :
  List.length
    (References.proprietary_reference
       (References.mk None None
          [ProprietaryReference.mk (Some "A") None;
           ProprietaryReference.mk (Some "B") None]))
  = 2%nat.
Proof.
  pose proof (@X13_list_fields_in_document_order Reference.lib) as C.
  pose proof (proj1 C
                (node "Refs" [node "Prtry" [leaf "Tp" "A"]; leaf "MndtId" "M";
                              node "Prtry" [leaf "Tp" "B"]])
                _ eq_refl) as Hc.
  do 6 apply proj2 in C.
  exact (C _ _ _ _ _ Hc).
Defined.

Lemma X14_witness :
  exists a,
    Account.parse_xml (node "Acct" [node "Id" [leaf "IBAN" "DE11"]]) = Ok a
    /\ @Report.account Reference.lib
         (Report.mk Reference.lib None None None
            (Some (Account.mk (Some "DE11") None None)) [] [])
       = Some a.
Proof.
  pose proof (@X14_singular_fields_last_wins Reference.lib) as C.
  do 15 apply proj2 in C. apply proj1 in C.
  exact (C (node "Rpt" [node "Acct" [node "Id" [leaf "IBAN" "DE00"]];
                        node "Acct" [node "Id" [leaf "IBAN" "DE11"]]])
           _ eq_refl).
Defined.

(** ** What the serializer raises *)

Lemma bind_raise {A B : Type} (m : result A) (k : A -> result B) (e : exn) :
  bind m k = Raise e -> m = Raise e \/ exists a, m = Ok a /\ k a = Raise e.
Proof.
  destruct m as [a|e']; simpl; intros Hk.
  - right. now exists a.
  - left. congruence.
Qed.

Lemma bind_total {A B : Type} (m : result A) (k : A -> result B) :
  succeeds m = true -> (forall a, succeeds (k a) = true) ->
  succeeds (bind m k) = true.
Proof. destruct m as [a|e]; simpl; [auto | discriminate]. Qed.

Lemma attr_raises {A B : Type} (o : option A) (m : A -> result B) (e : exn) :
  attr o m = Raise e ->
  (forall a e', m a = Raise e' -> e' = AttributeError) ->
  e = AttributeError.
Proof.
  destruct o as [a|]; simpl; intros Hr Hm; [eauto | congruence].
Qed.

Create HintDb serializers.

Section Serializer.
Context `{PyLib}.

Lemma if_set_raises {A : Type} (o : option A) (m : A -> result pyval) (e : exn) :
  if_set o m = Raise e ->
  (forall a e', m a = Raise e' -> e' = AttributeError) ->
  e = AttributeError.
Proof.
  destruct o as [a|]; simpl; intros Hr Hm; [eauto | discriminate].
Qed.

Lemma list_comp_raises {A : Type} (m : A -> result pyval) (l : list A) (e : exn) :
  list_comp m l = Raise e ->
  (forall a e', m a = Raise e' -> e' = AttributeError) ->
  e = AttributeError.
Proof.
  intros Hr Hm. induction l as [|x l IH]; simpl in Hr; [discriminate|].
  apply bind_raise in Hr as [Hr | (v & _ & Hr)]; [eauto|].
  apply bind_raise in Hr as [Hr | (vs & _ & Hr)]; [auto | discriminate].
Qed.

Lemma if_set_total {A : Type} (o : option A) (m : A -> result pyval) :
  (forall a, succeeds (m a) = true) -> succeeds (if_set o m) = true.
Proof. destruct o; simpl; auto. Qed.

Lemma list_comp_total {A : Type} (m : A -> result pyval) (l : list A) :
  (forall a, succeeds (m a) = true) -> succeeds (list_comp m l) = true.
Proof.
  intros Hm. induction l as [|x l IH]; simpl; [reflexivity|].
  apply bind_total; [apply Hm | intros v].
  apply bind_total; [exact IH | reflexivity].
Qed.

Lemma list_comp_Forall2 {A : Type} (m : A -> result pyval) (l : list A)
  (vs : list pyval) :
  list_comp m l = Ok vs -> Forall2 (fun x y => m x = Ok y) l vs.
Proof.
  revert vs; induction l as [|x l IH]; intros vs; simpl.
  - intros [= <-]. constructor.
  - intros Hl. apply bind_ok in Hl as (v & Hv & Hl).
    apply bind_ok in Hl as (ws & Hws & Hl). injection Hl as <-.
    constructor; auto.
Qed.

Ltac sub_raises :=
  let a := fresh "a" in
  let e' := fresh "e'" in
  let Ha := fresh "Ha" in
  intros a e' Ha; first [discriminate Ha | eauto with serializers].

Ltac raises_by to_dict_tree :=
  let r := fresh "r" in
  let e := fresh "e" in
  let Hr := fresh "Hr" in
  intros r e Hr; unfold to_dict_tree, isoformat in Hr;
  repeat (apply bind_raise in Hr as [Hr | (? & _ & Hr)]);
  try discriminate Hr;
  first [ eapply attr_raises; [exact Hr | sub_raises]
        | eapply if_set_raises; [exact Hr | sub_raises]
        | eapply list_comp_raises; [exact Hr | sub_raises] ].

Ltac total_by to_dict_tree :=
  let r := fresh "r" in
  intros r; unfold to_dict_tree;
  repeat (apply bind_total; [|intros ?]);
  try reflexivity;
  first [ apply if_set_total | apply list_comp_total ];
  auto with serializers.

Lemma MessagePagination_raises :
  forall r e, MessagePagination.to_dict_tree r = Raise e -> e = AttributeError.
Proof. intros r e Hr. discriminate Hr. Qed.

#[local] Hint Resolve MessagePagination_raises : serializers.

Lemma GroupHeader_raises :
  forall r e, GroupHeader.to_dict_tree r = Raise e -> e = AttributeError.
Proof. raises_by @GroupHeader.to_dict_tree. Qed.

#[local] Hint Resolve GroupHeader_raises : serializers.

Lemma FinancialInstitutionIdentification_raises :
  forall r e, FinancialInstitutionIdentification.to_dict_tree r = Raise e -> e = AttributeError.
Proof. intros r e Hr. discriminate Hr. Qed.

#[local] Hint Resolve FinancialInstitutionIdentification_raises : serializers.

Lemma Servicer_raises :
  forall r e, Servicer.to_dict_tree r = Raise e -> e = AttributeError.
Proof. raises_by @Servicer.to_dict_tree. Qed.

#[local] Hint Resolve Servicer_raises : serializers.

Lemma Account_raises :
  forall r e, Account.to_dict_tree r = Raise e -> e = AttributeError.
Proof. raises_by @Account.to_dict_tree. Qed.

#[local] Hint Resolve Account_raises : serializers.

Lemma Amount_raises :
  forall r e, Amount.to_dict_tree r = Raise e -> e = AttributeError.
Proof. intros r e Hr. discriminate Hr. Qed.

#[local] Hint Resolve Amount_raises : serializers.

Lemma Balance_raises :
  forall r e, Balance.to_dict_tree r = Raise e -> e = AttributeError.
Proof. raises_by @Balance.to_dict_tree. Qed.

#[local] Hint Resolve Balance_raises : serializers.

Lemma ProprietaryReference_raises :
  forall r e, ProprietaryReference.to_dict_tree r = Raise e -> e = AttributeError.
Proof. intros r e Hr. discriminate Hr. Qed.

#[local] Hint Resolve ProprietaryReference_raises : serializers.

Lemma References_raises :
  forall r e, References.to_dict_tree r = Raise e -> e = AttributeError.
Proof. raises_by @References.to_dict_tree. Qed.

#[local] Hint Resolve References_raises : serializers.

Lemma ProprietaryBankTransactionCode_raises :
  forall r e, ProprietaryBankTransactionCode.to_dict_tree r = Raise e -> e = AttributeError.
Proof. intros r e Hr. discriminate Hr. Qed.

#[local] Hint Resolve ProprietaryBankTransactionCode_raises : serializers.

Lemma PrivateIdentification_raises :
  forall r e, PrivateIdentification.to_dict_tree r = Raise e -> e = AttributeError.
Proof. intros r e Hr. discriminate Hr. Qed.

#[local] Hint Resolve PrivateIdentification_raises : serializers.

Lemma PartyIdentification_raises :
  forall r e, PartyIdentification.to_dict_tree r = Raise e -> e = AttributeError.
Proof. raises_by @PartyIdentification.to_dict_tree. Qed.

#[local] Hint Resolve PartyIdentification_raises : serializers.

Lemma PartyChoice_raises :
  forall r e, PartyChoice.to_dict_tree r = Raise e -> e = AttributeError.
Proof.
  intros [p|f] e Hr; simpl in Hr; eauto with serializers.
Qed.

#[local] Hint Resolve PartyChoice_raises : serializers.

Lemma CashAccount_raises :
  forall r e, CashAccount.to_dict_tree r = Raise e -> e = AttributeError.
Proof. intros r e Hr. discriminate Hr. Qed.

#[local] Hint Resolve CashAccount_raises : serializers.

Lemma RelatedParties_raises :
  forall r e, RelatedParties.to_dict_tree r = Raise e -> e = AttributeError.
Proof. raises_by @RelatedParties.to_dict_tree. Qed.

#[local] Hint Resolve RelatedParties_raises : serializers.

Lemma RelatedAgents_raises :
  forall r e, RelatedAgents.to_dict_tree r = Raise e -> e = AttributeError.
Proof. raises_by @RelatedAgents.to_dict_tree. Qed.

#[local] Hint Resolve RelatedAgents_raises : serializers.

Lemma RelatedRemittanceInformation_raises :
  forall r e, RelatedRemittanceInformation.to_dict_tree r = Raise e -> e = AttributeError.
Proof. intros r e Hr. discriminate Hr. Qed.

#[local] Hint Resolve RelatedRemittanceInformation_raises : serializers.

Lemma TransactionDetails_raises :
  forall r e, TransactionDetails.to_dict_tree r = Raise e -> e = AttributeError.
Proof. raises_by @TransactionDetails.to_dict_tree. Qed.

#[local] Hint Resolve TransactionDetails_raises : serializers.

Lemma EntryDetails_raises :
  forall r e, EntryDetails.to_dict_tree r = Raise e -> e = AttributeError.
Proof. raises_by @EntryDetails.to_dict_tree. Qed.

#[local] Hint Resolve EntryDetails_raises : serializers.

Lemma Entry_raises :
  forall r e, Entry.to_dict_tree r = Raise e -> e = AttributeError.
Proof. raises_by @Entry.to_dict_tree. Qed.

#[local] Hint Resolve Entry_raises : serializers.

Lemma Report_raises :
  forall r e, Report.to_dict_tree r = Raise e -> e = AttributeError.
Proof. raises_by @Report.to_dict_tree. Qed.

#[local] Hint Resolve Report_raises : serializers.

Lemma BankToCustomerAccountReport_raises :
  forall r e, BankToCustomerAccountReport.to_dict_tree r = Raise e -> e = AttributeError.
Proof. raises_by @BankToCustomerAccountReport.to_dict_tree. Qed.

#[local] Hint Resolve BankToCustomerAccountReport_raises : serializers.

Lemma MessagePagination_total :
  forall r, succeeds (MessagePagination.to_dict_tree r) = true.
Proof. reflexivity. Qed.

#[local] Hint Resolve MessagePagination_total : serializers.

Lemma FinancialInstitutionIdentification_total :
  forall r, succeeds (FinancialInstitutionIdentification.to_dict_tree r) = true.
Proof. reflexivity. Qed.

#[local] Hint Resolve FinancialInstitutionIdentification_total : serializers.

Lemma Servicer_total :
  forall r, succeeds (Servicer.to_dict_tree r) = true.
Proof. total_by @Servicer.to_dict_tree. Qed.

#[local] Hint Resolve Servicer_total : serializers.

Lemma Account_total :
  forall r, succeeds (Account.to_dict_tree r) = true.
Proof. total_by @Account.to_dict_tree. Qed.

#[local] Hint Resolve Account_total : serializers.

Lemma Amount_total :
  forall r, succeeds (Amount.to_dict_tree r) = true.
Proof. reflexivity. Qed.

#[local] Hint Resolve Amount_total : serializers.

Lemma ProprietaryReference_total :
  forall r, succeeds (ProprietaryReference.to_dict_tree r) = true.
Proof. reflexivity. Qed.

#[local] Hint Resolve ProprietaryReference_total : serializers.

Lemma References_total :
  forall r, succeeds (References.to_dict_tree r) = true.
Proof. total_by @References.to_dict_tree. Qed.

#[local] Hint Resolve References_total : serializers.

Lemma ProprietaryBankTransactionCode_total :
  forall r, succeeds (ProprietaryBankTransactionCode.to_dict_tree r) = true.
Proof. reflexivity. Qed.

#[local] Hint Resolve ProprietaryBankTransactionCode_total : serializers.

Lemma PrivateIdentification_total :
  forall r, succeeds (PrivateIdentification.to_dict_tree r) = true.
Proof. reflexivity. Qed.

#[local] Hint Resolve PrivateIdentification_total : serializers.

Lemma PartyIdentification_total :
  forall r, succeeds (PartyIdentification.to_dict_tree r) = true.
Proof. total_by @PartyIdentification.to_dict_tree. Qed.

#[local] Hint Resolve PartyIdentification_total : serializers.

Lemma PartyChoice_total :
  forall r, succeeds (PartyChoice.to_dict_tree r) = true.
Proof. intros [p|f]; simpl; auto with serializers. Qed.

#[local] Hint Resolve PartyChoice_total : serializers.

Lemma CashAccount_total :
  forall r, succeeds (CashAccount.to_dict_tree r) = true.
Proof. reflexivity. Qed.

#[local] Hint Resolve CashAccount_total : serializers.

Lemma RelatedParties_total :
  forall r, succeeds (RelatedParties.to_dict_tree r) = true.
Proof. total_by @RelatedParties.to_dict_tree. Qed.

#[local] Hint Resolve RelatedParties_total : serializers.

Lemma RelatedRemittanceInformation_total :
  forall r, succeeds (RelatedRemittanceInformation.to_dict_tree r) = true.
Proof. reflexivity. Qed.

#[local] Hint Resolve RelatedRemittanceInformation_total : serializers.

(** X15: serializing raises nothing but [AttributeError]: every
    [to_dict_tree] either returns a tree or raises that exception, and so
    does [parse_etree] followed by [to_dict_tree] once the parse has
    returned a document. *)
Theorem X15_serializers_raise_attribute_error_only :
  raises_only_attribute_error MessagePagination.to_dict_tree
  /\ raises_only_attribute_error GroupHeader.to_dict_tree
  /\ raises_only_attribute_error FinancialInstitutionIdentification.to_dict_tree
  /\ raises_only_attribute_error Servicer.to_dict_tree
  /\ raises_only_attribute_error Account.to_dict_tree
  /\ raises_only_attribute_error Amount.to_dict_tree
  /\ raises_only_attribute_error Balance.to_dict_tree
  /\ raises_only_attribute_error ProprietaryReference.to_dict_tree
  /\ raises_only_attribute_error References.to_dict_tree
  /\ raises_only_attribute_error ProprietaryBankTransactionCode.to_dict_tree
  /\ raises_only_attribute_error PrivateIdentification.to_dict_tree
  /\ raises_only_attribute_error PartyIdentification.to_dict_tree
  /\ raises_only_attribute_error PartyChoice.to_dict_tree
  /\ raises_only_attribute_error CashAccount.to_dict_tree
  /\ raises_only_attribute_error RelatedParties.to_dict_tree
  /\ raises_only_attribute_error RelatedAgents.to_dict_tree
  /\ raises_only_attribute_error RelatedRemittanceInformation.to_dict_tree
  /\ raises_only_attribute_error TransactionDetails.to_dict_tree
  /\ raises_only_attribute_error EntryDetails.to_dict_tree
  /\ raises_only_attribute_error Entry.to_dict_tree
  /\ raises_only_attribute_error Report.to_dict_tree
  /\ raises_only_attribute_error BankToCustomerAccountReport.to_dict_tree
  /\ (forall root doc e,
         parse_etree root = Ok doc ->
         parse_and_serialize root = Raise e ->
         e = AttributeError).
Proof.
  repeat match goal with |- _ /\ _ => split end.
  - exact MessagePagination_raises.
  - exact GroupHeader_raises.
  - exact FinancialInstitutionIdentification_raises.
  - exact Servicer_raises.
  - exact Account_raises.
  - exact Amount_raises.
  - exact Balance_raises.
  - exact ProprietaryReference_raises.
  - exact References_raises.
  - exact ProprietaryBankTransactionCode_raises.
  - exact PrivateIdentification_raises.
  - exact PartyIdentification_raises.
  - exact PartyChoice_raises.
  - exact CashAccount_raises.
  - exact RelatedParties_raises.
  - exact RelatedAgents_raises.
  - exact RelatedRemittanceInformation_raises.
  - exact TransactionDetails_raises.
  - exact EntryDetails_raises.
  - exact Entry_raises.
  - exact Report_raises.
  - exact BankToCustomerAccountReport_raises.
  - intros root doc e Hd Hs. unfold parse_and_serialize in Hs. rewrite Hd in Hs.
    simpl in Hs. eauto with serializers.
Qed.

(** X16: the serializers of the records without a required record or date
    inside never raise, whatever the record holds; the others return a tree
    only for a record whose fields read without a test are set:
    [GroupHeader] exactly when the creation time is set, [Balance] exactly
    when amount and date are set, [RelatedAgents] exactly when both agents
    are set, and [EntryDetails], [Entry], [Report] and the document only if
    the transaction details, the amount, the account and the group header
    are set. *)
Theorem X16_which_records_serialize :
  never_raises MessagePagination.to_dict_tree
  /\ never_raises FinancialInstitutionIdentification.to_dict_tree
  /\ never_raises Servicer.to_dict_tree
  /\ never_raises Account.to_dict_tree
  /\ never_raises Amount.to_dict_tree
  /\ never_raises ProprietaryReference.to_dict_tree
  /\ never_raises References.to_dict_tree
  /\ never_raises ProprietaryBankTransactionCode.to_dict_tree
  /\ never_raises PrivateIdentification.to_dict_tree
  /\ never_raises PartyIdentification.to_dict_tree
  /\ never_raises PartyChoice.to_dict_tree
  /\ never_raises CashAccount.to_dict_tree
  /\ never_raises RelatedParties.to_dict_tree
  /\ never_raises RelatedRemittanceInformation.to_dict_tree
  /\ (forall r, succeeds (GroupHeader.to_dict_tree r) = true <->
                 GroupHeader.creation_time r <> None)
  /\ (forall r, succeeds (Balance.to_dict_tree r) = true <->
                 Balance.amount r <> None /\ Balance.date r <> None)
  /\ (forall r, succeeds (RelatedAgents.to_dict_tree r) = true <->
                 RelatedAgents.debtor_agent r <> None
                 /\ RelatedAgents.creditor_agent r <> None)
  /\ (forall r, succeeds (EntryDetails.to_dict_tree r) = true ->
                 EntryDetails.transaction_details r <> None)
  /\ (forall r, succeeds (Entry.to_dict_tree r) = true ->
                 Entry.amount r <> None)
  /\ (forall r, succeeds (Report.to_dict_tree r) = true ->
                 Report.account r <> None)
  /\ (forall r, succeeds (BankToCustomerAccountReport.to_dict_tree r) = true ->
                 BankToCustomerAccountReport.group_header r <> None).
Proof.
  repeat match goal with |- _ /\ _ => split end.
  - exact MessagePagination_total.
  - exact FinancialInstitutionIdentification_total.
  - exact Servicer_total.
  - exact Account_total.
  - exact Amount_total.
  - exact ProprietaryReference_total.
  - exact References_total.
  - exact ProprietaryBankTransactionCode_total.
  - exact PrivateIdentification_total.
  - exact PartyIdentification_total.
  - exact PartyChoice_total.
  - exact CashAccount_total.
  - exact RelatedParties_total.
  - exact RelatedRemittanceInformation_total.
  - intros [m [t|] p]; simpl.
    + split; [discriminate|]. intros _.
      destruct p; reflexivity.
    + split; [discriminate | tauto].
  - intros [b [a|] c [d|]]; simpl; split; try discriminate; try tauto;
      try reflexivity; split; discriminate.
  - intros [[d|] [c|]]; simpl; split; try discriminate; try tauto;
      try reflexivity; split; discriminate.
  - intros [[t|]]; simpl; [discriminate | discriminate].
  - intros r. unfold Entry.to_dict_tree.
    destruct (Entry.amount r); simpl; discriminate.
  - intros r. unfold Report.to_dict_tree.
    destruct (Report.account r); simpl.
    + discriminate.
    + destruct (if_set _ _); simpl; discriminate.
  - intros r. unfold BankToCustomerAccountReport.to_dict_tree.
    destruct (BankToCustomerAccountReport.group_header r); simpl; discriminate.
Qed.

Lemma emits_list_References_proprietary_reference :
  emits_list References.to_dict_tree "proprietaryReference"
    References.proprietary_reference ProprietaryReference.to_dict_tree.
Proof.
  intros r v Hv. open_serializer @References.to_dict_tree Hv.
  eexists. split; [reflexivity | apply list_comp_Forall2; eassumption].
Qed.

Lemma emits_list_TransactionDetails_related_remittance_information :
  emits_list TransactionDetails.to_dict_tree "relatedRemittanceInformation"
    TransactionDetails.related_remittance_information RelatedRemittanceInformation.to_dict_tree.
Proof.
  intros r v Hv. open_serializer @TransactionDetails.to_dict_tree Hv.
  eexists. split; [reflexivity | apply list_comp_Forall2; eassumption].
Qed.

Lemma emits_list_Entry_details :
  emits_list Entry.to_dict_tree "details"
    Entry.details EntryDetails.to_dict_tree.
Proof.
  intros r v Hv. open_serializer @Entry.to_dict_tree Hv.
  eexists. split; [reflexivity | apply list_comp_Forall2; eassumption].
Qed.

Lemma emits_list_Report_balances :
  emits_list Report.to_dict_tree "balances"
    Report.balances Balance.to_dict_tree.
Proof.
  intros r v Hv. open_serializer @Report.to_dict_tree Hv.
  eexists. split; [reflexivity | apply list_comp_Forall2; eassumption].
Qed.

Lemma emits_list_Report_entries :
  emits_list Report.to_dict_tree "entries"
    Report.entries Entry.to_dict_tree.
Proof.
  intros r v Hv. open_serializer @Report.to_dict_tree Hv.
  eexists. split; [reflexivity | apply list_comp_Forall2; eassumption].
Qed.

Lemma emits_list_BankToCustomerAccountReport_reports :
  emits_list BankToCustomerAccountReport.to_dict_tree "reports"
    BankToCustomerAccountReport.reports Report.to_dict_tree.
Proof.
  intros r v Hv. open_serializer @BankToCustomerAccountReport.to_dict_tree Hv.
  eexists. split; [reflexivity | apply list_comp_Forall2; eassumption].
Qed.

(** X17: a list field is emitted as a list that holds the tree of each
    item, in the order of the field, be the field empty or not. *)
Theorem X17_list_fields_are_emitted_in_order :
  emits_list References.to_dict_tree "proprietaryReference"
       References.proprietary_reference ProprietaryReference.to_dict_tree
  /\ emits_list TransactionDetails.to_dict_tree "relatedRemittanceInformation"
       TransactionDetails.related_remittance_information RelatedRemittanceInformation.to_dict_tree
  /\ emits_list Entry.to_dict_tree "details"
       Entry.details EntryDetails.to_dict_tree
  /\ emits_list Report.to_dict_tree "balances"
       Report.balances Balance.to_dict_tree
  /\ emits_list Report.to_dict_tree "entries"
       Report.entries Entry.to_dict_tree
  /\ emits_list BankToCustomerAccountReport.to_dict_tree "reports"
       BankToCustomerAccountReport.reports Report.to_dict_tree.
Proof.
  repeat match goal with |- _ /\ _ => split end.
  - exact emits_list_References_proprietary_reference.
  - exact emits_list_TransactionDetails_related_remittance_information.
  - exact emits_list_Entry_details.
  - exact emits_list_Report_balances.
  - exact emits_list_Report_entries.
  - exact emits_list_BankToCustomerAccountReport_reports.
Qed.
End Serializer.

Lemma X15_witness :
  @parse_and_serialize Reference.lib document_with_debtor_agent_only
  = Raise AttributeError
  /\ AttributeError = AttributeError.
Proof.
  split; [reflexivity|].
  pose proof (@X15_serializers_raise_attribute_error_only Reference.lib) as C.
  do 22 apply proj2 in C.
  exact (C document_with_debtor_agent_only _ AttributeError eq_refl eq_refl).
Defined.

Lemma X16_witness :
  @GroupHeader.creation_time Reference.lib
    (GroupHeader.mk Reference.lib (Some "MSG1")
       (Some (Reference.mk_dt 2024 1 1 0 0 0)) None)
  <> None.
Proof.
  pose proof (@X16_which_records_serialize Reference.lib) as C.
  do 14 apply proj2 in C. apply proj1 in C.
  apply C. reflexivity.
Defined.

Lemma X17_witness :
  exists vs,
    @field_of Reference.lib "proprietaryReference"
      (PDict [("end_to_end_identification", PNone);
              ("mandate_identification", PNone);
              ("proprietaryReference",
                PList [PDict [("type", PStr "A"); ("reference", PNone)]])])
    = Some (PList vs)
    /\ Forall2 (fun x y => ProprietaryReference.to_dict_tree x = Ok y)
         [ProprietaryReference.mk (Some "A") None] vs.
Proof.
  pose proof (@X17_list_fields_are_emitted_in_order Reference.lib) as C.
  apply proj1 in C.
  exact (C (References.mk None None [ProprietaryReference.mk (Some "A") None])
           _ eq_refl).
Defined.

(** ** The keys of the tree *)

Section Keys.
Context `{PyLib}.

Lemma has_keys_MessagePagination :
  has_keys MessagePagination.to_dict_tree
    ["pageNumber"; "last_page_indication"].
Proof. keys_by @MessagePagination.to_dict_tree. Qed.

Lemma has_keys_GroupHeader :
  has_keys GroupHeader.to_dict_tree
    ["messageIdentification"; "creationTime"; "messagePagination"].
Proof. keys_by @GroupHeader.to_dict_tree. Qed.

Lemma has_keys_FinancialInstitutionIdentification :
  has_keys FinancialInstitutionIdentification.to_dict_tree
    ["bicfi"; "name"; "other"].
Proof. keys_by @FinancialInstitutionIdentification.to_dict_tree. Qed.

Lemma has_keys_Servicer :
  has_keys Servicer.to_dict_tree
    ["financialInstitutionIdentification"].
Proof. keys_by @Servicer.to_dict_tree. Qed.

Lemma has_keys_Account :
  has_keys Account.to_dict_tree
    ["iban"; "currency"; "servicer"].
Proof. keys_by @Account.to_dict_tree. Qed.

Lemma has_keys_Amount :
  has_keys Amount.to_dict_tree
    ["value"; "currency"].
Proof. keys_by @Amount.to_dict_tree. Qed.

Lemma has_keys_Balance :
  has_keys Balance.to_dict_tree
    ["balanceType"; "amount"; "creditDebit"; "date"].
Proof. keys_by @Balance.to_dict_tree. Qed.

Lemma has_keys_ProprietaryReference :
  has_keys ProprietaryReference.to_dict_tree
    ["type"; "reference"].
Proof. keys_by @ProprietaryReference.to_dict_tree. Qed.

Lemma has_keys_References :
  has_keys References.to_dict_tree
    ["end_to_end_identification"; "mandate_identification"; "proprietaryReference"].
Proof. keys_by @References.to_dict_tree. Qed.

Lemma has_keys_ProprietaryBankTransactionCode :
  has_keys ProprietaryBankTransactionCode.to_dict_tree
    ["code"; "issuer"].
Proof. keys_by @ProprietaryBankTransactionCode.to_dict_tree. Qed.

Lemma has_keys_PrivateIdentification :
  has_keys PrivateIdentification.to_dict_tree
    ["other"].
Proof. keys_by @PrivateIdentification.to_dict_tree. Qed.

Lemma has_keys_PartyIdentification :
  has_keys PartyIdentification.to_dict_tree
    ["name"; "identification"].
Proof. keys_by @PartyIdentification.to_dict_tree. Qed.

Lemma has_keys_CashAccount :
  has_keys CashAccount.to_dict_tree
    ["iban"].
Proof. keys_by @CashAccount.to_dict_tree. Qed.

Lemma has_keys_RelatedParties :
  has_keys RelatedParties.to_dict_tree
    ["debtor"; "debtorAccount"; "creditor"; "creditorAccount"].
Proof. keys_by @RelatedParties.to_dict_tree. Qed.

Lemma has_keys_RelatedAgents :
  has_keys RelatedAgents.to_dict_tree
    ["debtorAgent"; "creditorAgent"].
Proof. keys_by @RelatedAgents.to_dict_tree. Qed.

Lemma has_keys_RelatedRemittanceInformation :
  has_keys RelatedRemittanceInformation.to_dict_tree
    ["unstructured"].
Proof. keys_by @RelatedRemittanceInformation.to_dict_tree. Qed.

Lemma has_keys_TransactionDetails :
  has_keys TransactionDetails.to_dict_tree
    ["references"; "bankTransactionCode"; "relatedAgents"; "relatedParties"; "relatedRemittanceInformation"].
Proof. keys_by @TransactionDetails.to_dict_tree. Qed.

Lemma has_keys_EntryDetails :
  has_keys EntryDetails.to_dict_tree
    ["transactionDetails"].
Proof. keys_by @EntryDetails.to_dict_tree. Qed.

Lemma has_keys_Entry :
  has_keys Entry.to_dict_tree
    ["amount"; "creditDebit"; "status"; "bookingDate"; "valueDate"; "accountServiceReference"; "details"; "additionalInformation"].
Proof. keys_by @Entry.to_dict_tree. Qed.

Lemma has_keys_Report :
  has_keys Report.to_dict_tree
    ["identification"; "eletronicSequenceNumber"; "creationTime"; "account"; "balances"; "entries"].
Proof. keys_by @Report.to_dict_tree. Qed.

Lemma has_keys_BankToCustomerAccountReport :
  has_keys BankToCustomerAccountReport.to_dict_tree
    ["groupHeader"; "reports"].
Proof. keys_by @BankToCustomerAccountReport.to_dict_tree. Qed.

(** X18: every [to_dict_tree] returns a dict with the same keys in the
    same order, whatever the record holds: a field that is [None] or an
    empty list keeps its key, no key is ever left out or added. *)
Theorem X18_keys_are_fixed :
  has_keys MessagePagination.to_dict_tree
       ["pageNumber"; "last_page_indication"]
  /\ has_keys GroupHeader.to_dict_tree
       ["messageIdentification"; "creationTime"; "messagePagination"]
  /\ has_keys FinancialInstitutionIdentification.to_dict_tree
       ["bicfi"; "name"; "other"]
  /\ has_keys Servicer.to_dict_tree
       ["financialInstitutionIdentification"]
  /\ has_keys Account.to_dict_tree
       ["iban"; "currency"; "servicer"]
  /\ has_keys Amount.to_dict_tree
       ["value"; "currency"]
  /\ has_keys Balance.to_dict_tree
       ["balanceType"; "amount"; "creditDebit"; "date"]
  /\ has_keys ProprietaryReference.to_dict_tree
       ["type"; "reference"]
  /\ has_keys References.to_dict_tree
       ["end_to_end_identification"; "mandate_identification"; "proprietaryReference"]
  /\ has_keys ProprietaryBankTransactionCode.to_dict_tree
       ["code"; "issuer"]
  /\ has_keys PrivateIdentification.to_dict_tree
       ["other"]
  /\ has_keys PartyIdentification.to_dict_tree
       ["name"; "identification"]
  /\ has_keys CashAccount.to_dict_tree
       ["iban"]
  /\ has_keys RelatedParties.to_dict_tree
       ["debtor"; "debtorAccount"; "creditor"; "creditorAccount"]
  /\ has_keys RelatedAgents.to_dict_tree
       ["debtorAgent"; "creditorAgent"]
  /\ has_keys RelatedRemittanceInformation.to_dict_tree
       ["unstructured"]
  /\ has_keys TransactionDetails.to_dict_tree
       ["references"; "bankTransactionCode"; "relatedAgents"; "relatedParties"; "relatedRemittanceInformation"]
  /\ has_keys EntryDetails.to_dict_tree
       ["transactionDetails"]
  /\ has_keys Entry.to_dict_tree
       ["amount"; "creditDebit"; "status"; "bookingDate"; "valueDate"; "accountServiceReference"; "details"; "additionalInformation"]
  /\ has_keys Report.to_dict_tree
       ["identification"; "eletronicSequenceNumber"; "creationTime"; "account"; "balances"; "entries"]
  /\ has_keys BankToCustomerAccountReport.to_dict_tree
       ["groupHeader"; "reports"].
Proof.
  repeat match goal with |- _ /\ _ => split end.
  - exact has_keys_MessagePagination.
  - exact has_keys_GroupHeader.
  - exact has_keys_FinancialInstitutionIdentification.
  - exact has_keys_Servicer.
  - exact has_keys_Account.
  - exact has_keys_Amount.
  - exact has_keys_Balance.
  - exact has_keys_ProprietaryReference.
  - exact has_keys_References.
  - exact has_keys_ProprietaryBankTransactionCode.
  - exact has_keys_PrivateIdentification.
  - exact has_keys_PartyIdentification.
  - exact has_keys_CashAccount.
  - exact has_keys_RelatedParties.
  - exact has_keys_RelatedAgents.
  - exact has_keys_RelatedRemittanceInformation.
  - exact has_keys_TransactionDetails.
  - exact has_keys_EntryDetails.
  - exact has_keys_Entry.
  - exact has_keys_Report.
  - exact has_keys_BankToCustomerAccountReport.
Qed.
End Keys.

Lemma X18_witness :
  @keys Reference.lib
    (PDict [("iban", PStr "DE00"); ("currency", PNone); ("servicer", PNone)])
  = ["iban"; "currency"; "servicer"].
Proof.
  pose proof (@X18_keys_are_fixed Reference.lib) as C.
  do 4 apply proj2 in C. apply proj1 in C.
  exact (C (Account.mk (Some "DE00") None None) _ eq_refl).
Defined.

(** ** The stray bank transaction code *)

Lemma tag_is_true (T : string) (c : Element) :
  tag_is T c = true -> strip_ns (tag c) = Ok T.
Proof.
  unfold tag_is. destruct (strip_ns (tag c)) as [t|]; [|discriminate].
  intros Ht. apply String.eqb_eq in Ht. now rewrite Ht.
Qed.

(** X19: an [Entry] is parsed as if its [BkTxCd] children were not there,
    however many there are and whatever they hold: nothing inside them is
    read, so that a [BkTxCd] which the parser of a [TxDtls] would refuse is
    accepted in an [Ntry]. *)
Theorem X19_entry_without_bank_transaction_codes `{PyLib} (tree : Element) :
  Entry.parse_xml tree = Entry.parse_xml (without "BkTxCd" tree).
Proof.
  unfold Entry.parse_xml, without. simpl.
  generalize Entry.init. induction (children tree) as [|c l IH]; intros s;
    [reflexivity|]. simpl.
  destruct (tag_is "BkTxCd" c) eqn:Hc; simpl.
  - rewrite (Entry_body_BkTxCd s c (tag_is_true _ _ Hc)). simpl. apply IH.
  - destruct (Entry.body s c); simpl; [apply IH | reflexivity].
Qed.
